(** * REDCap PDF Auto-fill Core: a shallow embedding of [main.py] and
    [redcap_helpers.py], and the properties of the record normalizer, the
    record fetch, the command-line validation and the PDF annotation walks. *)

From Stdlib Require Import String Ascii List Bool Arith Lia.
Import ListNotations.

Local Open Scope string_scope.
Local Open Scope list_scope.

(* ================================================================== *)
(** * Python primitives used by the program *)
(* ================================================================== *)

(** ** Exceptions *)

(** The built-in exception classes the program can raise. *)
Inductive exn : Type :=
| KeyError | IndexError | LookupError
| TypeError | ValueError | AttributeError | NameError
| FileNotFoundError | FileExistsError | OSError.

(** The direct base class, when it is not [Exception] itself. *)
Definition exn_base (e : exn) : option exn :=
  match e with
  | KeyError | IndexError => Some LookupError
  | FileNotFoundError | FileExistsError => Some OSError
  | _ => None
  end.

Definition exn_eqb (a b : exn) : bool :=
  match a, b with
  | KeyError, KeyError | IndexError, IndexError | LookupError, LookupError
  | TypeError, TypeError | ValueError, ValueError
  | AttributeError, AttributeError | NameError, NameError
  | FileNotFoundError, FileNotFoundError
  | FileExistsError, FileExistsError | OSError, OSError => true
  | _, _ => false
  end.

(** [exn_isa e c]: an exception of class [e] is caught by [except c]. *)
Definition exn_isa (e c : exn) : bool :=
  exn_eqb e c ||
  match exn_base e with
  | Some b => exn_eqb b c
  | None => false
  end.

(** A computation that returns or raises. *)
Inductive outcome (A : Type) : Type :=
| Ok (a : A)
| Err (e : exn).
Arguments Ok {A} a.
Arguments Err {A} e.

Definition bind {A B : Type} (m : outcome A) (k : A -> outcome B) : outcome B :=
  match m with
  | Ok a => k a
  | Err e => Err e
  end.

Notation "x <- m ;; k" := (bind m (fun x => k))
  (at level 61, m at next level, right associativity).

(** A [for] loop whose body may raise: the first exception ends the loop. *)
Fixpoint for_each {A S : Type} (body : S -> A -> outcome S) (xs : list A)
  (s : S) : outcome S :=
  match xs with
  | [] => Ok s
  | x :: xs' => s' <- body s x ;; for_each body xs' s'
  end.

(** ** Strings *)

(** A [str] is held as a [string] whose characters are the code points 0 to
    255 ([nat_of_ascii] gives the code point): the texts of a project in
    ASCII or Latin-1, the no-break space and the next-line control among
    them.  [in], [split], [join], [strip], [==], [endswith] and slicing work
    code point by code point, as they do in Python. *)

(** [sub in s] for strings. *)
Fixpoint py_contains (sub s : string) : bool :=
  match s with
  | EmptyString => prefix sub EmptyString
  | String _ s' => prefix sub s || py_contains sub s'
  end.

(** [s.split(sep)] for a non-empty [sep]: the separators are found from the
    left and do not overlap.  [skip] counts the characters of a separator
    that has been matched and is still to be passed over. *)
Fixpoint split_from (sep : string) (skip : nat) (s : string) : list string :=
  match s with
  | EmptyString => [EmptyString]
  | String c s' =>
      match skip with
      | S n => split_from sep n s'
      | O =>
          if prefix sep s
          then EmptyString :: split_from sep (String.length sep - 1) s'
          else match split_from sep 0 s' with
               | h :: t => String c h :: t
               | [] => [String c EmptyString]
               end
      end
  end.

Definition py_split (sep s : string) : list string := split_from sep 0 s.

(** [sep.join(parts)]. *)
Fixpoint py_join (sep : string) (parts : list string) : string :=
  match parts with
  | [] => EmptyString
  | [p] => p
  | p :: ps => (p ++ sep ++ py_join sep ps)%string
  end.

(** [c.isspace()] on the code points 0 to 255: tab, newline, vertical tab,
    form feed and carriage return (9-13), the four separators 28-31, the
    space (32), the next-line control U+0085 (133) and the no-break space
    U+00A0 (160). *)
Definition is_space (c : ascii) : bool :=
  let n := nat_of_ascii c in
  (Nat.leb 9 n && Nat.leb n 13) || (Nat.leb 28 n && Nat.leb n 32)
  || Nat.eqb n 133 || Nat.eqb n 160.

Fixpoint lstrip (s : string) : string :=
  match s with
  | EmptyString => EmptyString
  | String c s' => if is_space c then lstrip s' else s
  end.

Fixpoint rstrip (s : string) : string :=
  match s with
  | EmptyString => EmptyString
  | String c s' =>
      match rstrip s' with
      | EmptyString => if is_space c then EmptyString else String c EmptyString
      | r => String c r
      end
  end.

(** [s.strip()]: the white space of [is_space] is taken off both ends. *)
Definition py_strip (s : string) : string := rstrip (lstrip s).

Fixpoint drop_last (s : string) : string :=
  match s with
  | EmptyString => EmptyString
  | String _ EmptyString => EmptyString
  | String c s' => String c (drop_last s')
  end.

(** The slice [s[1:-1]]. *)
Definition slice_1_m1 (s : string) : string :=
  match s with
  | EmptyString => EmptyString
  | String _ s' => drop_last s'
  end.

(** [x in xs] for a list of strings. *)
Definition py_in (x : string) (xs : list string) : bool :=
  existsb (String.eqb x) xs.

(** ** Dictionaries *)

(** A [dict] with string keys keeps its entries in insertion order and its
    keys distinct; it is held as the list of its items. *)
Definition dict (V : Type) : Type := list (string * V).

(** [d.get(k)]: [None] when the key is absent. *)
Fixpoint dict_get {V : Type} (k : string) (d : dict V) : option V :=
  match d with
  | [] => None
  | (k', v) :: d' => if String.eqb k k' then Some v else dict_get k d'
  end.

(** [d[k]]: a missing key raises [KeyError]. *)
Definition dict_item {V : Type} (k : string) (d : dict V) : outcome V :=
  match dict_get k d with
  | Some v => Ok v
  | None => Err KeyError
  end.

(** [d[k] = v]: an existing key keeps its position, a new key goes last. *)
Fixpoint dict_set {V : Type} (k : string) (v : V) (d : dict V) : dict V :=
  match d with
  | [] => [(k, v)]
  | (k', v') :: d' =>
      if String.eqb k k' then (k, v) :: d' else (k', v') :: dict_set k v d'
  end.

(** [d.update(other)]. *)
Definition dict_update {V : Type} (d other : dict V) : dict V :=
  fold_left (fun acc kv => dict_set (fst kv) (snd kv) acc) other d.

Definition dict_keys {V : Type} (d : dict V) : list string := map fst d.
Definition dict_values {V : Type} (d : dict V) : list V := map snd d.

(** ** Values held by a record *)

(** A value of the working record: text, a boolean, or a mapping. *)
#[warnings="-register-all"] Inductive value : Type :=
| VStr (s : string)
| VBool (b : bool)
| VDict (d : list (string * value)).

(** The record as the API returns it: every value is text. *)
Definition raw_record : Type := dict string.

(** The record while and after it is normalized. *)
Definition record : Type := dict value.

Definition of_raw (raw : raw_record) : record :=
  map (fun kv => (fst kv, VStr (snd kv))) raw.

(** [isinstance(x, bool)]. *)
Definition is_bool (x : value) : bool :=
  match x with
  | VBool _ => true
  | _ => false
  end.

(** Truth value of [x] in a condition. *)
Definition truthy (x : value) : bool :=
  match x with
  | VStr s => negb (String.eqb s EmptyString)
  | VBool b => b
  | VDict d => match d with [] => false | _ => true end
  end.

(** [x != ""]. *)
Definition not_empty_str (x : value) : bool :=
  match x with
  | VStr s => negb (String.eqb s EmptyString)
  | _ => true
  end.

(** [any(it)] consumes [it] up to and including its first true element and
    returns whether there was one, with what is left of the iterator. *)
Fixpoint any_iter (it : list value) : bool * list value :=
  match it with
  | [] => (false, [])
  | x :: it' => if truthy x then (true, it') else any_iter it'
  end.

(* ================================================================== *)
(** * redcap_helpers.py: the metadata *)
(* ================================================================== *)

(** One entry of the project's metadata.  [None] for the choices stands for
    a missing key; REDCap sends the empty string for a field without
    choices. *)
Record field : Type := {
  field_name : string;
  field_type : string;
  select_choices_or_calculations : option string
}.

Definition _extract_field (md : list field) (which_field : string)
  : list string :=
  fold_left
    (fun result f =>
       if String.eqb (field_type f) which_field
       then result ++ [field_name f]
       else result)
    md [].

Definition get_radio_buttons_checkboxes (md : list field)
  : list string * list string :=
  (_extract_field md "radio", _extract_field md "checkbox").

(** The choices of one field, as the list of its options. *)
Definition split_choices (s : string) : list string :=
  let choices := py_split " | " s in
  if Nat.eqb (length choices) 1 then py_split "|" s else choices.

(** One option: its raw value and its display text. *)
Definition option_entry (option : string) : string * string :=
  let option_fragments := py_split ", " (py_strip option) in
  (hd EmptyString option_fragments, py_join ", " (tl option_fragments)).

Definition choices_sub_dict (s : string) : dict string :=
  fold_left
    (fun sub_dict option =>
       dict_set (fst (option_entry option)) (snd (option_entry option))
         sub_dict)
    (split_choices s) [].

Definition get_multiple_choice_text (md : list field) : dict (dict string) :=
  fold_left
    (fun texts f =>
       match select_choices_or_calculations f with
       | Some s =>
           if String.eqb s EmptyString then texts
           else dict_set (field_name f) (choices_sub_dict s) texts
       | None => texts
       end)
    md [].

(* ================================================================== *)
(** * main.py: the record normalizer *)
(* ================================================================== *)

Definition RADIO_BUTTON_CHOICE_SUFFIX : string := "__rchoice".

(** The test of the checkbox branch: the variable splits on the separator
    and its first token is a checkbox of the metadata. *)
Definition is_checkbox_variable (checkboxes : list string)
  (redcap_variable : string) : bool :=
  let checkbox_token_check := py_split "___" redcap_variable in
  Nat.ltb 1 (length checkbox_token_check)
  && py_in (hd EmptyString checkbox_token_check) checkboxes.

(** The body of the loop over the variables of the record.  The state is the
    record [r] being rewritten and [new_dict_of_radio_values].  The value of
    the variable is read before the only write to that key, so it is the
    text of the raw record. *)
Definition convert_variable (raw : raw_record)
  (radio_buttons checkboxes : list string)
  (st : record * record) (redcap_variable : string) : record * record :=
  let '(r, new_dict_of_radio_values) := st in
  match dict_get redcap_variable raw with
  | None => st
  | Some redcap_value =>
      if is_checkbox_variable checkboxes redcap_variable then
        (dict_set redcap_variable (VBool (String.eqb redcap_value "1")) r,
         new_dict_of_radio_values)
      else if py_in redcap_variable radio_buttons then
        (dict_set redcap_variable (VDict [(redcap_value, VBool true)]) r,
         if negb (String.eqb redcap_value EmptyString)
         then dict_set
                (redcap_variable ++ RADIO_BUTTON_CHOICE_SUFFIX)%string
                (VStr redcap_value) new_dict_of_radio_values
         else new_dict_of_radio_values)
      else st
  end.

Definition convert_checkboxes_and_radio_buttons (raw : raw_record)
  (md : list field) : record :=
  let '(radio_buttons, checkboxes) := get_radio_buttons_checkboxes md in
  let '(r, new_dict_of_radio_values) :=
    fold_left (convert_variable raw radio_buttons checkboxes)
      (dict_keys raw) (of_raw raw, []) in
  dict_update r new_dict_of_radio_values.

(** [proj_multi_choice_text[name][v]]: the subscript by a mapping is a
    [TypeError] (unhashable), a boolean is no key of a map of texts. *)
Definition choice_text (texts : dict (dict string)) (name : string)
  (v : value) : outcome string :=
  sub_dict <- dict_item name texts ;;
  match v with
  | VStr s => dict_item s sub_dict
  | VBool _ => Err KeyError
  | VDict _ => Err TypeError
  end.

(** The body of the loop of [convert_dropdowns_to_strings]. *)
Definition convert_dropdown (texts : dict (dict string)) (r : record)
  (f : field) : outcome record :=
  if String.eqb (field_type f) "dropdown" then
    let dropdown_var_name := field_name f in
    v <- dict_item dropdown_var_name r ;;
    if not_empty_str v then
      text <- choice_text texts dropdown_var_name v ;;
      Ok (dict_set dropdown_var_name (VStr text) r)
    else Ok r
  else Ok r.

Definition convert_dropdowns_to_strings (r : record) (md : list field)
  : outcome record :=
  let proj_multi_choice_text := get_multiple_choice_text md in
  for_each (convert_dropdown proj_multi_choice_text) md r.

(** [_contains_only_one_true]: [any(i) and not any(i)] on one iterator. *)
Definition _contains_only_one_true (iterable : list value) : bool :=
  let '(found, rest) := any_iter iterable in
  found && negb (fst (any_iter rest)).

(** [r[radio_group].values()] and the other uses of the group as a
    mapping: text and booleans have no such attribute. *)
Definition as_mapping (v : value) : outcome (dict value) :=
  match v with
  | VDict d => Ok d
  | _ => Err AttributeError
  end.

(** The loop over the keys of the group with its [break]: the first key
    whose value [r[radio_group][k]] is true, with that value. *)
Fixpoint first_true_key (d : dict value) (keys : list string)
  : option (string * value) :=
  match keys with
  | [] => None
  | k :: keys' =>
      match dict_get k d with
      | Some x => if truthy x then Some (k, x) else first_true_key d keys'
      | None => first_true_key d keys'
      end
  end.

(** The body of the loop of [collapse_radio_groups]. *)
Definition collapse_radio_group (r : record) (radio_group : string)
  : outcome record :=
  g <- dict_item radio_group r ;;
  d <- as_mapping g ;;
  let vals := dict_values d in
  if existsb (fun x => negb (is_bool x)) vals then Err TypeError
  else if negb (_contains_only_one_true vals) then Err ValueError
  else if Nat.ltb 1 (length d) then
    match first_true_key d (dict_keys d) with
    | Some (k, x) => Ok (dict_set radio_group (VDict [(k, x)]) r)
    | None => Ok r
    end
  else Ok r.

Definition radio_groups (md : list field) : list string :=
  map field_name (filter (fun f => String.eqb (field_type f) "radio") md).

Definition collapse_radio_groups (r : record) (md : list field)
  : outcome record :=
  let groups := radio_groups md in
  for_each collapse_radio_group groups r.

Definition prepare_for_fill (raw : raw_record) (md : list field)
  : outcome record :=
  let r := convert_checkboxes_and_radio_buttons raw md in
  r <- convert_dropdowns_to_strings r md ;;
  collapse_radio_groups r md.

(* ================================================================== *)
(** * redcap_helpers.py: the record fetch *)
(* ================================================================== *)

(** What [json.loads] makes of the text the API answered: a list of
    records, an object (the error payload is the object with the key
    ["error"]), or a scalar. *)
Inductive reply : Type :=
| ReplyList (records : list raw_record)
| ReplyDict (d : dict string)
| ReplyScalar (text : string).

(** How a fetch ends: it returns, it raises an exception with its message,
    or it prints a line and leaves the process through [exit]. *)
Inductive fetch (A : Type) : Type :=
| Returned (a : A)
| Raised (e : exn) (message : string)
| Exited (printed : string) (status : nat).
Arguments Returned {A} a.
Arguments Raised {A} e message.
Arguments Exited {A} printed status.

(** What [get_record] hands back when it returns: the record, or the
    scalar it was given. *)
Inductive fetched : Type :=
| FetchedRecord (r : raw_record)
| FetchedScalar (text : string).

Definition no_records_message (redcap_unique_identifier record_id : string)
  : string :=
  ("No records found where '" ++ redcap_unique_identifier ++ "' = "
   ++ record_id)%string.

Definition multiple_records_message
  (redcap_unique_identifier record_id : string) : string :=
  ("Multiple records found where '" ++ redcap_unique_identifier ++ "' = "
   ++ record_id ++ " (expected only 1)")%string.

Definition record_error_line (record_id error : string) : string :=
  ("REDCap API returned an error while fetching record " ++ record_id
   ++ ": " ++ error)%string.

Definition metadata_error_line (error : string) : string :=
  ("REDCap API returned an error while fetching metadata: " ++ error)%string.

(** [get_record], from the parsed answer of [_request_record] on. *)
Definition get_record (record : reply)
  (redcap_unique_identifier record_id : string) : fetch fetched :=
  match record with
  | ReplyDict d =>
      match dict_get "error" d with
      | None => Raised KeyError "'error'"
      | Some error =>
          if negb (String.eqb error EmptyString)
          then Exited (record_error_line record_id error) 1
          else Returned (FetchedRecord d)
      end
  | ReplyList l =>
      match l with
      | [] =>
          Raised LookupError
            (no_records_message redcap_unique_identifier record_id)
      | [r] => Returned (FetchedRecord r)
      | _ :: _ :: _ =>
          Raised LookupError
            (multiple_records_message redcap_unique_identifier record_id)
      end
  | ReplyScalar text => Returned (FetchedScalar text)
  end.

(** What [json.loads] makes of the answer to the metadata request. *)
Inductive metadata_reply : Type :=
| MetadataList (md : list field)
| MetadataDict (d : dict string).

(** [get_metadata], from the parsed answer of [_request_metadata] on. *)
Definition get_metadata (md : metadata_reply) : fetch metadata_reply :=
  match md with
  | MetadataDict d =>
      match dict_get "error" d with
      | None => Raised KeyError "'error'"
      | Some error =>
          if negb (String.eqb error EmptyString)
          then Exited (metadata_error_line error) 1
          else Returned md
      end
  | MetadataList _ => Returned md
  end.

(* ================================================================== *)
(** * main.py: the command line *)
(* ================================================================== *)

(** The parsed arguments. *)
Record Namespace : Type := {
  identifier : string;
  record_variable : string;
  input_pdf : string;
  output_pdf : option string
}.

(** [s.endswith(suffix)]. *)
Fixpoint py_endswith (suffix s : string) : bool :=
  String.eqb s suffix ||
  match s with
  | EmptyString => false
  | String _ s' => py_endswith suffix s'
  end.

Definition TAB : string := String (ascii_of_nat 9) EmptyString.
Definition NEWLINE : string := String (ascii_of_nat 10) EmptyString.

Section CommandLine.

(** [pathlib] and the clock are outside the program: a path is made from
    text, compared, printed, asked for its stem and looked up in the file
    system; [now] is the time stamp of the call. *)
Variable path : Type.
Variable Path : string -> path.
Variable path_eqb : path -> path -> bool.
Variable path_str : path -> string.
Variable path_stem : path -> string.
Variable path_exists : path -> bool.
Variable now : string.

(** What the validation does to the world around it. *)
Inductive event : Type :=
| Stat (p : path)
| Print (line : string).

Definition default_output_pdf (inp : Namespace) : string :=
  ("./output/" ++ now ++ "_" ++ path_stem (Path (input_pdf inp)) ++ "_"
   ++ identifier inp ++ ".pdf")%string.

(** The branch that settles [output_pdf_path], with what it prints. *)
Definition choose_output_pdf (inp : Namespace) : list event * path :=
  match output_pdf inp with
  | Some o =>
      if String.eqb o EmptyString then
        ([Print ("No output PDF file specified; writing filled PDF to: "
                 ++ default_output_pdf inp)%string],
         Path (default_output_pdf inp))
      else if negb (py_endswith ".pdf" o) then
        ([Print ("Warning: Output PDF does not have a '.pdf' extension: "
                 ++ o)%string;
          Print "         Auto-filling will continue to function, but you may have trouble opening the output PDF."],
         Path o)
      else ([], Path o)
  | None =>
      ([Print ("No output PDF file specified; writing filled PDF to: "
               ++ default_output_pdf inp)%string],
       Path (default_output_pdf inp))
  end.

Definition inputs_line (inp : Namespace) (i o : path) : string :=
  ("Inputs: Record:" ++ TAB ++ TAB ++ identifier inp ++ NEWLINE
   ++ TAB ++ "REDCap var:" ++ TAB ++ record_variable inp ++ NEWLINE
   ++ TAB ++ "Template PDF:" ++ TAB ++ path_str i ++ NEWLINE
   ++ TAB ++ "Output PDF:" ++ TAB ++ path_str o)%string.

(** [get_cmd_line_input]: what it does to the world, in order, and how it
    ends. *)
Definition get_cmd_line_input (inp : Namespace)
  : list event * outcome (string * string * path * path) :=
  if negb (py_endswith ".pdf" (input_pdf inp)) then ([], Err ValueError)
  else
    let input_pdf_path := Path (input_pdf inp) in
    if negb (path_exists input_pdf_path)
    then ([Stat input_pdf_path], Err FileNotFoundError)
    else
      let '(printed, output_pdf_path) := choose_output_pdf inp in
      if path_eqb input_pdf_path output_pdf_path
      then (Stat input_pdf_path :: printed, Err FileExistsError)
      else
        (Stat input_pdf_path :: printed
           ++ [Print (inputs_line inp input_pdf_path output_pdf_path)],
         Ok (identifier inp, record_variable inp, input_pdf_path,
             output_pdf_path)).

End CommandLine.

Arguments Stat {path} p.
Arguments Print {path} line.

(* ================================================================== *)
(** * main.py: the PDF template *)
(* ================================================================== *)

Definition SUBTYPE_WIDGET : string := "/Widget".

(** [pdfrw.PdfName(s)]: the name object, which is the text [/s]. *)
Definition PdfName (s : string) : string := String "/" s.

(** What the program stores under [/V] and [/AS]: a name, or a value of
    the record as it is. *)
Inductive PdfObject : Type :=
| PName (name : string)
| PValue (v : value).

(** What is found under [/AP]: the appearance dictionary, of which the walk
    reads the keys of the [/D] entry when there is one, or the text that the
    filling of a text field puts there. *)
Inductive appearance : Type :=
| APDict (D : option (list string))
| APText (s : string).

(** A dictionary of the template, annotation or parent, by the keys the
    program reads and writes.  [T] is the string object with its
    delimiters; [Parent] is a reference into the objects of the document. *)
Record PdfDict : Type := {
  Subtype : option string;
  T : option string;
  V : option PdfObject;
  AS : option PdfObject;
  AP : option appearance;
  Parent : option nat
}.

(** The template once read: the objects that annotations refer to as their
    parent, shared between the annotations that name them; the pages with
    their annotations, if any; and the [/NeedAppearances] entry of the form,
    when the document has a form. *)
Record PdfReader : Type := {
  objects : list PdfDict;
  pages : list (option (list PdfDict));
  AcroForm : option bool
}.

Definition is_widget (annotation : PdfDict) : bool :=
  match Subtype annotation with
  | Some s => String.eqb s SUBTYPE_WIDGET
  | None => false
  end.

(** The test [if annotation[ANNOT_FIELD_KEY]]: the key is there and its
    text is not empty. *)
Definition field_key (d : PdfDict) : option string :=
  match T d with
  | Some t => if String.eqb t EmptyString then None else Some t
  | None => None
  end.

(** [xs[i] = x] on the objects: nothing to write to out of range. *)
Fixpoint store_set (i : nat) (x : PdfDict) (xs : list PdfDict)
  : list PdfDict :=
  match xs, i with
  | [], _ => []
  | _ :: xs', O => x :: xs'
  | y :: xs', S i' => y :: store_set i' x xs'
  end.

(** [annotation[PARENT_KEY]] ready to be subscripted.  A missing key reads
    as [None], and subscripting [None] is a [TypeError].  A key that holds a
    reference is resolved by the library at this access: a reference to an
    object of the document gives that object, and a reference to nothing
    makes the library raise [NameError]. *)
Definition parent_of (objs : list PdfDict) (annotation : PdfDict)
  : outcome (nat * PdfDict) :=
  match Parent annotation with
  | Some p =>
      match nth_error objs p with
      | Some parent => Ok (p, parent)
      | None => Err NameError
      end
  | None => Err TypeError
  end.

(** [annotation[APPEARANCE_KEY][D_KEY].keys()]: [None] and text cannot be
    subscripted by a name, and [None] has no keys. *)
Definition down_states (annotation : PdfDict) : outcome (list string) :=
  match AP annotation with
  | None => Err TypeError
  | Some (APText _) => Err TypeError
  | Some (APDict None) => Err AttributeError
  | Some (APDict (Some states)) => Ok states
  end.

(** The name before the checkbox separator. *)
Definition group_name (key : string) : string :=
  if py_contains "___" key then hd EmptyString (py_split "___" key) else key.

Definition append_new (key : string) (result : list string) : list string :=
  if py_in key result then result else result ++ [key].

(** The body of the inner loop of [get_pdf_fields]. *)
Definition collect_annotation (objs : list PdfDict) (result : list string)
  (annotation : PdfDict) : outcome (list string) :=
  if is_widget annotation then
    match field_key annotation with
    | Some t => Ok (append_new (group_name (slice_1_m1 t)) result)
    | None =>
        pp <- parent_of objs annotation ;;
        match field_key (snd pp) with
        | Some t => Ok (append_new (group_name (slice_1_m1 t)) result)
        | None => Ok result
        end
    end
  else Ok result.

Definition collect_page (objs : list PdfDict) (result : list string)
  (page : option (list PdfDict)) : outcome (list string) :=
  match page with
  | None => Ok result
  | Some annotations => for_each (collect_annotation objs) annotations result
  end.

Definition get_pdf_fields (template_pdf : PdfReader) : outcome (list string) :=
  for_each (collect_page (objects template_pdf)) (pages template_pdf) [].

(** [update(PdfDict(AS=..., V=...))] and its kin. *)
Definition update_AS_V (d : PdfDict) (x : PdfObject) : PdfDict :=
  {| Subtype := Subtype d; T := T d; V := Some x; AS := Some x;
     AP := AP d; Parent := Parent d |}.

Definition update_AP_V (d : PdfDict) (a : appearance) (x : PdfObject)
  : PdfDict :=
  {| Subtype := Subtype d; T := T d; V := Some x; AS := AS d;
     AP := Some a; Parent := Parent d |}.

Definition update_V (d : PdfDict) (x : PdfObject) : PdfDict :=
  {| Subtype := Subtype d; T := T d; V := Some x; AS := AS d;
     AP := AP d; Parent := Parent d |}.

Definition update_AS (d : PdfDict) (x : PdfObject) : PdfDict :=
  {| Subtype := Subtype d; T := T d; V := V d; AS := Some x;
     AP := AP d; Parent := Parent d |}.

Definition on_off (b : bool) : PdfObject :=
  if b then PName (PdfName "Yes") else PName (PdfName "Off").

(** The body of the inner loop of [fill_pdf]: the objects and the
    annotation after it. *)
Definition fill_annotation (data_dict : record) (objs : list PdfDict)
  (annotation : PdfDict) : outcome (list PdfDict * PdfDict) :=
  if is_widget annotation then
    match field_key annotation with
    | Some t =>
        let key := slice_1_m1 t in
        match dict_get key data_dict with
        | Some (VBool b) => Ok (objs, update_AS_V annotation (on_off b))
        | Some v =>
            Ok (objs, update_AP_V annotation (APText EmptyString) (PValue v))
        | None => Ok (objs, annotation)
        end
    | None =>
        pp <- parent_of objs annotation ;;
        let '(p, parent) := pp in
        match field_key parent with
        | Some t =>
            let group := slice_1_m1 t in
            match dict_get group data_dict with
            | Some (VDict ((k0, _) :: _)) =>
                let selected_radio_button := PdfName k0 in
                states <- down_states annotation ;;
                if py_in selected_radio_button states then
                  Ok (store_set p
                        (update_V parent (PName selected_radio_button)) objs,
                      update_AS annotation (PName selected_radio_button))
                else Ok (objs, annotation)
            | Some (VBool b) => Ok (objs, update_AS_V annotation (on_off b))
            | Some v =>
                Ok (store_set p
                      (update_AP_V parent (APText EmptyString) (PValue v))
                      objs,
                    annotation)
            | None => Ok (objs, annotation)
            end
        | None => Ok (objs, annotation)
        end
    end
  else Ok (objs, annotation).

(** The inner loop: the annotations of a page, one after the other, on the
    same objects. *)
Fixpoint fill_annotations (data_dict : record) (objs : list PdfDict)
  (annotations : list PdfDict) : outcome (list PdfDict * list PdfDict) :=
  match annotations with
  | [] => Ok (objs, [])
  | annotation :: rest =>
      oa <- fill_annotation data_dict objs annotation ;;
      ol <- fill_annotations data_dict (fst oa) rest ;;
      Ok (fst ol, snd oa :: snd ol)
  end.

(** The outer loop. *)
Fixpoint fill_pages (data_dict : record) (objs : list PdfDict)
  (pgs : list (option (list PdfDict)))
  : outcome (list PdfDict * list (option (list PdfDict))) :=
  match pgs with
  | [] => Ok (objs, [])
  | None :: rest =>
      ol <- fill_pages data_dict objs rest ;;
      Ok (fst ol, None :: snd ol)
  | Some annotations :: rest =>
      oa <- fill_annotations data_dict objs annotations ;;
      ol <- fill_pages data_dict (fst oa) rest ;;
      Ok (fst ol, Some (snd oa) :: snd ol)
  end.

(** [fill_pdf] up to the call of the writer: the document that is handed to
    [PdfWriter().write], after the walk and the update of the form.  A
    document without a form has nothing to update.  The creation of the
    output directory and the serialisation done by the writer, which can
    still raise on the document it is given, are not part of the model. *)
Definition fill_pdf (template_pdf : PdfReader) (data_dict : record)
  : outcome PdfReader :=
  op <- fill_pages data_dict (objects template_pdf) (pages template_pdf) ;;
  match AcroForm template_pdf with
  | Some _ =>
      Ok {| objects := fst op; pages := snd op; AcroForm := Some true |}
  | None => Err AttributeError
  end.

(* ================================================================== *)
(** * The vocabulary of the properties *)
(* ================================================================== *)

(** The metadata declares a field of this name with this type. *)
Definition declared (md : list field) (ty name : string) : Prop :=
  exists f, In f md /\ field_type f = ty /\ field_name f = name.

(** The key splits on the separator into two parts or more and the first
    part is a checkbox of the metadata. *)
Definition checkbox_key (md : list field) (k : string) : Prop :=
  1 < length (py_split "___" k)
  /\ declared md "checkbox" (hd EmptyString (py_split "___" k)).

(** The key is treated as a radio button: it is a radio field of the
    metadata and was not taken for a checkbox first. *)
Definition radio_key (md : list field) (k : string) : Prop :=
  ~ checkbox_key md k /\ declared md "radio" k.

(** The key is the text companion of a radio button of the record whose raw
    value is not empty. *)
Definition staged_key (raw : raw_record) (md : list field) (k : string)
  : Prop :=
  exists g v,
    dict_get g raw = Some v /\ radio_key md g /\ v <> EmptyString
    /\ k = (g ++ RADIO_BUTTON_CHOICE_SUFFIX)%string.

(** The value under [k] once the pass has visited [k], from the value
    [before] the visit. *)
Definition visited_value (raw : raw_record)
  (radio_buttons checkboxes : list string) (k : string)
  (before : option value) : option value :=
  match dict_get k raw with
  | Some v =>
      if is_checkbox_variable checkboxes k
      then Some (VBool (String.eqb v "1"))
      else if py_in k radio_buttons
           then Some (VDict [(v, VBool true)])
           else before
  | None => before
  end.

(** The entry that the visit of [g] puts aside for the merge, if any. *)
Definition staged_entry (raw : raw_record)
  (radio_buttons checkboxes : list string) (g : string)
  : option (string * value) :=
  match dict_get g raw with
  | Some v =>
      if is_checkbox_variable checkboxes g then None
      else if py_in g radio_buttons then
        if negb (String.eqb v EmptyString)
        then Some ((g ++ RADIO_BUTTON_CHOICE_SUFFIX)%string, VStr v)
        else None
      else None
  | None => None
  end.

(** The number of values of a mapping that are the boolean true. *)
Definition is_true (x : value) : bool :=
  match x with
  | VBool true => true
  | _ => false
  end.

Definition count_true (vals : list value) : nat :=
  length (filter is_true vals).

(** The mappings held by a record are dictionaries: their keys are
    distinct. *)
Definition distinct_keys (x : value) : Prop :=
  match x with
  | VDict d => NoDup (dict_keys d)
  | _ => True
  end.

Definition well_formed (r : record) : Prop :=
  forall k x, dict_get k r = Some x -> distinct_keys x.

(** The names of the fields that the metadata declares as dropdowns. *)
Definition dropdown_names (md : list field) : list string :=
  map field_name
    (filter (fun f => String.eqb (field_type f) "dropdown") md).

(** The display text of a raw value of a field in a choice-text map. *)
Definition display_text (texts : dict (dict string)) (name v : string)
  : option string :=
  match dict_get name texts with
  | Some sub_dict => dict_get v sub_dict
  | None => None
  end.

(** The last element of a list that passes a test, through [g]. *)
Definition last_match {A B : Type} (p : A -> bool) (g : A -> B)
  (xs : list A) (start : option B) : option B :=
  fold_left (fun acc x => if p x then Some (g x) else acc) xs start.

(** The field carries a choice-encoding string that is not empty. *)
Definition choices_of (f : field) : option string :=
  match select_choices_or_calculations f with
  | Some s => if String.eqb s EmptyString then None else Some s
  | None => None
  end.

(** The choice-text map in the words of its description: the field of
    that name that comes last in the metadata gives the choices; its string
    is split into options; the option that comes last among those whose
    first token is the raw value gives the text, which is the rest of its
    tokens joined again. *)
Definition described_display_text (md : list field) (name v : string)
  : option string :=
  match last_match
          (fun f => match choices_of f with
                    | Some _ => String.eqb name (field_name f)
                    | None => false
                    end)
          (fun f => match choices_of f with
                    | Some s => s
                    | None => EmptyString
                    end)
          md None with
  | Some s =>
      last_match
        (fun option =>
           String.eqb v
             (hd EmptyString (py_split ", " (py_strip option))))
        (fun option =>
           py_join ", " (tl (py_split ", " (py_strip option))))
        (if Nat.eqb (length (py_split " | " s)) 1
         then py_split "|" s else py_split " | " s)
        None
  | None => None
  end.

(** The value under [k] after the dropdown conversion, from the value
    [before] it: the text of a dropdown that is not empty is replaced by its
    display text. *)
Definition dropdown_result (texts : dict (dict string))
  (names : list string) (k : string) (before : option value)
  : option value :=
  if py_in k names then
    match before with
    | Some (VStr s) =>
        if String.eqb s EmptyString then before
        else option_map VStr (display_text texts k s)
    | _ => before
    end
  else before.

(** The portion of a name before the first occurrence of the checkbox
    separator, the whole name when there is none. *)
Definition before_separator (name : string) : string :=
  match index 0 "___" name with
  | Some n => substring 0 n name
  | None => name
  end.

(** The field name that a dictionary carries, without its delimiters. *)
Definition carried_name (d : PdfDict) : option string :=
  option_map slice_1_m1 (field_key d).

(** The logical name of an annotation: its own field name if it carries
    one, else the field name of its parent, cut at the separator. *)
Definition logical_name (objs : list PdfDict) (annotation : PdfDict)
  : option string :=
  match carried_name annotation with
  | Some name => Some (before_separator name)
  | None =>
      match Parent annotation with
      | Some p =>
          match nth_error objs p with
          | Some parent => option_map before_separator (carried_name parent)
          | None => None
          end
      | None => None
      end
  end.

(** The Widget annotations of the document, page after page. *)
Definition widgets (template_pdf : PdfReader) : list PdfDict :=
  flat_map
    (fun page => match page with
                 | Some annotations => filter is_widget annotations
                 | None => []
                 end)
    (pages template_pdf).

(** The logical names of the widgets, in the order of the walk. *)
Definition logical_names (template_pdf : PdfReader) : list string :=
  flat_map
    (fun a => match logical_name (objects template_pdf) a with
              | Some n => [n]
              | None => []
              end)
    (widgets template_pdf).

(** A sequence without its repetitions: each element where it is first
    seen. *)
Fixpoint first_seen (names : list string) : list string :=
  match names with
  | [] => []
  | n :: names' =>
      n :: filter (fun m => negb (String.eqb m n)) (first_seen names')
  end.

(** The widget has a field name of its own or a parent to ask for one. *)
Definition has_name_or_parent (objs : list PdfDict) (a : PdfDict) : Prop :=
  field_key a = None ->
  exists p parent, Parent a = Some p /\ nth_error objs p = Some parent.

(** The appearance states that a dictionary declares under [/AP], [/D]. *)
Definition declared_states (d : PdfDict) : list string :=
  match AP d with
  | Some (APDict (Some states)) => states
  | _ => []
  end.

(** A template for the examples: a checkbox with a name of its own and a
    radio group of two widgets under one parent, on two pages with a page
    without annotations between them. *)
Definition demo_parent : PdfDict :=
  {| Subtype := None; T := Some "(rg1)"; V := None; AS := None;
     AP := None; Parent := None |}.

Definition demo_checkbox : PdfDict :=
  {| Subtype := Some "/Widget"; T := Some "(cb_1___3)"; V := None;
     AS := None; AP := None; Parent := None |}.

Definition demo_radio (states : list string) : PdfDict :=
  {| Subtype := Some "/Widget"; T := None; V := None; AS := None;
     AP := Some (APDict (Some states)); Parent := Some 0 |}.

Definition demo_template : PdfReader :=
  {| objects := [demo_parent];
     pages := [ Some [demo_checkbox; demo_radio ["/1"; "/Off"]];
                None;
                Some [demo_radio ["/2"; "/Off"]] ];
     AcroForm := Some false |}.

(** A widget of the group whose appearance dictionary has no [/D] entry. *)
Definition demo_radio_without_down : PdfDict :=
  {| Subtype := Some "/Widget"; T := None; V := None; AS := None;
     AP := Some (APDict None); Parent := Some 0 |}.

(** The record of the examples: the choice 2 in the group. *)
Definition demo_record : record :=
  [("rg1", VDict [("2", VBool true)]); ("rg1__rchoice", VStr "2")].

(** A widget without a field name and without a parent. *)
Definition orphan_widget : PdfDict :=
  {| Subtype := Some "/Widget"; T := None; V := None; AS := None;
     AP := None; Parent := None |}.

(** The arguments of the examples: the output path is the template. *)
Definition demo_arguments : Namespace :=
  {| identifier := "7"; record_variable := "record_id";
     input_pdf := "form.pdf"; output_pdf := Some "form.pdf" |}.

(** The answer of the API that refuses the token. *)
Definition demo_error_payload : reply :=
  ReplyDict [("error", "You do not have permissions to use the API")].

(** The text without its first [n] characters. *)
Fixpoint drop_chars (n : nat) (s : string) : string :=
  match n, s with
  | S n', String _ s' => drop_chars n' s'
  | _, _ => s
  end.

(* ================================================================== *)
(** * The other functions of the two files *)
(* ================================================================== *)

(** [get_fields_and_types]: the type of each field by its name. *)
Definition get_fields_and_types (md : list field) : dict string :=
  fold_left (fun result f => dict_set (field_name f) (field_type f) result)
    md [].

(** [load_secrets], from the object that [json.load] has read on: both
    keys are looked up, the second only when the first is not empty. *)
Definition load_secrets (result : dict string) : outcome (dict string) :=
  api_key <- dict_item "api_key" result ;;
  if negb (String.eqb api_key EmptyString) then
    url <- dict_item "url" result ;;
    if negb (String.eqb url EmptyString) then Ok result
    else Err ValueError
  else Err ValueError.

(** The mappings of a record have one entry at most. *)
Definition small_mappings (r : record) : Prop :=
  forall k d, dict_get k r = Some (VDict d) -> length d <= 1.

(** The mapping from one key to true. *)
Definition chosen (x : value) : Prop :=
  exists k, x = VDict [(k, VBool true)].

(** A metadata list and a raw record for the examples of the pipeline: a
    radio group, a dropdown and a checkbox. *)
Definition demo_md : list field :=
  [ {| field_name := "rg1"; field_type := "radio";
       select_choices_or_calculations := Some "1, One | 2, Two" |};
    {| field_name := "dd1"; field_type := "dropdown";
       select_choices_or_calculations := Some "1, Red | 2, Blue" |};
    {| field_name := "cb"; field_type := "checkbox";
       select_choices_or_calculations := Some "1, A | 2, B" |} ].

Definition demo_raw : raw_record :=
  [("rg1", "2"); ("dd1", "1"); ("cb___1", "1"); ("cb___2", "0");
   ("note", "x")].

(** What asking a widget for its logical name raises, if anything: a widget
    with a field name of its own is not asked for its parent; a widget
    without one raises [TypeError] when it has no parent entry, and
    [NameError] when its parent entry refers to no object. *)
Definition parent_fault (objs : list PdfDict) (a : PdfDict) : option exn :=
  match field_key a with
  | Some _ => None
  | None =>
      match Parent a with
      | Some p =>
          match nth_error objs p with
          | Some _ => None
          | None => Some NameError
          end
      | None => Some TypeError
      end
  end.

(** The fault of the first widget, in the order of the walk, that has one. *)
Fixpoint first_fault (objs : list PdfDict) (l : list PdfDict) : option exn :=
  match l with
  | [] => None
  | a :: l' =>
      match parent_fault objs a with
      | Some e => Some e
      | None => first_fault objs l'
      end
  end.

(** The widget has no field name of its own and no parent to ask. *)
Definition is_orphan (objs : list PdfDict) (a : PdfDict) : bool :=
  match field_key a with
  | Some _ => false
  | None =>
      match Parent a with
      | Some p =>
          match nth_error objs p with
          | Some _ => false
          | None => true
          end
      | None => true
      end
  end.

(** The key under which the filling looks an annotation up in the record:
    its own field name, else that of its parent, in full. *)
Definition fill_key (objs : list PdfDict) (a : PdfDict) : option string :=
  match carried_name a with
  | Some k => Some k
  | None =>
      match Parent a with
      | Some p =>
          match nth_error objs p with
          | Some parent => carried_name parent
          | None => None
          end
      | None => None
      end
  end.

(** Two dictionaries with the same subtype, field name and parent. *)
Definition same_fields (a b : PdfDict) : Prop :=
  Subtype a = Subtype b /\ T a = T b /\ Parent a = Parent b.

(** Two pages with annotations of the same fields, one by one. *)
Definition same_page (p q : option (list PdfDict)) : Prop :=
  match p, q with
  | None, None => True
  | Some l, Some l' => Forall2 same_fields l l'
  | _, _ => False
  end.

(** What the filling puts in the place of a parent when a widget of the
    group makes it write there: the chosen name as value for a mapping, the
    value and an empty appearance for a text. *)
Definition parent_write (data_dict : record) (parent : PdfDict) : PdfDict :=
  match field_key parent with
  | Some t =>
      match dict_get (slice_1_m1 t) data_dict with
      | Some (VDict ((k0, _) :: _)) => update_V parent (PName (PdfName k0))
      | Some (VDict []) =>
          update_AP_V parent (APText EmptyString) (PValue (VDict []))
      | Some (VBool _) => parent
      | Some (VStr s) =>
          update_AP_V parent (APText EmptyString) (PValue (VStr s))
      | None => parent
      end
  | None => parent
  end.

(** The filling of the annotation changes nothing any more. *)
Definition settled (data_dict : record) (objs : list PdfDict)
  (a : PdfDict) : Prop :=
  fill_annotation data_dict objs a = Ok (objs, a).

(* ================================================================== *)
(** * Properties *)
(* ================================================================== *)

(** The scenario of the dropdown: raw value 2 becomes its display text. *)
Example dropdown_scenario :
  prepare_for_fill [("dd1", "2")]
    [ {| field_name := "dd1"; field_type := "dropdown";
         select_choices_or_calculations := Some "1, Red | 2, Blue" |} ]
  = Ok [("dd1", VStr "Blue")].
Proof. reflexivity. Qed.

(** The scenario of the radio group with its text companion. *)
Example radio_scenario :
  prepare_for_fill [("rg1", "2")]
    [ {| field_name := "rg1"; field_type := "radio";
         select_choices_or_calculations := Some "1, One | 2, Two" |} ]
  = Ok [("rg1", VDict [("2", VBool true)]); ("rg1__rchoice", VStr "2")].
Proof. reflexivity. Qed.

(* ------------------------------------------------------------------ *)
(** ** Strings *)
(* ------------------------------------------------------------------ *)

Lemma length_append (a b : string) :
  String.length (a ++ b) = String.length a + String.length b.
Proof. induction a as [|c a IH]; simpl; [reflexivity | now rewrite IH]. Qed.

Lemma append_assoc (a b c : string) :
  ((a ++ b) ++ c = a ++ (b ++ c))%string.
Proof. induction a as [|x a IH]; simpl; [reflexivity | now rewrite IH]. Qed.

Lemma append_empty_r (a : string) : (a ++ EmptyString)%string = a.
Proof. induction a as [|x a IH]; simpl; [reflexivity | now rewrite IH]. Qed.

(** A common suffix cancels. *)
Lemma append_cancel_r (s a b : string) :
  (a ++ s)%string = (b ++ s)%string -> a = b.
Proof.
  revert b; induction a as [|x a IH]; intros [|y b] H; simpl in H.
  - reflexivity.
  - apply (f_equal String.length) in H. simpl in H.
    rewrite length_append in H. lia.
  - apply (f_equal String.length) in H. simpl in H.
    rewrite length_append in H. lia.
  - injection H as -> H. f_equal. now apply IH.
Qed.

Lemma prefix_iff (p s : string) :
  prefix p s = true <-> exists r, s = (p ++ r)%string.
Proof.
  revert s; induction p as [|c p IH]; intros s.
  - destruct s; simpl; split; eauto.
  - destruct s as [|d s]; simpl.
    + split; [discriminate | intros [r H]; discriminate].
    + destruct (Ascii.ascii_dec c d) as [E|ne].
      * subst d. rewrite IH. split; intros [r H]; exists r.
        -- now subst.
        -- now injection H.
      * split; [discriminate | intros [r H]; injection H; congruence].
Qed.

Lemma py_contains_iff (sub s : string) :
  py_contains sub s = true <->
  exists a b, s = (a ++ sub ++ b)%string.
Proof.
  induction s as [|c s IH]; cbn [py_contains].
  - rewrite prefix_iff. split.
    + intros [r H]. exists EmptyString, r. exact H.
    + intros [[|x a] [b H]]; simpl in H; [eauto | discriminate].
  - rewrite orb_true_iff, IH. split.
    + intros [H | [a [b ->]]].
      * apply prefix_iff in H as [r H]. exists EmptyString, r. exact H.
      * exists (String c a), b. reflexivity.
    + intros [[|x a] [b H]]; simpl in H.
      * left. apply prefix_iff. eauto.
      * right. injection H as _ ->. eauto.
Qed.

Lemma py_in_iff (x : string) (xs : list string) :
  py_in x xs = true <-> In x xs.
Proof.
  unfold py_in. rewrite existsb_exists. split.
  - intros [y [Hy E]]. apply String.eqb_eq in E. now subst.
  - intros H. exists x. split; [exact H | apply String.eqb_refl].
Qed.

Lemma py_in_cons (x y : string) (xs : list string) :
  py_in x (y :: xs) = String.eqb x y || py_in x xs.
Proof. reflexivity. Qed.

Lemma py_in_false_iff (x : string) (xs : list string) :
  py_in x xs = false <-> ~ In x xs.
Proof.
  rewrite <- py_in_iff. destruct (py_in x xs); split; congruence.
Qed.

(* ------------------------------------------------------------------ *)
(** ** Dictionaries *)
(* ------------------------------------------------------------------ *)

Section DictFacts.

Context {V : Type}.
Implicit Types (d other : dict V) (k : string) (v : V).

Lemma dict_get_set k' k v d :
  dict_get k' (dict_set k v d)
  = if String.eqb k' k then Some v else dict_get k' d.
Proof.
  induction d as [|[k0 v0] d IH]; simpl.
  - reflexivity.
  - destruct (String.eqb_spec k k0) as [->|ne]; simpl.
    + destruct (String.eqb k' k0); reflexivity.
    + rewrite IH. destruct (String.eqb_spec k' k0) as [->|ne'].
      * destruct (String.eqb_spec k0 k); [congruence | reflexivity].
      * reflexivity.
Qed.

Lemma dict_get_set_same k v d : dict_get k (dict_set k v d) = Some v.
Proof. now rewrite dict_get_set, String.eqb_refl. Qed.

Lemma dict_get_set_other k' k v d :
  k' <> k -> dict_get k' (dict_set k v d) = dict_get k' d.
Proof.
  intros ne. rewrite dict_get_set.
  now destruct (String.eqb_spec k' k).
Qed.

Lemma dict_get_none_iff k d : dict_get k d = None <-> ~ In k (dict_keys d).
Proof.
  induction d as [|[k0 v0] d IH]; simpl.
  - tauto.
  - destruct (String.eqb_spec k k0) as [->|ne].
    + split; [discriminate | tauto].
    + rewrite IH. split; [intros H [E|I]; [congruence | tauto] | tauto].
Qed.

Lemma dict_get_in k v d : dict_get k d = Some v -> In (k, v) d.
Proof.
  induction d as [|[k0 v0] d IH]; simpl; [discriminate|].
  destruct (String.eqb_spec k k0) as [->|ne].
  - intros [= ->]. now left.
  - intros H. right. now apply IH.
Qed.

Lemma dict_keys_set k v d x :
  In x (dict_keys (dict_set k v d)) <-> x = k \/ In x (dict_keys d).
Proof.
  induction d as [|[k0 v0] d IH]; simpl.
  - intuition congruence.
  - destruct (String.eqb_spec k k0) as [->|ne]; simpl.
    + intuition congruence.
    + rewrite IH. intuition congruence.
Qed.

Lemma dict_set_NoDup k v d :
  NoDup (dict_keys d) -> NoDup (dict_keys (dict_set k v d)).
Proof.
  induction d as [|[k0 v0] d IH]; simpl; intros H.
  - constructor; [tauto | constructor].
  - inversion H as [|? ? Hn Hd]; subst.
    destruct (String.eqb_spec k k0) as [->|ne]; simpl.
    + now constructor.
    + constructor; [|now apply IH].
      rewrite dict_keys_set. intros [E|I]; [congruence | tauto].
Qed.

(** After [update], a key of [other] has the value of [other], any other
    key has kept its own. *)
Lemma dict_get_update k d other :
  NoDup (dict_keys other) ->
  dict_get k (dict_update d other)
  = match dict_get k other with
    | Some v => Some v
    | None => dict_get k d
    end.
Proof.
  unfold dict_update. revert d.
  induction other as [|[k0 v0] other IH]; intros d H; simpl.
  - reflexivity.
  - inversion H as [|? ? Hn Hd]; subst.
    rewrite (IH _ Hd).
    destruct (String.eqb_spec k k0) as [->|ne].
    + apply dict_get_none_iff in Hn. rewrite Hn.
      apply dict_get_set_same.
    + now rewrite dict_get_set_other.
Qed.

End DictFacts.

Lemma dict_get_of_raw (k : string) (raw : raw_record) :
  dict_get k (of_raw raw) = option_map VStr (dict_get k raw).
Proof.
  induction raw as [|[k0 v0] raw IH]; simpl; [reflexivity|].
  now destruct (String.eqb k k0).
Qed.

(* ------------------------------------------------------------------ *)
(** ** Loops *)
(* ------------------------------------------------------------------ *)

Lemma for_each_app {A S : Type} (body : S -> A -> outcome S)
  (xs ys : list A) (s : S) :
  for_each body (xs ++ ys) s = (s' <- for_each body xs s ;; for_each body ys s').
Proof.
  revert s; induction xs as [|x xs IH]; intros s; simpl.
  - reflexivity.
  - destruct (body s x); simpl; [apply IH | reflexivity].
Qed.

(** A loop that has raised stays raised whatever follows. *)
Lemma for_each_app_err {A S : Type} (body : S -> A -> outcome S)
  (xs ys : list A) (s : S) (e : exn) :
  for_each body xs s = Err e -> for_each body (xs ++ ys) s = Err e.
Proof. intros H. now rewrite for_each_app, H. Qed.

(* ------------------------------------------------------------------ *)
(** ** The metadata *)
(* ------------------------------------------------------------------ *)

Lemma _extract_field_filter (md : list field) (which_field : string) :
  _extract_field md which_field
  = map field_name
      (filter (fun f => String.eqb (field_type f) which_field) md).
Proof.
  unfold _extract_field.
  enough (G : forall acc,
    fold_left
      (fun result f =>
         if String.eqb (field_type f) which_field
         then result ++ [field_name f] else result) md acc
    = acc ++ map field_name
        (filter (fun f => String.eqb (field_type f) which_field) md))
    by apply (G []).
  induction md as [|f md IH]; intros acc; simpl.
  - now rewrite app_nil_r.
  - rewrite IH. destruct (String.eqb (field_type f) which_field); simpl.
    + now rewrite <- app_assoc.
    + reflexivity.
Qed.

Lemma _extract_field_declared (md : list field) (ty name : string) :
  In name (_extract_field md ty) <-> declared md ty name.
Proof.
  rewrite _extract_field_filter, in_map_iff. unfold declared. split.
  - intros [f [E I]]. apply filter_In in I as [I T].
    apply String.eqb_eq in T. eauto.
  - intros [f [I [T E]]]. exists f. split; [exact E|].
    apply filter_In. split; [exact I | now apply String.eqb_eq].
Qed.

Lemma radio_groups_declared (md : list field) (name : string) :
  In name (radio_groups md) <-> declared md "radio" name.
Proof.
  rewrite <- _extract_field_declared, _extract_field_filter. reflexivity.
Qed.

(* ------------------------------------------------------------------ *)
(** ** Checkbox and radio conversion *)
(* ------------------------------------------------------------------ *)

Lemma is_checkbox_variable_iff (md : list field) (k : string) :
  is_checkbox_variable (_extract_field md "checkbox") k = true
  <-> checkbox_key md k.
Proof.
  unfold is_checkbox_variable, checkbox_key.
  rewrite andb_true_iff, Nat.ltb_lt, py_in_iff, _extract_field_declared.
  reflexivity.
Qed.

Lemma is_checkbox_variable_false_iff (md : list field) (k : string) :
  is_checkbox_variable (_extract_field md "checkbox") k = false
  <-> ~ checkbox_key md k.
Proof.
  rewrite <- is_checkbox_variable_iff.
  destruct (is_checkbox_variable _ k); split; congruence.
Qed.

Section ConvertPass.

Variable raw : raw_record.
Variables radio_buttons checkboxes : list string.

Abbreviation step := (convert_variable raw radio_buttons checkboxes).
Abbreviation visited := (visited_value raw radio_buttons checkboxes).
Abbreviation staged := (staged_entry raw radio_buttons checkboxes).

Lemma convert_variable_fst (k x : string) (r s : record) :
  dict_get k (fst (step (r, s) x))
  = if String.eqb k x then visited k (dict_get k r) else dict_get k r.
Proof.
  unfold convert_variable, visited_value.
  destruct (String.eqb_spec k x) as [->|ne].
  - destruct (dict_get x raw) as [v|]; [|reflexivity].
    destruct (is_checkbox_variable checkboxes x); simpl.
    + apply dict_get_set_same.
    + destruct (py_in x radio_buttons); simpl;
        [apply dict_get_set_same | reflexivity].
  - destruct (dict_get x raw) as [v|]; [|reflexivity].
    destruct (is_checkbox_variable checkboxes x); simpl.
    + now apply dict_get_set_other.
    + destruct (py_in x radio_buttons); simpl;
        [now apply dict_get_set_other | reflexivity].
Qed.

Lemma convert_variable_snd (x : string) (r s : record) :
  snd (step (r, s) x)
  = match staged x with
    | Some kt => dict_set (fst kt) (snd kt) s
    | None => s
    end.
Proof.
  unfold convert_variable, staged_entry.
  destruct (dict_get x raw) as [v|]; [|reflexivity].
  destruct (is_checkbox_variable checkboxes x); [reflexivity|].
  destruct (py_in x radio_buttons); [|reflexivity].
  destruct (negb (String.eqb v EmptyString)); reflexivity.
Qed.

Lemma visited_idem (k : string) (b : option value) :
  visited k (visited k b) = visited k b.
Proof.
  unfold visited_value. destruct (dict_get k raw); [|reflexivity].
  destruct (is_checkbox_variable checkboxes k); [reflexivity|].
  destruct (py_in k radio_buttons); reflexivity.
Qed.

(** The record after the pass over [ks]: the visited keys have their new
    value, the others are as they were. *)
Lemma convert_pass_fst (k : string) (ks : list string) (r s : record) :
  dict_get k (fst (fold_left step ks (r, s)))
  = if py_in k ks then visited k (dict_get k r) else dict_get k r.
Proof.
  revert r s; induction ks as [|x ks IH]; intros r s; cbn [fold_left].
  - reflexivity.
  - destruct (step (r, s) x) as [r1 s1] eqn:E.
    rewrite IH.
    assert (G := convert_variable_fst k x r s). rewrite E in G. simpl in G.
    rewrite G, py_in_cons.
    destruct (String.eqb_spec k x) as [->|ne]; cbn [orb].
    + destruct (py_in x ks); [apply visited_idem | reflexivity].
    + reflexivity.
Qed.

Lemma convert_pass_NoDup (ks : list string) (r s : record) :
  NoDup (dict_keys s) ->
  NoDup (dict_keys (snd (fold_left step ks (r, s)))).
Proof.
  revert r s; induction ks as [|x ks IH]; intros r s H; cbn [fold_left].
  - exact H.
  - destruct (step (r, s) x) as [r1 s1] eqn:E.
    apply IH.
    assert (G := convert_variable_snd x r s). rewrite E in G. simpl in G.
    rewrite G. destruct (staged x); [now apply dict_set_NoDup | exact H].
Qed.

(** Whatever is put aside comes from a visited key. *)
Lemma convert_pass_snd_sound (k : string) (t : value) (ks : list string)
  (r s : record) :
  dict_get k (snd (fold_left step ks (r, s))) = Some t ->
  dict_get k s = Some t \/ exists g, In g ks /\ staged g = Some (k, t).
Proof.
  revert r s; induction ks as [|x ks IH]; intros r s H; cbn [fold_left] in *.
  - now left.
  - destruct (step (r, s) x) as [r1 s1] eqn:E.
    assert (G := convert_variable_snd x r s). rewrite E in G. simpl in G.
    destruct (IH _ _ H) as [H1 | [g [I S]]].
    + rewrite G in H1. destruct (staged x) as [[k1 t1]|] eqn:Sx.
      * simpl in H1. rewrite dict_get_set in H1.
        destruct (String.eqb_spec k k1) as [->|ne].
        -- injection H1 as <-. right. exists x. split; [now left | exact Sx].
        -- now left.
      * now left.
    + right. exists g. split; [now right | exact S].
Qed.

(** Two visits that put the same key aside put the same text there. *)
Lemma staged_entry_functional (g1 g2 k : string) (t1 t2 : value) :
  staged g1 = Some (k, t1) -> staged g2 = Some (k, t2) -> t1 = t2.
Proof.
  unfold staged_entry. intros H1 H2.
  destruct (dict_get g1 raw) as [v1|] eqn:E1; [|discriminate].
  destruct (dict_get g2 raw) as [v2|] eqn:E2; [|discriminate].
  destruct (is_checkbox_variable checkboxes g1); [discriminate|].
  destruct (is_checkbox_variable checkboxes g2); [discriminate|].
  destruct (py_in g1 radio_buttons); [|discriminate].
  destruct (py_in g2 radio_buttons); [|discriminate].
  destruct (negb (String.eqb v1 EmptyString)); [|discriminate].
  destruct (negb (String.eqb v2 EmptyString)); [|discriminate].
  injection H1 as <- <-. injection H2 as K <-.
  apply append_cancel_r in K. subst g2. congruence.
Qed.

Lemma convert_pass_snd_keep (k : string) (t : value) (ks : list string)
  (r s : record) :
  (forall g t', staged g = Some (k, t') -> t' = t) ->
  dict_get k s = Some t ->
  dict_get k (snd (fold_left step ks (r, s))) = Some t.
Proof.
  intros U. revert r s; induction ks as [|x ks IH]; intros r s H; cbn [fold_left].
  - exact H.
  - destruct (step (r, s) x) as [r1 s1] eqn:E.
    assert (G := convert_variable_snd x r s). rewrite E in G. simpl in G.
    apply IH. rewrite G.
    destruct (staged x) as [[k1 t1]|] eqn:Sx; [|exact H]. simpl.
    rewrite dict_get_set. destruct (String.eqb_spec k k1) as [->|ne].
    + now rewrite (U _ _ Sx).
    + exact H.
Qed.

(** Every visited key that puts an entry aside finds it there at the end. *)
Lemma convert_pass_snd_complete (g k : string) (t : value)
  (ks : list string) (r s : record) :
  In g ks -> staged g = Some (k, t) ->
  dict_get k (snd (fold_left step ks (r, s))) = Some t.
Proof.
  intros I S. revert r s; induction ks as [|x ks IH]; intros r s.
  - destruct I.
  - cbn [fold_left]. destruct (step (r, s) x) as [r1 s1] eqn:E.
    assert (G := convert_variable_snd x r s). rewrite E in G. simpl in G.
    destruct (in_dec string_dec g ks) as [I'|nI].
    + now apply IH.
    + destruct I as [->|I]; [|contradiction].
      apply convert_pass_snd_keep.
      * intros g2 t' S2. exact (staged_entry_functional _ _ _ _ _ S2 S).
      * rewrite G, S. simpl. apply dict_get_set_same.
Qed.

End ConvertPass.

Lemma staged_entry_staged_key (raw : raw_record) (md : list field)
  (g k : string) (t : value) :
  staged_entry raw (_extract_field md "radio") (_extract_field md "checkbox")
    g = Some (k, t) ->
  staged_key raw md k.
Proof.
  unfold staged_entry, staged_key, radio_key. intros H.
  destruct (dict_get g raw) as [v|] eqn:E; [|discriminate].
  destruct (is_checkbox_variable _ g) eqn:C; [discriminate|].
  destruct (py_in g _) eqn:R; [|discriminate].
  destruct (String.eqb_spec v EmptyString) as [->|ne]; [discriminate|].
  injection H as <- _. exists g, v.
  apply is_checkbox_variable_false_iff in C.
  apply py_in_iff, _extract_field_declared in R. tauto.
Qed.

Lemma radio_key_staged_entry (raw : raw_record) (md : list field)
  (g v : string) :
  dict_get g raw = Some v -> radio_key md g -> v <> EmptyString ->
  staged_entry raw (_extract_field md "radio") (_extract_field md "checkbox")
    g = Some ((g ++ RADIO_BUTTON_CHOICE_SUFFIX)%string, VStr v).
Proof.
  unfold staged_entry, radio_key. intros E [C R] ne. rewrite E.
  apply is_checkbox_variable_false_iff in C. rewrite C.
  apply _extract_field_declared, py_in_iff in R. rewrite R.
  now destruct (String.eqb_spec v EmptyString).
Qed.

(** The result of the conversion, key by key: what the merge brings, and
    otherwise what the pass has left. *)
Lemma convert_checkboxes_and_radio_buttons_get (raw : raw_record)
  (md : list field) (k : string) :
  let radio_buttons := _extract_field md "radio" in
  let checkboxes := _extract_field md "checkbox" in
  let st := fold_left (convert_variable raw radio_buttons checkboxes)
              (dict_keys raw) (of_raw raw, []) in
  dict_get k (convert_checkboxes_and_radio_buttons raw md)
  = match dict_get k (snd st) with
    | Some t => Some t
    | None =>
        visited_value raw radio_buttons checkboxes k
          (option_map VStr (dict_get k raw))
    end.
Proof.
  intros radio_buttons checkboxes st.
  assert (N : NoDup (dict_keys (snd st)))
    by (apply convert_pass_NoDup; constructor).
  assert (F : dict_get k (fst st)
              = if py_in k (dict_keys raw)
                then visited_value raw radio_buttons checkboxes k
                       (dict_get k (of_raw raw))
                else dict_get k (of_raw raw))
    by apply convert_pass_fst.
  change (dict_get k (let '(r, s) := st in dict_update r s)
          = match dict_get k (snd st) with
            | Some t => Some t
            | None =>
                visited_value raw radio_buttons checkboxes k
                  (option_map VStr (dict_get k raw))
            end).
  clearbody st. destruct st as [r s]. cbn [fst snd] in *.
  rewrite (dict_get_update k r s N), F, dict_get_of_raw.
  destruct (dict_get k s); [reflexivity|].
  destruct (py_in k (dict_keys raw)) eqn:I; [reflexivity|].
  apply py_in_false_iff, dict_get_none_iff in I.
  unfold visited_value. now rewrite I.
Qed.

(** The claim read to the letter fails on a record that already has a key
    made of a radio button and the suffix.  That key is neither a checkbox
    key nor a radio field, so it is one of the other keys, and the pass
    leaves its text alone; the merge that follows the pass then puts the raw
    value of the radio button in its place. *)
Lemma C3_counterexample :
  let md := [ {| field_name := "r2"; field_type := "radio";
                 select_choices_or_calculations := None |} ] in
  let raw := [("r2__rchoice", "old"); ("r2", "5")] in
  let res := convert_checkboxes_and_radio_buttons raw md in
  dict_get "r2__rchoice" raw = Some "old"
  /\ is_checkbox_variable (snd (get_radio_buttons_checkboxes md))
       "r2__rchoice" = false
  /\ py_in "r2__rchoice" (fst (get_radio_buttons_checkboxes md)) = false
  /\ res = [("r2__rchoice", VStr "5"); ("r2", VDict [("5", VBool true)])]
  /\ dict_get "r2__rchoice" res <> Some (VStr "old").
Proof.
  intros md raw res. repeat split; try reflexivity. discriminate.
Qed.

(** C3, amended.  The checkbox and radio conversion, key by key.  A key of
    the raw record that splits on the separator with a checkbox first
    becomes the boolean "the raw text is 1"; a key that is a radio button
    becomes the one-entry mapping from its raw value to true; any other key
    keeps its text, unless it is the key of a radio button with a non-empty
    raw value followed by the suffix.  For every radio button with a
    non-empty raw value, and only for those, the key with the suffix holds
    the raw value as text, whatever the record held under that key: these
    entries are merged once the pass is over, so that they are what the
    result holds under their keys. *)
Theorem C3_checkbox_radio_conversion (raw : raw_record) (md : list field) :
  let res := convert_checkboxes_and_radio_buttons raw md in
  (forall k v,
      dict_get k raw = Some v -> ~ staged_key raw md k ->
      (checkbox_key md k ->
       dict_get k res = Some (VBool (String.eqb v "1")))
      /\ (radio_key md k ->
          dict_get k res = Some (VDict [(v, VBool true)]))
      /\ (~ checkbox_key md k -> ~ declared md "radio" k ->
          dict_get k res = Some (VStr v)))
  /\ (forall g v,
         dict_get g raw = Some v -> radio_key md g -> v <> EmptyString ->
         dict_get (g ++ RADIO_BUTTON_CHOICE_SUFFIX)%string res
         = Some (VStr v))
  /\ (forall k,
         dict_get k raw = None -> ~ staged_key raw md k ->
         dict_get k res = None).
Proof.
  intros res. subst res.
  assert (NS : forall k, ~ staged_key raw md k ->
     dict_get k
       (snd (fold_left
               (convert_variable raw (_extract_field md "radio")
                  (_extract_field md "checkbox"))
               (dict_keys raw) (of_raw raw, []))) = None).
  { intros k nS.
    match goal with |- ?x = None => destruct x as [t|] eqn:E end;
      [|reflexivity].
    apply convert_pass_snd_sound in E as [E | [g [_ S]]]; [discriminate|].
    apply staged_entry_staged_key in S. contradiction. }
  split; [|split].
  - intros k v E nS.
    rewrite convert_checkboxes_and_radio_buttons_get, (NS k nS).
    unfold visited_value. rewrite E. simpl. split; [|split].
    + intros C. apply is_checkbox_variable_iff in C. now rewrite C.
    + intros [C R]. apply is_checkbox_variable_false_iff in C. rewrite C.
      apply _extract_field_declared, py_in_iff in R. now rewrite R.
    + intros C R. apply is_checkbox_variable_false_iff in C. rewrite C.
      rewrite <- _extract_field_declared, <- py_in_false_iff in R.
      now rewrite R.
  - intros g v E R ne.
    rewrite convert_checkboxes_and_radio_buttons_get.
    rewrite (convert_pass_snd_complete raw _ _ g _ (VStr v));
      [reflexivity | | now apply radio_key_staged_entry ].
    apply dict_get_in in E. apply (in_map fst) in E. exact E.
  - intros k E nS.
    rewrite convert_checkboxes_and_radio_buttons_get, (NS k nS).
    unfold visited_value. now rewrite E.
Qed.

(** The bridging example of the radio button, as the record it yields. *)
Example C3_bridging_example :
  convert_checkboxes_and_radio_buttons [("r1", "3")]
    [ {| field_name := "r1"; field_type := "radio";
         select_choices_or_calculations := None |} ]
  = [("r1", VDict [("3", VBool true)]); ("r1__rchoice", VStr "3")].
Proof. reflexivity. Qed.

Lemma C3_checkbox_radio_conversion_witness :
  let md := [ {| field_name := "r1"; field_type := "radio";
                 select_choices_or_calculations := None |};
              {| field_name := "cb"; field_type := "checkbox";
                 select_choices_or_calculations := None |} ] in
  let raw := [("r1", "3"); ("cb___2", "1"); ("note", "x")] in
  let res := convert_checkboxes_and_radio_buttons raw md in
  dict_get "r1__rchoice" res = Some (VStr "3")
  /\ dict_get "cb___2" res = Some (VBool true)
  /\ dict_get "absent" res = None.
Proof.
  intros md raw res.
  assert (R : radio_key md "r1").
  { split.
    - apply is_checkbox_variable_false_iff. reflexivity.
    - exists {| field_name := "r1"; field_type := "radio";
                select_choices_or_calculations := None |}.
      simpl. tauto. }
  assert (N : forall k,
             k <> "r1__rchoice" -> ~ staged_key raw md k).
  { intros k ne [g [v [E [[_ [f [I [Ty Nm]]]] [_ K]]]]].
    simpl in I. destruct I as [<-|[<-|[]]]; simpl in Ty, Nm.
    - subst g. now subst k.
    - discriminate. }
  destruct (C3_checkbox_radio_conversion raw md) as [P1 [P2 P3]].
  split; [|split].
  - apply (P2 "r1" "3"); [reflexivity | exact R | discriminate].
  - apply (P1 "cb___2" "1"); [reflexivity | apply N; discriminate |].
    apply is_checkbox_variable_iff. reflexivity.
  - apply P3; [reflexivity | apply N; discriminate].
Defined.

(* ------------------------------------------------------------------ *)
(** ** Radio-group collapse *)
(* ------------------------------------------------------------------ *)

Lemma any_iter_fst (it : list value) :
  fst (any_iter it) = existsb truthy it.
Proof.
  induction it as [|x it IH]; simpl; [reflexivity|].
  destruct (truthy x); [reflexivity | exact IH].
Qed.

Lemma is_bool_truthy (x : value) : is_bool x = true -> truthy x = is_true x.
Proof. destruct x as [s|[|]|d]; simpl; congruence. Qed.

Lemma existsb_truthy_count (vals : list value) :
  forallb is_bool vals = true ->
  existsb truthy vals = negb (Nat.eqb (count_true vals) 0).
Proof.
  unfold count_true.
  induction vals as [|x vals IH]; simpl; [reflexivity|].
  intros H. apply andb_true_iff in H as [B H].
  rewrite (is_bool_truthy x B).
  destruct (is_true x); simpl; [reflexivity | now apply IH].
Qed.

(** On booleans, the test with the iterator counts exactly one true. *)
Lemma _contains_only_one_true_count (vals : list value) :
  forallb is_bool vals = true ->
  _contains_only_one_true vals = Nat.eqb (count_true vals) 1.
Proof.
  unfold _contains_only_one_true.
  induction vals as [|x vals IH]; simpl; [reflexivity|].
  intros H. apply andb_true_iff in H as [B H].
  rewrite (is_bool_truthy x B). unfold count_true. simpl.
  destruct (is_true x); simpl.
  - rewrite any_iter_fst, (existsb_truthy_count vals H).
    unfold count_true. now destruct (length (filter is_true vals)).
  - destruct (any_iter vals) as [found rest]. now apply IH.
Qed.

Lemma existsb_negb_forallb {A : Type} (p : A -> bool) (xs : list A) :
  existsb (fun x => negb (p x)) xs = negb (forallb p xs).
Proof.
  induction xs as [|x xs IH]; simpl; [reflexivity|].
  rewrite IH. now destruct (p x).
Qed.

Lemma NoDup_dict_get {V : Type} (k : string) (v : V) (d : dict V) :
  NoDup (dict_keys d) -> In (k, v) d -> dict_get k d = Some v.
Proof.
  induction d as [|[k0 v0] d IH]; simpl; intros N I; [destruct I|].
  inversion N as [|? ? Hn Hd]; subst.
  destruct I as [E|I].
  - injection E as -> ->. now rewrite String.eqb_refl.
  - destruct (String.eqb_spec k k0) as [->|ne].
    + exfalso. apply Hn. apply (in_map fst) in I. exact I.
    + now apply IH.
Qed.

Lemma first_true_key_sound (d : dict value) (keys : list string)
  (k : string) (x : value) :
  first_true_key d keys = Some (k, x) ->
  dict_get k d = Some x /\ truthy x = true.
Proof.
  induction keys as [|k0 keys IH]; simpl; [discriminate|].
  destruct (dict_get k0 d) as [x0|] eqn:E; [|exact IH].
  destruct (truthy x0) eqn:Tx; [|exact IH].
  intros [= <- <-]. tauto.
Qed.

Lemma first_true_key_complete (d : dict value) (keys : list string)
  (k : string) (x : value) :
  In k keys -> dict_get k d = Some x -> truthy x = true ->
  first_true_key d keys <> None.
Proof.
  induction keys as [|k0 keys IH]; simpl; intros I E Tx; [destruct I|].
  destruct I as [->|I].
  - rewrite E, Tx. discriminate.
  - destruct (dict_get k0 d) as [x0|]; [|now apply IH].
    destruct (truthy x0); [discriminate | now apply IH].
Qed.

Lemma count_true_pos (d : dict value) :
  count_true (dict_values d) <> 0 -> exists k, In (k, VBool true) d.
Proof.
  unfold count_true, dict_values.
  induction d as [|[k x] d IH]; simpl; [congruence|].
  destruct x as [s|[|]|m]; simpl; intros H;
    try (destruct (IH H) as [k' I]; exists k'; now right).
  exists k. now left.
Qed.

(** In a dictionary of booleans with a true among them, the loop finds the
    key of a true. *)
Lemma first_true_key_found (d : dict value) :
  NoDup (dict_keys d) ->
  forallb is_bool (dict_values d) = true ->
  count_true (dict_values d) <> 0 ->
  exists k,
    first_true_key d (dict_keys d) = Some (k, VBool true)
    /\ In (k, VBool true) d.
Proof.
  intros N B C.
  destruct (count_true_pos d C) as [k0 I0].
  destruct (first_true_key d (dict_keys d)) as [[k x]|] eqn:F.
  - exists k.
    destruct (first_true_key_sound _ _ _ _ F) as [E Tx].
    assert (Bx : is_bool x = true).
    { apply dict_get_in in E. apply (in_map snd) in E.
      rewrite forallb_forall in B. now apply B. }
    rewrite (is_bool_truthy x Bx) in Tx.
    destruct x as [s|[|]|m]; try discriminate.
    split; [reflexivity | now apply dict_get_in].
  - exfalso.
    apply (first_true_key_complete d (dict_keys d) k0 (VBool true));
      [ apply (in_map fst) in I0; exact I0
      | now apply NoDup_dict_get | reflexivity | exact F ].
Qed.

(** A mapping of booleans with one entry at most and exactly one true is
    the mapping from one key to true. *)
Lemma single_true_entry (d : dict value) :
  length d <= 1 -> forallb is_bool (dict_values d) = true ->
  count_true (dict_values d) = 1 ->
  exists k, d = [(k, VBool true)].
Proof.
  destruct d as [|[k x] [|e d]]; simpl; intros L B C; try lia.
  - discriminate.
  - unfold count_true in C. simpl in C.
    destruct x as [s|[|]|m]; simpl in *; try discriminate.
    now exists k.
Qed.

(** The body of the loop on a field whose value is a mapping. *)
Lemma collapse_radio_group_mapping (r : record) (g : string)
  (d : dict value) :
  dict_get g r = Some (VDict d) ->
  collapse_radio_group r g
  = if negb (forallb is_bool (dict_values d)) then Err TypeError
    else if negb (Nat.eqb (count_true (dict_values d)) 1) then Err ValueError
    else if Nat.ltb 1 (length d) then
      match first_true_key d (dict_keys d) with
      | Some (k, x) => Ok (dict_set g (VDict [(k, x)]) r)
      | None => Ok r
      end
    else Ok r.
Proof.
  intros E. unfold collapse_radio_group, dict_item. rewrite E. simpl.
  rewrite existsb_negb_forallb.
  destruct (forallb is_bool (dict_values d)) eqn:B; simpl; [|reflexivity].
  now rewrite (_contains_only_one_true_count _ B).
Qed.

Lemma radio_groups_app (xs ys : list field) :
  radio_groups (xs ++ ys) = radio_groups xs ++ radio_groups ys.
Proof. unfold radio_groups. now rewrite filter_app, map_app. Qed.

Lemma radio_groups_cons_radio (f : field) (md : list field) :
  field_type f = "radio" ->
  radio_groups (f :: md) = field_name f :: radio_groups md.
Proof. unfold radio_groups. simpl. now intros ->. Qed.

(** The loop reaches the radio field [f] with the record that the fields
    before it have left, and goes on with the fields after it. *)
Lemma collapse_radio_groups_split (r r1 : record) (pre post : list field)
  (f : field) :
  field_type f = "radio" ->
  collapse_radio_groups r pre = Ok r1 ->
  collapse_radio_groups r (pre ++ f :: post)
  = (r2 <- collapse_radio_group r1 (field_name f) ;;
     collapse_radio_groups r2 post).
Proof.
  unfold collapse_radio_groups. intros Ty H.
  rewrite radio_groups_app, (radio_groups_cons_radio f post Ty).
  rewrite for_each_app, H. reflexivity.
Qed.

(** C4.  Radio-group collapse at a field declared as radio, when the loop
    reaches it with a mapping as its current value: a value that is not a
    boolean raises TypeError; booleans with no true or more than one raise
    ValueError; otherwise a mapping of more than one entry is replaced by
    the mapping from its true key to true, a mapping of one entry is kept,
    and the loop goes on with the fields that follow. *)
Theorem C4_collapse_radio_groups (r r1 : record) (md pre post : list field)
  (f : field) (d : dict value) :
  md = pre ++ f :: post ->
  field_type f = "radio" ->
  collapse_radio_groups r pre = Ok r1 ->
  dict_get (field_name f) r1 = Some (VDict d) ->
  ((exists x, In x (dict_values d) /\ is_bool x = false) ->
   collapse_radio_groups r md = Err TypeError)
  /\ ((forall x, In x (dict_values d) -> is_bool x = true) ->
      count_true (dict_values d) <> 1 ->
      collapse_radio_groups r md = Err ValueError)
  /\ ((forall x, In x (dict_values d) -> is_bool x = true) ->
      count_true (dict_values d) = 1 ->
      NoDup (dict_keys d) ->
      exists k,
        In (k, VBool true) d
        /\ collapse_radio_groups r md
           = collapse_radio_groups
               (if Nat.ltb 1 (length d)
                then dict_set (field_name f) (VDict [(k, VBool true)]) r1
                else r1)
               post).
Proof.
  intros -> Ty Pre E.
  rewrite (collapse_radio_groups_split r r1 pre post f Ty Pre).
  rewrite (collapse_radio_group_mapping r1 _ d E).
  split; [|split].
  - intros [x [I Bx]].
    assert (B : forallb is_bool (dict_values d) = false).
    { destruct (forallb is_bool (dict_values d)) eqn:B; [|reflexivity].
      rewrite forallb_forall in B. rewrite (B x I) in Bx. discriminate. }
    now rewrite B.
  - intros B C. apply forallb_forall in B. rewrite B. simpl.
    apply Nat.eqb_neq in C. now rewrite C.
  - intros B C N. apply forallb_forall in B. rewrite B, C. simpl.
    destruct (Nat.ltb 1 (length d)) eqn:L.
    + destruct (first_true_key_found d N B) as [k [F I]]; [lia|].
      exists k. rewrite F. split; [exact I | reflexivity].
    + apply Nat.ltb_ge in L.
      destruct (single_true_entry d L B C) as [k ->].
      exists k. split; [now left | reflexivity].
Qed.

Lemma C4_collapse_radio_groups_witness :
  let f := {| field_name := "rg"; field_type := "radio";
              select_choices_or_calculations := None |} in
  let d := [("1", VBool false); ("2", VBool true)] in
  exists k,
    In (k, VBool true) d
    /\ collapse_radio_groups [("rg", VDict d)] [f]
       = collapse_radio_groups
           (dict_set "rg" (VDict [(k, VBool true)]) [("rg", VDict d)]) [].
Proof.
  intros f d.
  assert (N : NoDup (dict_keys d)).
  { repeat constructor; simpl; intuition discriminate. }
  destruct (C4_collapse_radio_groups [("rg", VDict d)] [("rg", VDict d)]
              [f] [] [] f d eq_refl eq_refl eq_refl eq_refl)
    as [_ [_ H]].
  apply H.
  - simpl. intros x [<-|[<-|[]]]; reflexivity.
  - reflexivity.
  - exact N.
Defined.

(* ------------------------------------------------------------------ *)
(** ** The invariant of the normalized record *)
(* ------------------------------------------------------------------ *)

Lemma for_each_preserves {A S : Type} (P : S -> Prop)
  (body : S -> A -> outcome S) (xs : list A) :
  (forall s x s', P s -> body s x = Ok s' -> P s') ->
  forall s s', P s -> for_each body xs s = Ok s' -> P s'.
Proof.
  intros Hb. induction xs as [|x xs IH]; simpl; intros s s' Ps H.
  - now injection H as <-.
  - destruct (body s x) as [s1|e] eqn:E; simpl in H; [|discriminate].
    exact (IH _ _ (Hb _ _ _ Ps E) H).
Qed.

Lemma well_formed_set (r : record) (k : string) (x : value) :
  well_formed r -> distinct_keys x -> well_formed (dict_set k x r).
Proof.
  intros W D k' x' E. rewrite dict_get_set in E.
  destruct (String.eqb k' k); [now injection E as <- | exact (W _ _ E)].
Qed.

Lemma distinct_keys_single (k : string) (x : value) :
  distinct_keys (VDict [(k, x)]).
Proof. simpl. constructor; [tauto | constructor]. Qed.

(** The conversion of checkboxes and radio buttons builds no mapping but
    those of one entry. *)
Lemma convert_checkboxes_and_radio_buttons_well_formed (raw : raw_record)
  (md : list field) :
  well_formed (convert_checkboxes_and_radio_buttons raw md).
Proof.
  intros k x E. rewrite convert_checkboxes_and_radio_buttons_get in E.
  match type of E with
  | match ?s with _ => _ end = _ => destruct s as [t|] eqn:S
  end.
  - injection E as <-.
    apply convert_pass_snd_sound in S as [S | [g [_ S]]]; [discriminate|].
    unfold staged_entry in S.
    destruct (dict_get g raw); [|discriminate].
    destruct (is_checkbox_variable _ g); [discriminate|].
    destruct (py_in g _); [|discriminate].
    destruct (negb _); [|discriminate].
    now injection S as _ <-.
  - unfold visited_value in E. destruct (dict_get k raw) as [v|];
      [|discriminate].
    destruct (is_checkbox_variable _ k); [now injection E as <-|].
    destruct (py_in k _); injection E as <-;
      [apply distinct_keys_single | exact I].
Qed.

Lemma convert_dropdown_well_formed (texts : dict (dict string))
  (r r' : record) (f : field) :
  well_formed r -> convert_dropdown texts r f = Ok r' -> well_formed r'.
Proof.
  unfold convert_dropdown. intros W H.
  destruct (String.eqb (field_type f) "dropdown"); [|now injection H as <-].
  destruct (dict_item (field_name f) r) as [v|e]; simpl in H;
    [|discriminate].
  destruct (not_empty_str v); [|now injection H as <-].
  destruct (choice_text texts (field_name f) v) as [t|e]; simpl in H;
    [|discriminate].
  injection H as <-. apply well_formed_set; [exact W | exact I].
Qed.

Lemma convert_dropdowns_to_strings_well_formed (r r' : record)
  (md : list field) :
  well_formed r -> convert_dropdowns_to_strings r md = Ok r' ->
  well_formed r'.
Proof.
  unfold convert_dropdowns_to_strings.
  apply for_each_preserves. intros s x s' W H.
  exact (convert_dropdown_well_formed _ _ _ _ W H).
Qed.

(** The body of the collapse writes to its own group only. *)
Lemma collapse_radio_group_frame (r r' : record) (g g' : string) :
  collapse_radio_group r g = Ok r' -> g' <> g ->
  dict_get g' r' = dict_get g' r.
Proof.
  unfold collapse_radio_group. intros H ne.
  destruct (dict_item g r) as [x|e]; simpl in H; [|discriminate].
  destruct (as_mapping x) as [d|e]; simpl in H; [|discriminate].
  destruct (existsb _ (dict_values d)); [discriminate|].
  destruct (negb (_contains_only_one_true _)); [discriminate|].
  destruct (Nat.ltb 1 (length d)); [|now injection H as <-].
  destruct (first_true_key d (dict_keys d)) as [[k x']|]; injection H as <-;
    [now apply dict_get_set_other | reflexivity].
Qed.

(** When the body returns, its group is a mapping from one key to true. *)
Lemma collapse_radio_group_post (r r' : record) (g : string) :
  well_formed r -> collapse_radio_group r g = Ok r' ->
  exists k, dict_get g r' = Some (VDict [(k, VBool true)]).
Proof.
  intros W H.
  destruct (dict_get g r) as [x|] eqn:E.
  2:{ unfold collapse_radio_group, dict_item in H. rewrite E in H.
      discriminate. }
  destruct x as [s|b|d];
    try (unfold collapse_radio_group, dict_item in H; rewrite E in H;
         discriminate).
  assert (N := W _ _ E). simpl in N.
  rewrite (collapse_radio_group_mapping r g d E) in H.
  destruct (forallb is_bool (dict_values d)) eqn:B; simpl in H;
    [|discriminate].
  destruct (Nat.eqb_spec (count_true (dict_values d)) 1) as [C|C];
    simpl in H; [|discriminate].
  destruct (Nat.ltb 1 (length d)) eqn:L.
  - destruct (first_true_key_found d N B) as [k [F _]]; [lia|].
    rewrite F in H. injection H as <-. exists k. apply dict_get_set_same.
  - injection H as <-. apply Nat.ltb_ge in L.
    destruct (single_true_entry d L B C) as [k ->]. now exists k.
Qed.

Lemma collapse_radio_group_well_formed (r r' : record) (g : string) :
  well_formed r -> collapse_radio_group r g = Ok r' -> well_formed r'.
Proof.
  unfold collapse_radio_group. intros W H.
  destruct (dict_item g r) as [x|e]; simpl in H; [|discriminate].
  destruct (as_mapping x) as [d|e]; simpl in H; [|discriminate].
  destruct (existsb _ (dict_values d)); [discriminate|].
  destruct (negb (_contains_only_one_true _)); [discriminate|].
  destruct (Nat.ltb 1 (length d)); [|now injection H as <-].
  destruct (first_true_key d (dict_keys d)) as [[k x']|]; injection H as <-;
    [|exact W].
  apply well_formed_set; [exact W | apply distinct_keys_single].
Qed.

(** A group that is collapsed stays as it is. *)
Lemma collapse_radio_group_keeps (r r' : record) (g x k : string) :
  collapse_radio_group r x = Ok r' ->
  dict_get g r = Some (VDict [(k, VBool true)]) ->
  dict_get g r' = Some (VDict [(k, VBool true)]).
Proof.
  intros H E. destruct (string_dec g x) as [->|ne].
  - rewrite (collapse_radio_group_mapping r x _ E) in H. simpl in H.
    now injection H as <-.
  - now rewrite (collapse_radio_group_frame r r' x g H ne).
Qed.

Lemma collapse_loop_post (groups : list string) (r r' : record) :
  well_formed r ->
  for_each collapse_radio_group groups r = Ok r' ->
  forall g, In g groups ->
  exists k, dict_get g r' = Some (VDict [(k, VBool true)]).
Proof.
  revert r; induction groups as [|x groups IH]; intros r W H g I.
  - destruct I.
  - simpl in H.
    destruct (collapse_radio_group r x) as [r1|e] eqn:B; simpl in H;
      [|discriminate].
    destruct (in_dec string_dec g groups) as [I'|nI].
    + exact (IH r1 (collapse_radio_group_well_formed _ _ _ W B) H g I').
    + destruct I as [->|I]; [|contradiction].
      destruct (collapse_radio_group_post r r1 g W B) as [k E].
      exists k. revert H.
      apply (for_each_preserves
               (fun s => dict_get g s = Some (VDict [(k, VBool true)]))
               collapse_radio_group groups); [|exact E].
      intros s y s' Es Hy. exact (collapse_radio_group_keeps _ _ _ _ _ Hy Es).
Qed.

(** C1.  When the pipeline accepts a raw record and a metadata list, every
    field that the metadata declares as radio maps, in the normalized
    record, to a mapping of exactly one key, whose value is true. *)
Theorem C1_radio_entries_single_true (raw : raw_record) (md : list field)
  (r : record) :
  prepare_for_fill raw md = Ok r ->
  forall f, In f md -> field_type f = "radio" ->
  exists k, dict_get (field_name f) r = Some (VDict [(k, VBool true)]).
Proof.
  unfold prepare_for_fill. intros H f I Ty.
  destruct (convert_dropdowns_to_strings _ md) as [r1|e] eqn:D; simpl in H;
    [|discriminate].
  assert (W : well_formed r1).
  { apply (convert_dropdowns_to_strings_well_formed _ _ _
             (convert_checkboxes_and_radio_buttons_well_formed raw md) D). }
  apply (collapse_loop_post (radio_groups md) r1 r W H).
  apply radio_groups_declared. exists f. tauto.
Qed.

Lemma C1_radio_entries_single_true_witness :
  exists k,
    dict_get "rg1"
      [("rg1", VDict [("2", VBool true)]); ("rg1__rchoice", VStr "2")]
    = Some (VDict [(k, VBool true)]).
Proof.
  apply (C1_radio_entries_single_true [("rg1", "2")]
           [ {| field_name := "rg1"; field_type := "radio";
                select_choices_or_calculations := Some "1, One | 2, Two" |} ]
           _ eq_refl
           {| field_name := "rg1"; field_type := "radio";
              select_choices_or_calculations := Some "1, One | 2, Two" |}).
  - now left.
  - reflexivity.
Defined.

(* ------------------------------------------------------------------ *)
(** ** The choice-text map *)
(* ------------------------------------------------------------------ *)

(** A dictionary filled by assignments in a loop: a key holds what the last
    assignment to it has put there. *)
Lemma dict_get_filled {A V : Type} (keep : A -> bool) (key : A -> string)
  (val : A -> V) (k : string) (xs : list A) (d : dict V) :
  dict_get k
    (fold_left
       (fun acc x => if keep x then dict_set (key x) (val x) acc else acc)
       xs d)
  = last_match (fun x => keep x && String.eqb k (key x)) val xs
      (dict_get k d).
Proof.
  unfold last_match. revert d; induction xs as [|x xs IH]; intros d; simpl.
  - reflexivity.
  - rewrite IH. f_equal.
    destruct (keep x); simpl; [|reflexivity].
    apply dict_get_set.
Qed.

Lemma choices_sub_dict_get (s v : string) :
  dict_get v (choices_sub_dict s)
  = last_match
      (fun option => String.eqb v (fst (option_entry option)))
      (fun option => snd (option_entry option))
      (split_choices s) None.
Proof.
  unfold choices_sub_dict.
  rewrite (dict_get_filled (fun _ => true)
             (fun o => fst (option_entry o)) (fun o => snd (option_entry o))).
  reflexivity.
Qed.

Lemma last_match_ext {A B : Type} (p q : A -> bool) (g h : A -> B)
  (xs : list A) (start : option B) :
  (forall x, p x = q x) -> (forall x, p x = true -> g x = h x) ->
  last_match p g xs start = last_match q h xs start.
Proof.
  unfold last_match. intros Hp Hg.
  revert start; induction xs as [|x xs IH]; intros start; simpl.
  - reflexivity.
  - rewrite <- (Hp x). destruct (p x) eqn:Px; [|apply IH].
    rewrite (Hg x Px). apply IH.
Qed.

Lemma last_match_map {A B C : Type} (p : A -> bool) (g : A -> B)
  (f : B -> C) (xs : list A) (start : option B) :
  option_map f (last_match p g xs start)
  = last_match p (fun x => f (g x)) xs (option_map f start).
Proof.
  unfold last_match.
  revert start; induction xs as [|x xs IH]; intros start; simpl.
  - reflexivity.
  - rewrite IH. now destruct (p x).
Qed.

Lemma get_multiple_choice_text_get (md : list field) (name : string) :
  dict_get name (get_multiple_choice_text md)
  = last_match
      (fun f => match choices_of f with
                | Some _ => String.eqb name (field_name f)
                | None => false
                end)
      (fun f => choices_sub_dict
                  match choices_of f with
                  | Some s => s
                  | None => EmptyString
                  end)
      md None.
Proof.
  unfold get_multiple_choice_text.
  transitivity
    (dict_get name
       (fold_left
          (fun acc f =>
             if match choices_of f with Some _ => true | None => false end
             then dict_set (field_name f)
                    (choices_sub_dict
                       match choices_of f with
                       | Some s => s
                       | None => EmptyString
                       end) acc
             else acc) md [])).
  - f_equal. generalize (@nil (string * dict string)).
    induction md as [|f md IH]; intros acc; simpl; [reflexivity|].
    rewrite IH. f_equal. unfold choices_of.
    destruct (select_choices_or_calculations f) as [s|]; [|reflexivity].
    destruct (String.eqb s EmptyString); reflexivity.
  - rewrite dict_get_filled. apply last_match_ext; [|reflexivity].
    intros f. now destruct (choices_of f).
Qed.

(** The choice-text map of the program is the one that is described. *)
Lemma display_text_described (md : list field) (name v : string) :
  display_text (get_multiple_choice_text md) name v
  = described_display_text md name v.
Proof.
  unfold display_text, described_display_text.
  rewrite get_multiple_choice_text_get.
  pose proof
    (last_match_map
       (fun f => match choices_of f with
                 | Some _ => String.eqb name (field_name f)
                 | None => false
                 end)
       (fun f => match choices_of f with
                 | Some s => s
                 | None => EmptyString
                 end)
       choices_sub_dict md None) as E.
  cbn [option_map] in E. rewrite <- E. clear E.
  destruct (last_match _ _ md None) as [s|]; simpl; [|reflexivity].
  apply choices_sub_dict_get.
Qed.

(* ------------------------------------------------------------------ *)
(** ** Splitting and joining *)
(* ------------------------------------------------------------------ *)

Lemma drop_chars_append (a b : string) :
  drop_chars (String.length a) (a ++ b) = b.
Proof. induction a as [|c a IH]; simpl; [now destruct b | exact IH]. Qed.

(** The characters to pass over are dropped before the split goes on. *)
Lemma split_from_skip (sep : string) (n : nat) (s : string) :
  split_from sep n s = split_from sep 0 (drop_chars n s).
Proof.
  revert n; induction s as [|c s IH]; intros [|n]; try reflexivity.
  cbn [split_from drop_chars]. apply IH.
Qed.

Lemma split_from_not_nil (sep : string) (n : nat) (s : string) :
  split_from sep n s <> [].
Proof.
  revert n; induction s as [|c s IH]; intros n; cbn [split_from].
  - discriminate.
  - destruct n as [|n]; [|apply IH].
    destruct (prefix sep (String c s)); [discriminate|].
    destruct (split_from sep 0 s); discriminate.
Qed.

Lemma py_join_cons (sep p : string) (ps : list string) :
  ps <> [] -> py_join sep (p :: ps) = (p ++ sep ++ py_join sep ps)%string.
Proof. destruct ps; [congruence | reflexivity]. Qed.

Lemma py_join_cons_char (sep : string) (c : ascii) (h : string)
  (t : list string) :
  py_join sep (String c h :: t) = String c (py_join sep (h :: t)).
Proof. destruct t; reflexivity. Qed.

(** Joining the tokens of a split with the separator gives the text back. *)
Lemma py_join_split (sep s : string) :
  sep <> EmptyString -> py_join sep (py_split sep s) = s.
Proof.
  intros ne. unfold py_split.
  remember (String.length s) as n eqn:L.
  revert s L; induction n as [n IH] using lt_wf_ind; intros s L.
  destruct s as [|c s]; [reflexivity|].
  cbn [split_from].
  destruct (prefix sep (String c s)) eqn:P.
  - apply prefix_iff in P as [rest P].
    destruct sep as [|c0 sep']; [congruence|].
    simpl in P. injection P as <- ->.
    rewrite split_from_skip.
    replace (String.length (String c sep') - 1) with (String.length sep')
      by (simpl; lia).
    rewrite drop_chars_append.
    rewrite py_join_cons by apply split_from_not_nil.
    rewrite (IH (String.length rest)); [reflexivity | | reflexivity].
    subst n. simpl. rewrite length_append. lia.
  - destruct (split_from sep 0 s) as [|h t] eqn:E.
    + now destruct (split_from_not_nil sep 0 s).
    + rewrite py_join_cons_char, <- E.
      rewrite (IH (String.length s)); [reflexivity | | reflexivity].
      subst n. simpl. lia.
Qed.

(** An option without its blanks is its raw value, followed, when the
    option has a comma and a space, by these and by its display text. *)
Lemma option_entry_rejoin (option : string) :
  py_strip option = fst (option_entry option)
  \/ py_strip option
     = (fst (option_entry option) ++ ", " ++ snd (option_entry option))%string.
Proof.
  unfold option_entry. cbn [fst snd].
  assert (J := py_join_split ", " (py_strip option)).
  destruct (py_split ", " (py_strip option)) as [|h [|t ts]] eqn:E.
  - now destruct (split_from_not_nil ", " 0 (py_strip option)).
  - left. symmetry. apply J. discriminate.
  - right. symmetry. apply J. discriminate.
Qed.

(* ------------------------------------------------------------------ *)
(** ** Dropdown conversion *)
(* ------------------------------------------------------------------ *)

Lemma choice_text_display (texts : dict (dict string)) (name s : string) :
  choice_text texts name (VStr s)
  = match display_text texts name s with
    | Some t => Ok t
    | None => Err KeyError
    end.
Proof.
  unfold choice_text, display_text, dict_item.
  destruct (dict_get name texts) as [sub|]; simpl; reflexivity.
Qed.

(** The body of the loop on a dropdown whose value is text. *)
Lemma convert_dropdown_text (texts : dict (dict string)) (r : record)
  (f : field) (s : string) :
  field_type f = "dropdown" ->
  dict_get (field_name f) r = Some (VStr s) ->
  convert_dropdown texts r f
  = if String.eqb s EmptyString then Ok r
    else match display_text texts (field_name f) s with
         | Some t => Ok (dict_set (field_name f) (VStr t) r)
         | None => Err KeyError
         end.
Proof.
  intros Ty E. unfold convert_dropdown, dict_item. rewrite Ty, E. simpl.
  destruct (String.eqb s EmptyString); simpl; [reflexivity|].
  rewrite choice_text_display.
  now destruct (display_text texts (field_name f) s).
Qed.

Lemma convert_dropdown_other (texts : dict (dict string)) (r : record)
  (f : field) :
  field_type f <> "dropdown" -> convert_dropdown texts r f = Ok r.
Proof.
  intros Ty. unfold convert_dropdown.
  now destruct (String.eqb_spec (field_type f) "dropdown").
Qed.

(** A dropdown that the record does not hold stops the loop. *)
Lemma convert_dropdown_missing (texts : dict (dict string)) (r : record)
  (f : field) :
  field_type f = "dropdown" -> dict_get (field_name f) r = None ->
  convert_dropdown texts r f = Err KeyError.
Proof.
  intros Ty E. unfold convert_dropdown, dict_item. now rewrite Ty, E.
Qed.

(** The body writes under the name of its field only, and only if the
    record holds it. *)
Lemma convert_dropdown_frame (texts : dict (dict string)) (r r' : record)
  (f : field) (k : string) :
  convert_dropdown texts r f = Ok r' ->
  k <> field_name f \/ field_type f <> "dropdown"
  \/ dict_get k r = None ->
  dict_get k r' = dict_get k r.
Proof.
  unfold convert_dropdown, dict_item. intros H C.
  destruct (String.eqb_spec (field_type f) "dropdown") as [Ty|Ty];
    [|now injection H as <-].
  destruct (dict_get (field_name f) r) as [x|] eqn:E; simpl in H;
    [|discriminate].
  destruct (not_empty_str x); [|now injection H as <-].
  destruct (choice_text texts (field_name f) x) as [t|e]; simpl in H;
    [|discriminate].
  injection H as <-.
  destruct (string_dec k (field_name f)) as [->|ne].
  - destruct C as [C|[C|C]]; congruence.
  - now apply dict_get_set_other.
Qed.

Lemma collapse_radio_group_missing (r : record) (g : string) :
  dict_get g r = None -> collapse_radio_group r g = Err KeyError.
Proof.
  intros E. unfold collapse_radio_group, dict_item. now rewrite E.
Qed.

(** Neither loop adds a key to the record. *)
Lemma convert_dropdown_loop_absent (texts : dict (dict string))
  (fields : list field) (r r' : record) (k : string) :
  for_each (convert_dropdown texts) fields r = Ok r' ->
  dict_get k r = None -> dict_get k r' = None.
Proof.
  intros H E. revert H.
  apply (for_each_preserves (fun s => dict_get k s = None)); [|exact E].
  intros s f s' Es Hf.
  rewrite (convert_dropdown_frame texts s s' f k Hf); auto.
Qed.

Lemma collapse_loop_absent (groups : list string) (r r' : record)
  (k : string) :
  for_each collapse_radio_group groups r = Ok r' ->
  dict_get k r = None -> dict_get k r' = None.
Proof.
  intros H E. revert H.
  apply (for_each_preserves (fun s => dict_get k s = None)); [|exact E].
  intros s g s' Es Hg.
  destruct (string_dec k g) as [->|ne].
  - rewrite (collapse_radio_group_missing s g Es) in Hg. discriminate.
  - now rewrite (collapse_radio_group_frame s s' g k Hg ne).
Qed.

(** The claim read to the letter fails when a field declared before the
    missing one makes the loop raise first: the exception is then the one of
    that field, which need not be a lookup failure.  A record that holds
    text under the radio field [a] and lacks the radio field [b] makes the
    collapse raise AttributeError; a record that holds a mapping under the
    dropdown [a] and lacks the dropdown [b] makes the dropdown conversion
    raise TypeError.  Neither is caught by [except KeyError] or by
    [except LookupError]. *)
Lemma C10_counterexample :
  let ra := {| field_name := "a"; field_type := "radio";
               select_choices_or_calculations := Some "1, One | 2, Two" |} in
  let rb := {| field_name := "b"; field_type := "radio";
               select_choices_or_calculations := Some "1, One | 2, Two" |} in
  let da := {| field_name := "a"; field_type := "dropdown";
               select_choices_or_calculations := Some "1, Red | 2, Blue" |} in
  let db := {| field_name := "b"; field_type := "dropdown";
               select_choices_or_calculations := Some "1, Red | 2, Blue" |} in
  (dict_get "b" [("a", VStr "x")] = None
   /\ collapse_radio_groups [("a", VStr "x")] [ra; rb] = Err AttributeError
   /\ exn_isa AttributeError KeyError = false
   /\ exn_isa AttributeError LookupError = false)
  /\ (dict_get "b" [("a", VDict [])] = None
      /\ convert_dropdowns_to_strings [("a", VDict [])] [da; db]
         = Err TypeError
      /\ exn_isa TypeError KeyError = false
      /\ exn_isa TypeError LookupError = false).
Proof.
  intros ra rb da db. repeat split; reflexivity.
Qed.

(** C10, amended.  A record that lacks the entry of a field declared as
    dropdown makes the dropdown conversion raise, and one that lacks the
    entry of a field declared as radio makes the collapse raise: the missing
    field is never skipped.  When the loop gets to the missing field, that
    is, when no field declared before it has made the loop raise, the
    exception is KeyError.  *)
Theorem C10_missing_entry_raises (r : record) (md pre post : list field)
  (f : field) :
  md = pre ++ f :: post ->
  dict_get (field_name f) r = None ->
  (field_type f = "dropdown" ->
   (exists e, convert_dropdowns_to_strings r md = Err e)
   /\ (forall r1,
         for_each (convert_dropdown (get_multiple_choice_text md)) pre r
         = Ok r1 ->
         convert_dropdowns_to_strings r md = Err KeyError))
  /\ (field_type f = "radio" ->
      (exists e, collapse_radio_groups r md = Err e)
      /\ (forall r1,
            collapse_radio_groups r pre = Ok r1 ->
            collapse_radio_groups r md = Err KeyError)).
Proof.
  intros -> E. split; intros Ty.
  - assert (G : forall r1,
      for_each (convert_dropdown (get_multiple_choice_text (pre ++ f :: post)))
        pre r = Ok r1 ->
      convert_dropdowns_to_strings r (pre ++ f :: post) = Err KeyError).
    { intros r1 H. unfold convert_dropdowns_to_strings.
      rewrite for_each_app, H. simpl.
      rewrite (convert_dropdown_missing _ r1 f Ty); [reflexivity|].
      exact (convert_dropdown_loop_absent _ _ _ _ _ H E). }
    split; [|exact G].
    destruct (for_each
                (convert_dropdown
                   (get_multiple_choice_text (pre ++ f :: post))) pre r)
      as [r1|e] eqn:H.
    + exists KeyError. now apply (G r1).
    + exists e. unfold convert_dropdowns_to_strings.
      now apply for_each_app_err.
  - assert (G : forall r1,
      collapse_radio_groups r pre = Ok r1 ->
      collapse_radio_groups r (pre ++ f :: post) = Err KeyError).
    { intros r1 H.
      rewrite (collapse_radio_groups_split r r1 pre post f Ty H).
      rewrite collapse_radio_group_missing; [reflexivity|].
      exact (collapse_loop_absent _ _ _ _ H E). }
    split; [|exact G].
    destruct (collapse_radio_groups r pre) as [r1|e] eqn:H.
    + exists KeyError. now apply (G r1).
    + exists e. unfold collapse_radio_groups in *.
      rewrite radio_groups_app. now apply for_each_app_err.
Qed.

Lemma C10_missing_entry_raises_witness :
  let dd := {| field_name := "dd1"; field_type := "dropdown";
               select_choices_or_calculations := Some "1, Red | 2, Blue" |} in
  let rg := {| field_name := "rg1"; field_type := "radio";
               select_choices_or_calculations := Some "1, One | 2, Two" |} in
  convert_dropdowns_to_strings [("note", VStr "x")] [dd] = Err KeyError
  /\ collapse_radio_groups [("note", VStr "x")] [rg] = Err KeyError.
Proof.
  intros dd rg. split.
  - apply (proj2 (proj1 (C10_missing_entry_raises [("note", VStr "x")]
                           [dd] [] [] dd eq_refl eq_refl) eq_refl)
             [("note", VStr "x")]).
    reflexivity.
  - apply (proj2 (proj2 (C10_missing_entry_raises [("note", VStr "x")]
                           [rg] [] [] rg eq_refl eq_refl) eq_refl)
             [("note", VStr "x")]).
    reflexivity.
Defined.

Lemma dropdown_names_cons (f : field) (md : list field) :
  dropdown_names (f :: md)
  = if String.eqb (field_type f) "dropdown"
    then field_name f :: dropdown_names md
    else dropdown_names md.
Proof.
  unfold dropdown_names. simpl.
  now destruct (String.eqb (field_type f) "dropdown").
Qed.

(** When every dropdown is held as text which is empty or known to the
    choice-text map, and no dropdown comes twice, the loop returns and has
    replaced the texts that are not empty. *)
Lemma convert_dropdown_loop_ok (texts : dict (dict string))
  (fields : list field) (r : record) :
  NoDup (dropdown_names fields) ->
  (forall n, In n (dropdown_names fields) ->
     exists s, dict_get n r = Some (VStr s)
               /\ (s <> EmptyString -> display_text texts n s <> None)) ->
  exists r',
    for_each (convert_dropdown texts) fields r = Ok r'
    /\ forall k,
         dict_get k r'
         = dropdown_result texts (dropdown_names fields) k (dict_get k r).
Proof.
  revert r; induction fields as [|f fields IH]; intros r N H.
  - exists r. split; [reflexivity|]. intros k. reflexivity.
  - rewrite dropdown_names_cons in N, H. simpl.
    destruct (String.eqb_spec (field_type f) "dropdown") as [Ty|Ty].
    + inversion N as [|? ? Nn Nd]; subst.
      destruct (H (field_name f) (or_introl eq_refl)) as [s [E D]].
      rewrite (convert_dropdown_text texts r f s Ty E).
      assert (G : forall r1,
        dict_get (field_name f) r1
        = dropdown_result texts [field_name f] (field_name f)
            (dict_get (field_name f) r) ->
        (forall k, k <> field_name f -> dict_get k r1 = dict_get k r) ->
        exists r',
          for_each (convert_dropdown texts) fields r1 = Ok r'
          /\ forall k,
               dict_get k r'
               = dropdown_result texts (dropdown_names (f :: fields)) k
                   (dict_get k r)).
      { intros r1 Same Other.
        destruct (IH r1 Nd) as [r' [L R]].
        { intros n I. assert (ne : n <> field_name f) by congruence.
          rewrite (Other n ne). apply H. now right. }
        exists r'. split; [exact L|]. intros k. rewrite R.
        rewrite dropdown_names_cons.
        destruct (String.eqb_spec (field_type f) "dropdown"); [|contradiction].
        unfold dropdown_result in *. rewrite py_in_cons.
        destruct (String.eqb_spec k (field_name f)) as [->|ne]; cbn [orb].
        - apply py_in_false_iff in Nn. rewrite Nn, Same.
          rewrite py_in_cons, String.eqb_refl. reflexivity.
        - now rewrite (Other k ne). }
      destruct (String.eqb_spec s EmptyString) as [->|ne]; simpl.
      * apply G; [|reflexivity].
        unfold dropdown_result. rewrite py_in_cons, String.eqb_refl, E.
        reflexivity.
      * destruct (display_text texts (field_name f) s) as [t|] eqn:T;
          [|now destruct (D ne)].
        simpl. apply G.
        -- unfold dropdown_result.
           rewrite py_in_cons, String.eqb_refl, E, T.
           cbn [orb option_map].
           destruct (String.eqb_spec s EmptyString); [contradiction|].
           apply dict_get_set_same.
        -- intros k nk. now apply dict_get_set_other.
    + rewrite (convert_dropdown_other texts r f Ty). simpl.
      destruct (IH r N H) as [r' [L R]]. exists r'. split; [exact L|].
      intros k. rewrite R, dropdown_names_cons.
      now destruct (String.eqb_spec (field_type f) "dropdown").
Qed.

(** A dropdown whose text is not empty and not known to the choice-text map
    keeps the loop from returning. *)
Lemma convert_dropdown_loop_fails (texts : dict (dict string))
  (fields : list field) (r r' : record) (n s : string) :
  In n (dropdown_names fields) ->
  dict_get n r = Some (VStr s) -> s <> EmptyString ->
  display_text texts n s = None ->
  for_each (convert_dropdown texts) fields r <> Ok r'.
Proof.
  intros I E ne T. revert r E; induction fields as [|f fields IH];
    intros r E; [destruct I|].
  simpl. destruct (convert_dropdown texts r f) as [r1|e] eqn:B; simpl;
    [|discriminate].
  rewrite dropdown_names_cons in I.
  destruct (String.eqb_spec (field_type f) "dropdown") as [Ty|Ty].
  - destruct (string_dec n (field_name f)) as [->|nf].
    + rewrite (convert_dropdown_text texts r f s Ty E), T in B.
      now destruct (String.eqb_spec s EmptyString).
    + destruct I as [I|I]; [congruence|].
      apply (IH I). rewrite (convert_dropdown_frame texts r r1 f n B); auto.
  - apply (IH I). rewrite (convert_dropdown_frame texts r r1 f n B); auto.
Qed.

(** On a record that holds no mapping under a dropdown, the loop raises
    nothing but KeyError. *)
Lemma convert_dropdown_loop_err (texts : dict (dict string))
  (fields : list field) (r : record) (e : exn) :
  (forall n d, In n (dropdown_names fields) ->
               dict_get n r <> Some (VDict d)) ->
  for_each (convert_dropdown texts) fields r = Err e -> e = KeyError.
Proof.
  revert r; induction fields as [|f fields IH]; intros r H L;
    [discriminate|].
  simpl in L. rewrite dropdown_names_cons in H.
  destruct (convert_dropdown texts r f) as [r1|e1] eqn:B; simpl in L.
  - apply (IH r1); [|exact L]. intros n d I E.
    unfold convert_dropdown, dict_item in B.
    destruct (String.eqb_spec (field_type f) "dropdown") as [Ty|Ty].
    + destruct (dict_get (field_name f) r) as [x|]; simpl in B;
        [|discriminate].
      destruct (not_empty_str x).
      * destruct (choice_text texts (field_name f) x) as [t|]; simpl in B;
          [|discriminate].
        injection B as <-. rewrite dict_get_set in E.
        destruct (String.eqb n (field_name f)); [discriminate|].
        apply (H n d); [now right | exact E].
      * injection B as <-. apply (H n d); [now right | exact E].
    + injection B as <-. exact (H n d I E).
  - injection L as <-.
    unfold convert_dropdown, dict_item in B.
    destruct (String.eqb_spec (field_type f) "dropdown") as [Ty|Ty];
      [|discriminate].
    destruct (dict_get (field_name f) r) as [x|] eqn:E; simpl in B;
      [|now injection B].
    destruct (not_empty_str x); [|discriminate].
    unfold choice_text, dict_item in B.
    destruct (dict_get (field_name f) texts) as [sub|]; simpl in B;
      [|now injection B].
    destruct x as [s|b|d].
    + destruct (dict_get s sub); [discriminate | now injection B].
    + now injection B.
    + destruct (H (field_name f) d (or_introl eq_refl) E).
Qed.

(** C5.  Dropdown conversion on a record that holds text under every
    dropdown of the metadata.  The choice-text map is the one described:
    the choices split on the spaced bar, or on the bare bar when that gives
    one token, each option giving its first token as raw value and the rest
    of its tokens, joined again, as display text, so that an option without
    its blanks is its raw value, a comma, a space and its display text.
    When every text that is
    not empty is known to the map, the conversion returns, has replaced
    each of them by its display text, has left the empty texts and every
    other key as they were.  A text that is not empty and not known to the
    map makes the conversion raise KeyError. *)
Theorem C5_dropdown_conversion (r : record) (md : list field) :
  (forall n, In n (dropdown_names md) ->
     exists s, dict_get n r = Some (VStr s)) ->
  let texts := get_multiple_choice_text md in
  (forall n v, display_text texts n v = described_display_text md n v)
  /\ (forall option,
        py_strip option = fst (option_entry option)
        \/ py_strip option
           = (fst (option_entry option) ++ ", "
              ++ snd (option_entry option))%string)
  /\ (NoDup (dropdown_names md) ->
      (forall n s, In n (dropdown_names md) ->
         dict_get n r = Some (VStr s) -> s <> EmptyString ->
         display_text texts n s <> None) ->
      exists r',
        convert_dropdowns_to_strings r md = Ok r'
        /\ (forall n s t, In n (dropdown_names md) ->
              dict_get n r = Some (VStr s) -> s <> EmptyString ->
              display_text texts n s = Some t ->
              dict_get n r' = Some (VStr t))
        /\ (forall n, In n (dropdown_names md) ->
              dict_get n r = Some (VStr EmptyString) ->
              dict_get n r' = Some (VStr EmptyString))
        /\ (forall k, ~ In k (dropdown_names md) ->
              dict_get k r' = dict_get k r))
  /\ (forall n s, In n (dropdown_names md) ->
        dict_get n r = Some (VStr s) -> s <> EmptyString ->
        display_text texts n s = None ->
        convert_dropdowns_to_strings r md = Err KeyError).
Proof.
  intros H texts. split; [|split; [|split]].
  - intros n v. apply display_text_described.
  - apply option_entry_rejoin.
  - intros N K.
    destruct (convert_dropdown_loop_ok texts md r N) as [r' [L R]].
    { intros n I. destruct (H n I) as [s E]. exists s.
      split; [exact E | intros ne; exact (K n s I E ne)]. }
    exists r'. split; [exact L|]. split; [|split].
    + intros n s t I E ne T. rewrite R. unfold dropdown_result.
      apply py_in_iff in I. rewrite I, E, T.
      now destruct (String.eqb_spec s EmptyString).
    + intros n I E. rewrite R. unfold dropdown_result.
      apply py_in_iff in I. now rewrite I, E.
    + intros k nI. rewrite R. unfold dropdown_result.
      apply py_in_false_iff in nI. now rewrite nI.
  - intros n s I E ne T. unfold convert_dropdowns_to_strings. fold texts.
    destruct (for_each (convert_dropdown texts) md r) as [r'|e] eqn:L.
    + destruct (convert_dropdown_loop_fails texts md r r' n s I E ne T L).
    + f_equal. apply (convert_dropdown_loop_err texts md r e); [|exact L].
      intros m d Im Em. destruct (H m Im) as [s' E']. congruence.
Qed.

Lemma C5_dropdown_conversion_witness :
  let md := [ {| field_name := "dd1"; field_type := "dropdown";
                 select_choices_or_calculations :=
                   Some "1, Red | 2, Blue, dark" |} ] in
  (exists r',
      convert_dropdowns_to_strings [("dd1", VStr "2"); ("note", VStr "x")] md
      = Ok r'
      /\ dict_get "dd1" r' = Some (VStr "Blue, dark")
      /\ dict_get "note" r' = Some (VStr "x"))
  /\ convert_dropdowns_to_strings [("dd1", VStr "9")] md = Err KeyError.
Proof.
  intros md. split.
  - destruct (C5_dropdown_conversion
                [("dd1", VStr "2"); ("note", VStr "x")] md) as [_ [_ [P _]]].
    { intros n [<-|[]]. now exists "2". }
    destruct P as [r' [L [T [_ O]]]].
    + repeat constructor. simpl. tauto.
    + intros n s [<-|[]] E ne. injection E as <-. discriminate.
    + exists r'. split; [exact L|]. split.
      * apply (T "dd1" "2"); [now left | reflexivity | discriminate
                             | reflexivity].
      * rewrite O; [reflexivity|]. simpl. intros [E|[]]. discriminate.
  - destruct (C5_dropdown_conversion [("dd1", VStr "9")] md)
      as [_ [_ [_ P]]].
    { intros n [<-|[]]. now exists "9". }
    apply (P "dd1" "9"); [now left | reflexivity | discriminate
                         | reflexivity].
Defined.

(** The fallback on the bare bar, and a display text with a comma. *)
Example choices_without_spaces :
  choices_sub_dict "1, Red|2, Blue, dark|3, Green"
  = [("1", "Red"); ("2", "Blue, dark"); ("3", "Green")].
Proof. reflexivity. Qed.

(** The white space taken off an option is that of [str.strip]: the
    no-break space (code point 160) and the next-line control (133) go with
    the blanks, at both ends and not inside. *)
Example choices_with_no_break_space :
  choices_sub_dict
    ("1, Red" ++ String (ascii_of_nat 160) " | "
     ++ String (ascii_of_nat 133) "2, Blue"
     ++ String (ascii_of_nat 160) "sky")%string
  = [("1", "Red");
     ("2", ("Blue" ++ String (ascii_of_nat 160) "sky")%string)].
Proof. reflexivity. Qed.

Example is_space_code_points :
  filter (fun n => is_space (ascii_of_nat n)) (seq 0 256)
  = [9; 10; 11; 12; 13; 28; 29; 30; 31; 32; 133; 160].
Proof. reflexivity. Qed.

(* ------------------------------------------------------------------ *)
(** ** Field discovery *)
(* ------------------------------------------------------------------ *)

Lemma split_from_no_separator (sep s : string) :
  py_contains sep s = false -> split_from sep 0 s = [s].
Proof.
  induction s as [|c s IH]; cbn [py_contains split_from]; intros H.
  - reflexivity.
  - apply orb_false_iff in H as [P C]. rewrite P, (IH C). reflexivity.
Qed.

(** The first token of a split is what comes before the first occurrence
    of the separator. *)
Lemma split_from_hd (sep s : string) :
  hd EmptyString (split_from sep 0 s)
  = match index 0 sep s with
    | Some n => substring 0 n s
    | None => s
    end.
Proof.
  induction s as [|c s IH].
  - simpl. now destruct sep.
  - cbn [split_from index]. destruct (prefix sep (String c s)).
    + reflexivity.
    + destruct (split_from sep 0 s) as [|h t]; simpl in IH |- *;
        destruct (index 0 sep s) as [n|]; simpl; now rewrite <- IH.
Qed.

Lemma group_name_before_separator (key : string) :
  group_name key = before_separator key.
Proof.
  unfold group_name, before_separator, py_split.
  rewrite <- split_from_hd.
  destruct (py_contains "___" key) eqn:C; [reflexivity|].
  now rewrite (split_from_no_separator _ _ C).
Qed.

Lemma filter_filter {A : Type} (p q : A -> bool) (xs : list A) :
  filter p (filter q xs) = filter (fun x => q x && p x) xs.
Proof.
  induction xs as [|x xs IH]; simpl; [reflexivity|].
  destruct (q x); simpl; [destruct (p x)|]; now rewrite IH.
Qed.

Lemma filter_comm {A : Type} (p q : A -> bool) (xs : list A) :
  filter p (filter q xs) = filter q (filter p xs).
Proof.
  rewrite !filter_filter. apply filter_ext. intros x. apply andb_comm.
Qed.

Lemma first_seen_filter (p : string -> bool) (names : list string) :
  first_seen (filter p names) = filter p (first_seen names).
Proof.
  induction names as [|n names IH]; simpl; [reflexivity|].
  destruct (p n) eqn:Pn; simpl.
  - rewrite IH. f_equal. apply filter_comm.
  - rewrite IH, filter_filter. apply filter_ext_in. intros m _.
    destruct (String.eqb_spec m n) as [->|ne]; simpl.
    + now rewrite Pn.
    + reflexivity.
Qed.

Lemma first_seen_In (n : string) (names : list string) :
  In n (first_seen names) <-> In n names.
Proof.
  induction names as [|m names IH]; simpl; [tauto|].
  rewrite filter_In, IH, negb_true_iff, String.eqb_neq.
  destruct (string_dec m n); intuition congruence.
Qed.

Lemma first_seen_NoDup (names : list string) : NoDup (first_seen names).
Proof.
  induction names as [|m names IH]; simpl; constructor.
  - rewrite filter_In, negb_true_iff, String.eqb_neq. tauto.
  - now apply NoDup_filter.
Qed.

(** The accumulation of the walk gives the names where they are first
    seen. *)
Lemma append_new_first_seen (names acc : list string) :
  fold_left (fun result key => append_new key result) names acc
  = acc ++ first_seen (filter (fun n => negb (py_in n acc)) names).
Proof.
  revert acc; induction names as [|n names IH]; intros acc; simpl.
  - now rewrite app_nil_r.
  - rewrite IH. unfold append_new.
    destruct (py_in n acc) eqn:I; simpl; [reflexivity|].
    rewrite <- app_assoc. simpl. do 2 f_equal.
    rewrite <- first_seen_filter, filter_filter. f_equal.
    apply filter_ext. intros m. unfold py_in.
    rewrite existsb_app. simpl. now rewrite orb_false_r, negb_orb.
Qed.

Lemma collect_annotation_names (objs : list PdfDict) (result : list string)
  (a : PdfDict) :
  is_widget a = true -> has_name_or_parent objs a ->
  collect_annotation objs result a
  = Ok (fold_left (fun result key => append_new key result)
          match logical_name objs a with
          | Some n => [n]
          | None => []
          end result).
Proof.
  unfold collect_annotation, logical_name, carried_name, has_name_or_parent,
    parent_of.
  intros W H. rewrite W.
  destruct (field_key a) as [t|]; simpl.
  - now rewrite group_name_before_separator.
  - destruct (H eq_refl) as [p [parent [-> ->]]]. simpl.
    destruct (field_key parent); simpl;
      now rewrite ?group_name_before_separator.
Qed.

Lemma collect_annotations_names (objs : list PdfDict)
  (annotations : list PdfDict) (result : list string) :
  (forall a, In a annotations -> is_widget a = true ->
             has_name_or_parent objs a) ->
  for_each (collect_annotation objs) annotations result
  = Ok (fold_left (fun result key => append_new key result)
          (flat_map
             (fun a => match logical_name objs a with
                       | Some n => [n]
                       | None => []
                       end)
             (filter is_widget annotations))
          result).
Proof.
  revert result; induction annotations as [|a l IH]; intros result H.
  - reflexivity.
  - cbn [for_each filter]. destruct (is_widget a) eqn:W.
    + rewrite (collect_annotation_names objs result a W);
        [|apply H; [now left | exact W]].
      cbn [bind flat_map]. rewrite fold_left_app.
      apply IH. intros b I. apply H. now right.
    + unfold collect_annotation at 1. rewrite W. cbn [bind].
      apply IH. intros b I. apply H. now right.
Qed.

Lemma collect_pages_names (objs : list PdfDict)
  (pgs : list (option (list PdfDict))) (result : list string) :
  (forall annotations a, In (Some annotations) pgs -> In a annotations ->
     is_widget a = true -> has_name_or_parent objs a) ->
  for_each (collect_page objs) pgs result
  = Ok (fold_left (fun result key => append_new key result)
          (flat_map
             (fun a => match logical_name objs a with
                       | Some n => [n]
                       | None => []
                       end)
             (flat_map
                (fun page => match page with
                             | Some annotations => filter is_widget annotations
                             | None => []
                             end) pgs))
          result).
Proof.
  revert result; induction pgs as [|pg pgs IH]; intros result H.
  - reflexivity.
  - cbn [for_each flat_map]. destruct pg as [annotations|]; cbn [collect_page].
    + rewrite (collect_annotations_names objs annotations result);
        [|intros a I; apply (H annotations a); [now left | exact I]].
      cbn [bind]. rewrite flat_map_app, fold_left_app.
      apply IH. intros l a I. apply H. now right.
    + cbn [bind app]. apply IH. intros l a I. apply H. now right.
Qed.

(** C6.  Field discovery on a template whose widgets all have a field name
    of their own or a parent: it returns the logical names of the Widget
    annotations of all pages, each once, where it is first seen.  The
    logical name is the own field name if there is one, else that of the
    parent, cut before the first occurrence of the separator. *)
Theorem C6_get_pdf_fields (template_pdf : PdfReader) :
  (forall a, In a (widgets template_pdf) ->
             has_name_or_parent (objects template_pdf) a) ->
  get_pdf_fields template_pdf = Ok (first_seen (logical_names template_pdf))
  /\ NoDup (first_seen (logical_names template_pdf))
  /\ (forall n, In n (first_seen (logical_names template_pdf))
                <-> exists a, In a (widgets template_pdf)
                              /\ logical_name (objects template_pdf) a
                                 = Some n).
Proof.
  intros H. split; [|split].
  - unfold get_pdf_fields.
    rewrite (collect_pages_names (objects template_pdf)).
    + rewrite append_new_first_seen. simpl.
      unfold logical_names, widgets. do 2 f_equal.
      apply filter_true.
    + intros annotations a Ip Ia W. apply H. unfold widgets.
      apply in_flat_map. exists (Some annotations). split; [exact Ip|].
      apply filter_In. tauto.
  - apply first_seen_NoDup.
  - intros n. rewrite first_seen_In. unfold logical_names.
    rewrite in_flat_map. split; intros [a [I L]]; exists a; split; trivial.
    + destruct (logical_name _ a) as [m|]; simpl in L; [|destruct L].
      destruct L as [->|[]]. reflexivity.
    + rewrite L. now left.
Qed.

(** The truncation of the name of a checkbox. *)
Example C6_truncation_example :
  get_pdf_fields
    {| objects := [];
       pages := [ Some [ {| Subtype := Some "/Widget";
                            T := Some "(cb_1___3)"; V := None; AS := None;
                            AP := None; Parent := None |} ] ];
       AcroForm := Some false |}
  = Ok ["cb_1"].
Proof. reflexivity. Qed.

Lemma C6_get_pdf_fields_witness :
  get_pdf_fields demo_template = Ok ["cb_1"; "rg1"].
Proof.
  apply (C6_get_pdf_fields demo_template).
  intros a I E. simpl in I.
  destruct I as [<-|[<-|[<-|[]]]]; try discriminate E;
    exists 0, demo_parent; split; reflexivity.
Defined.

(* ------------------------------------------------------------------ *)
(** ** Filling *)
(* ------------------------------------------------------------------ *)

Lemma store_set_nth (i : nat) (x y : PdfDict) (xs : list PdfDict) :
  nth_error xs i = Some y -> nth_error (store_set i x xs) i = Some x.
Proof.
  revert i; induction xs as [|z xs IH]; intros [|i]; simpl; try discriminate.
  - reflexivity.
  - apply IH.
Qed.

Lemma store_set_nth_other (i j : nat) (x : PdfDict) (xs : list PdfDict) :
  i <> j -> nth_error (store_set i x xs) j = nth_error xs j.
Proof.
  revert i j; induction xs as [|z xs IH]; intros [|i] [|j] ne; simpl;
    try reflexivity; try congruence.
  apply IH. congruence.
Qed.

(** The claim read to the letter fails on the demo template.  The parent
    declares no appearance state, so that the chosen value is not among
    its declared states, and yet the widget that offers the choice is
    written to; the widget of the same group that does not offer the
    choice is left as it is although a widget of its parent offers it; and
    a widget of the group whose appearance dictionary has no [/D] entry
    raises an exception. *)
Lemma C2_counterexample :
  ~ In (PdfName "2") (declared_states demo_parent)
  /\ fill_annotation demo_record [demo_parent] (demo_radio ["/2"; "/Off"])
     <> Ok ([demo_parent], demo_radio ["/2"; "/Off"])
  /\ fill_annotation demo_record [demo_parent] (demo_radio ["/1"; "/Off"])
     = Ok ([demo_parent], demo_radio ["/1"; "/Off"])
  /\ fill_annotation demo_record [demo_parent] demo_radio_without_down
     = Err AttributeError.
Proof.
  split; [|split; [|split]].
  - simpl. tauto.
  - discriminate.
  - reflexivity.
  - reflexivity.
Qed.

(** C2, amended.  A grouped widget whose group name is a key of the record
    with a non-empty mapping as value, and which declares appearance states
    of its own: the first key of the mapping is the chosen raw value; when
    its name is among the states of the widget, the value of the parent and
    the appearance state of the widget are set to it and nothing else
    changes; when it is not, the objects and the widget are returned as
    they were, without an exception. *)
Theorem C2_fill_grouped_radio (data_dict : record) (objs : list PdfDict)
  (annotation parent : PdfDict) (p : nat) (t k0 : string) (x : value)
  (rest : dict value) (states : list string) :
  is_widget annotation = true ->
  field_key annotation = None ->
  Parent annotation = Some p ->
  nth_error objs p = Some parent ->
  field_key parent = Some t ->
  dict_get (slice_1_m1 t) data_dict = Some (VDict ((k0, x) :: rest)) ->
  AP annotation = Some (APDict (Some states)) ->
  (In (PdfName k0) states ->
   fill_annotation data_dict objs annotation
   = Ok (store_set p (update_V parent (PName (PdfName k0))) objs,
         update_AS annotation (PName (PdfName k0)))
   /\ nth_error (store_set p (update_V parent (PName (PdfName k0))) objs) p
      = Some (update_V parent (PName (PdfName k0))))
  /\ (~ In (PdfName k0) states ->
      fill_annotation data_dict objs annotation = Ok (objs, annotation)).
Proof.
  intros W K P N KP D A.
  unfold fill_annotation, parent_of, down_states.
  rewrite W, K, P, N. cbn [bind]. rewrite KP, D, A. cbn [bind].
  split; intros I.
  - apply py_in_iff in I. rewrite I. split; [reflexivity|].
    now apply (store_set_nth p _ parent).
  - apply py_in_false_iff in I. now rewrite I.
Qed.

Lemma C2_fill_grouped_radio_witness :
  fill_annotation demo_record [demo_parent] (demo_radio ["/2"; "/Off"])
  = Ok ([update_V demo_parent (PName "/2")],
        update_AS (demo_radio ["/2"; "/Off"]) (PName "/2"))
  /\ fill_annotation demo_record [demo_parent] (demo_radio ["/1"; "/Off"])
     = Ok ([demo_parent], demo_radio ["/1"; "/Off"]).
Proof.
  split.
  - apply (C2_fill_grouped_radio demo_record [demo_parent]
             (demo_radio ["/2"; "/Off"]) demo_parent 0 "(rg1)" "2"
             (VBool true) [] ["/2"; "/Off"]
             eq_refl eq_refl eq_refl eq_refl eq_refl eq_refl eq_refl).
    now left.
  - apply (C2_fill_grouped_radio demo_record [demo_parent]
             (demo_radio ["/1"; "/Off"]) demo_parent 0 "(rg1)" "2"
             (VBool true) [] ["/1"; "/Off"]
             eq_refl eq_refl eq_refl eq_refl eq_refl eq_refl eq_refl).
    simpl. intros [E|[E|[]]]; discriminate.
Defined.

(** The scenario of the radio group on the whole template: the parent gets
    the chosen value, the widget that offers it gets the state, the other
    widget and the checkbox, which the record does not name, stay. *)
Example fill_pdf_scenario :
  fill_pdf demo_template demo_record
  = Ok {| objects := [update_V demo_parent (PName "/2")];
          pages := [ Some [demo_checkbox; demo_radio ["/1"; "/Off"]];
                     None;
                     Some [update_AS (demo_radio ["/2"; "/Off"])
                             (PName "/2")] ];
          AcroForm := Some true |}.
Proof. reflexivity. Qed.

(** A widget without a name whose parent is there and has no field name
    either is passed over by both walks. *)
Lemma nameless_parent_skipped (data_dict : record) (objs : list PdfDict)
  (result : list string) (annotation parent : PdfDict) (p : nat) :
  field_key annotation = None ->
  Parent annotation = Some p ->
  nth_error objs p = Some parent ->
  field_key parent = None ->
  collect_annotation objs result annotation = Ok result
  /\ fill_annotation data_dict objs annotation = Ok (objs, annotation).
Proof.
  intros K P N KP. unfold collect_annotation, fill_annotation, parent_of.
  rewrite K, P, N. cbn [bind snd]. rewrite KP.
  now destruct (is_widget annotation).
Qed.

(** A widget without a name and without a parent stops both walks with a
    TypeError, wherever it stands. *)
Lemma orphan_raises (data_dict : record) (objs : list PdfDict)
  (result : list string) (annotation : PdfDict) :
  is_widget annotation = true ->
  field_key annotation = None ->
  Parent annotation = None ->
  collect_annotation objs result annotation = Err TypeError
  /\ fill_annotation data_dict objs annotation = Err TypeError.
Proof.
  intros W K P. unfold collect_annotation, fill_annotation, parent_of.
  now rewrite W, K, P.
Qed.

(** C7.  On a template whose only widget has neither a field name nor a
    parent, neither walk passes over it: field discovery and filling both
    end with a TypeError. *)
Theorem C7_orphan_widget_raises :
  let template_pdf :=
    {| objects := []; pages := [Some [orphan_widget]];
       AcroForm := Some false |} in
  get_pdf_fields template_pdf = Err TypeError
  /\ fill_pdf template_pdf [] = Err TypeError.
Proof. split; reflexivity. Qed.

(* ------------------------------------------------------------------ *)
(** ** The record fetch *)
(* ------------------------------------------------------------------ *)

Lemma py_contains_middle (a sub b : string) :
  py_contains sub (a ++ sub ++ b)%string = true.
Proof. apply py_contains_iff. now exists a, b. Qed.

Lemma no_records_message_names (field id : string) :
  py_contains field (no_records_message field id) = true
  /\ py_contains id (no_records_message field id) = true.
Proof.
  unfold no_records_message. split.
  - apply py_contains_middle.
  - replace ("No records found where '" ++ field ++ "' = " ++ id)%string
      with (("No records found where '" ++ field ++ "' = ")
            ++ id ++ EmptyString)%string
      by (now rewrite !append_assoc, append_empty_r).
    apply py_contains_middle.
Qed.

Lemma multiple_records_message_names (field id : string) :
  py_contains field (multiple_records_message field id) = true
  /\ py_contains id (multiple_records_message field id) = true.
Proof.
  unfold multiple_records_message. split.
  - apply py_contains_middle.
  - replace ("Multiple records found where '" ++ field ++ "' = " ++ id
             ++ " (expected only 1)")%string
      with (("Multiple records found where '" ++ field ++ "' = ")
            ++ id ++ " (expected only 1)")%string
      by (now rewrite !append_assoc).
    apply py_contains_middle.
Qed.

(** On the error payload the record fetch does not raise: it prints the
    message of the API and leaves the process with status 1. *)
Lemma C8_counterexample :
  get_record demo_error_payload "record_id" "7"
  = Exited
      "REDCap API returned an error while fetching record 7: You do not have permissions to use the API"
      1
  /\ ~ (exists e message,
          get_record demo_error_payload "record_id" "7" = Raised e message).
Proof.
  split; [reflexivity|]. intros [e [message H]]. discriminate H.
Qed.

(** C8, amended.  The record fetch raises a LookupError whose message names
    the identifier field and the value of the filter when the list of the
    API holds no record or more than one; it returns the record when the
    list holds exactly one; and on an error payload it prints the message
    of the API and leaves the process with status 1, as the metadata fetch
    does. *)
Theorem C8_get_record (redcap_unique_identifier record_id : string) :
  (forall records, length records <> 1 ->
     exists message,
       get_record (ReplyList records) redcap_unique_identifier record_id
       = Raised LookupError message
       /\ exn_isa LookupError LookupError = true
       /\ py_contains redcap_unique_identifier message = true
       /\ py_contains record_id message = true)
  /\ (forall r,
        get_record (ReplyList [r]) redcap_unique_identifier record_id
        = Returned (FetchedRecord r))
  /\ (forall d error,
        dict_get "error" d = Some error -> error <> EmptyString ->
        get_record (ReplyDict d) redcap_unique_identifier record_id
        = Exited (record_error_line record_id error) 1
        /\ get_metadata (MetadataDict d)
           = Exited (metadata_error_line error) 1).
Proof.
  split; [|split].
  - intros [|r [|r' records]] L; simpl in L; [|congruence|].
    + exists (no_records_message redcap_unique_identifier record_id).
      split; [reflexivity|]. split; [reflexivity|].
      apply no_records_message_names.
    + exists (multiple_records_message redcap_unique_identifier record_id).
      split; [reflexivity|]. split; [reflexivity|].
      apply multiple_records_message_names.
  - reflexivity.
  - intros d error E ne. unfold get_record, get_metadata. rewrite E.
    now destruct (String.eqb_spec error EmptyString).
Qed.

Lemma C8_get_record_witness :
  (exists message,
      get_record (ReplyList []) "record_id" "7" = Raised LookupError message
      /\ exn_isa LookupError LookupError = true
      /\ py_contains "record_id" message = true
      /\ py_contains "7" message = true)
  /\ get_record demo_error_payload "record_id" "7"
     = Exited
         (record_error_line "7" "You do not have permissions to use the API")
         1.
Proof.
  destruct (C8_get_record "record_id" "7") as [P [_ Q]]. split.
  - apply (P []). simpl. lia.
  - apply (Q [("error", "You do not have permissions to use the API")]
             "You do not have permissions to use the API");
      [reflexivity | discriminate].
Defined.

(* ------------------------------------------------------------------ *)
(** ** The command line *)
(* ------------------------------------------------------------------ *)

(** With the template as output path the validation raises
    FileExistsError, which is an OSError and no ValueError, once it has
    looked for the template in the file system. *)
Lemma C9_counterexample :
  input_pdf demo_arguments = "form.pdf"
  /\ output_pdf demo_arguments = Some "form.pdf"
  /\ get_cmd_line_input string (fun s => s) String.eqb (fun p => p)
       (fun p => p) (fun _ => true) "20260101_000000" demo_arguments
     = ([Stat "form.pdf"], Err FileExistsError)
  /\ exn_isa FileExistsError ValueError = false
  /\ exn_isa FileExistsError OSError = true.
Proof. repeat split. Qed.

Section CommandLineFacts.

Variable path : Type.
Variable Path : string -> path.
Variable path_eqb : path -> path -> bool.
Variable path_str : path -> string.
Variable path_stem : path -> string.
Variable path_exists : path -> bool.
Variable now : string.

(** C9, amended.  When the path of the template and the output path are
    the same path, the validation raises: ValueError when the template has
    no [.pdf] extension, before it touches anything; FileNotFoundError when
    the template is not there; and FileExistsError, an OSError, otherwise.
    All it has done to the file system by then is to ask whether the
    template exists; the rest is printing. *)
Theorem C9_same_path_raises (inp : Namespace) :
  path_eqb (Path (input_pdf inp))
    (snd (choose_output_pdf path Path path_stem now inp)) = true ->
  let run := get_cmd_line_input path Path path_eqb path_str path_stem
               path_exists now inp in
  (py_endswith ".pdf" (input_pdf inp) = false ->
   run = ([], Err ValueError))
  /\ (py_endswith ".pdf" (input_pdf inp) = true ->
      path_exists (Path (input_pdf inp)) = false ->
      run = ([Stat (Path (input_pdf inp))], Err FileNotFoundError))
  /\ (py_endswith ".pdf" (input_pdf inp) = true ->
      path_exists (Path (input_pdf inp)) = true ->
      run = (Stat (Path (input_pdf inp))
               :: fst (choose_output_pdf path Path path_stem now inp),
             Err FileExistsError)
      /\ exn_isa FileExistsError OSError = true
      /\ exn_isa FileExistsError ValueError = false).
Proof.
  intros Same run. subst run. unfold get_cmd_line_input.
  split; [|split].
  - intros E. now rewrite E.
  - intros E X. now rewrite E, X.
  - intros E X. rewrite E, X. cbn [negb].
    destruct (choose_output_pdf path Path path_stem now inp) as [printed o].
    cbn [fst snd] in *. rewrite Same. repeat split.
Qed.

End CommandLineFacts.

Lemma C9_same_path_raises_witness :
  get_cmd_line_input string (fun s => s) String.eqb (fun p => p)
    (fun p => p) (fun _ => true) "20260101_000000" demo_arguments
  = ([Stat "form.pdf"], Err FileExistsError)
  /\ exn_isa FileExistsError OSError = true
  /\ exn_isa FileExistsError ValueError = false.
Proof.
  apply (C9_same_path_raises string (fun s => s) String.eqb (fun p => p)
           (fun p => p) (fun _ => true) "20260101_000000" demo_arguments);
    reflexivity.
Defined.

(* ================================================================== *)
(** * Further properties of the normalizer *)
(* ================================================================== *)

Lemma dict_keys_set_present {V : Type} (k : string) (v : V) (d : dict V) :
  dict_get k d <> None -> dict_keys (dict_set k v d) = dict_keys d.
Proof.
  induction d as [|[k0 v0] d IH]; simpl; intros H; [congruence|].
  destruct (String.eqb_spec k k0) as [->|ne]; simpl; [reflexivity|].
  now rewrite IH.
Qed.

Lemma dict_keys_set_absent {V : Type} (k : string) (v : V) (d : dict V) :
  dict_get k d = None -> dict_keys (dict_set k v d) = dict_keys d ++ [k].
Proof.
  induction d as [|[k0 v0] d IH]; simpl; intros H; [reflexivity|].
  destruct (String.eqb_spec k k0) as [->|ne]; [discriminate|].
  simpl. now rewrite IH.
Qed.

Lemma convert_dropdown_keys (texts : dict (dict string)) (r r' : record)
  (f : field) :
  convert_dropdown texts r f = Ok r' -> dict_keys r' = dict_keys r.
Proof.
  unfold convert_dropdown, dict_item. intros H.
  destruct (String.eqb (field_type f) "dropdown"); [|now injection H as <-].
  destruct (dict_get (field_name f) r) as [x|] eqn:E; simpl in H;
    [|discriminate].
  destruct (not_empty_str x); [|now injection H as <-].
  destruct (choice_text texts (field_name f) x) as [t|e]; simpl in H;
    [|discriminate].
  injection H as <-. apply dict_keys_set_present. congruence.
Qed.

Lemma collapse_radio_group_keys (r r' : record) (g : string) :
  collapse_radio_group r g = Ok r' -> dict_keys r' = dict_keys r.
Proof.
  unfold collapse_radio_group, dict_item. intros H.
  destruct (dict_get g r) as [x|] eqn:E; simpl in H; [|discriminate].
  destruct (as_mapping x) as [d|e]; simpl in H; [|discriminate].
  destruct (existsb _ (dict_values d)); [discriminate|].
  destruct (negb (_contains_only_one_true _)); [discriminate|].
  destruct (Nat.ltb 1 (length d)); [|now injection H as <-].
  destruct (first_true_key d (dict_keys d)) as [[k x']|]; injection H as <-;
    [|reflexivity].
  apply dict_keys_set_present. congruence.
Qed.

Lemma convert_dropdown_loop_frame (texts : dict (dict string))
  (fields : list field) (r r' : record) (k : string) :
  for_each (convert_dropdown texts) fields r = Ok r' ->
  ~ In k (dropdown_names fields) ->
  dict_get k r' = dict_get k r.
Proof.
  revert r; induction fields as [|f fields IH]; intros r H nI; simpl in H.
  - now injection H as <-.
  - destruct (convert_dropdown texts r f) as [r1|e] eqn:B; simpl in H;
      [|discriminate].
    rewrite dropdown_names_cons in nI.
    destruct (String.eqb_spec (field_type f) "dropdown") as [Ty|Ty].
    + rewrite (IH r1 H); [|intros I; apply nI; now right].
      apply (convert_dropdown_frame texts r r1 f k B).
      left. intros ->. apply nI. now left.
    + rewrite (IH r1 H nI).
      apply (convert_dropdown_frame texts r r1 f k B). tauto.
Qed.

Lemma collapse_loop_frame (groups : list string) (r r' : record)
  (k : string) :
  for_each collapse_radio_group groups r = Ok r' ->
  ~ In k groups -> dict_get k r' = dict_get k r.
Proof.
  revert r; induction groups as [|g groups IH]; intros r H nI; simpl in H.
  - now injection H as <-.
  - destruct (collapse_radio_group r g) as [r1|e] eqn:B; simpl in H;
      [|discriminate].
    rewrite (IH r1 H); [|intros I; apply nI; now right].
    apply (collapse_radio_group_frame r r1 g k B).
    intros ->. apply nI. now left.
Qed.

(** X1.  When the dropdown conversion returns, the record has the same keys
    in the same order, and every key that is not a dropdown of the metadata
    has the value it had. *)
Theorem X1_dropdown_conversion_frame (r r' : record) (md : list field) :
  convert_dropdowns_to_strings r md = Ok r' ->
  dict_keys r' = dict_keys r
  /\ forall k, ~ In k (dropdown_names md) -> dict_get k r' = dict_get k r.
Proof.
  unfold convert_dropdowns_to_strings. intros H. split.
  - revert H.
    apply (for_each_preserves (fun s => dict_keys s = dict_keys r));
      [|reflexivity].
    intros s f s' Es Hf.
    now rewrite (convert_dropdown_keys _ _ _ _ Hf).
  - intros k nI. exact (convert_dropdown_loop_frame _ _ _ _ k H nI).
Qed.

Lemma X1_dropdown_conversion_frame_witness :
  dict_keys [("dd1", VStr "Blue"); ("note", VStr "x")] = ["dd1"; "note"]
  /\ forall k,
       ~ In k ["dd1"] ->
       dict_get k [("dd1", VStr "Blue"); ("note", VStr "x")]
       = dict_get k [("dd1", VStr "2"); ("note", VStr "x")].
Proof.
  apply (X1_dropdown_conversion_frame
           [("dd1", VStr "2"); ("note", VStr "x")]
           [("dd1", VStr "Blue"); ("note", VStr "x")]
           [ {| field_name := "dd1"; field_type := "dropdown";
                select_choices_or_calculations :=
                  Some "1, Red | 2, Blue" |} ]).
  reflexivity.
Defined.

(** X2.  When the collapse returns, the record has the same keys in the
    same order, and every key that is not a radio field of the metadata has
    the value it had. *)
Theorem X2_collapse_frame (r r' : record) (md : list field) :
  collapse_radio_groups r md = Ok r' ->
  dict_keys r' = dict_keys r
  /\ forall k, ~ declared md "radio" k -> dict_get k r' = dict_get k r.
Proof.
  unfold collapse_radio_groups. intros H. split.
  - revert H.
    apply (for_each_preserves (fun s => dict_keys s = dict_keys r));
      [|reflexivity].
    intros s g s' Es Hg.
    now rewrite (collapse_radio_group_keys _ _ _ Hg).
  - intros k nD. apply (collapse_loop_frame _ _ _ k H).
    now rewrite radio_groups_declared.
Qed.

Lemma X2_collapse_frame_witness :
  dict_keys [("rg", VDict [("2", VBool true)]); ("note", VStr "x")]
  = ["rg"; "note"]
  /\ forall k,
       ~ declared
           [ {| field_name := "rg"; field_type := "radio";
                select_choices_or_calculations := None |} ] "radio" k ->
       dict_get k [("rg", VDict [("2", VBool true)]); ("note", VStr "x")]
       = dict_get k
           [("rg", VDict [("1", VBool false); ("2", VBool true)]);
            ("note", VStr "x")].
Proof.
  apply (X2_collapse_frame
           [("rg", VDict [("1", VBool false); ("2", VBool true)]);
            ("note", VStr "x")]
           [("rg", VDict [("2", VBool true)]); ("note", VStr "x")]
           [ {| field_name := "rg"; field_type := "radio";
                select_choices_or_calculations := None |} ]).
  reflexivity.
Defined.

Lemma dict_keys_of_raw (raw : raw_record) :
  dict_keys (of_raw raw) = dict_keys raw.
Proof.
  unfold dict_keys, of_raw. rewrite map_map. reflexivity.
Qed.

Lemma dict_get_some_iff {V : Type} (k : string) (d : dict V) :
  dict_get k d <> None <-> In k (dict_keys d).
Proof.
  rewrite dict_get_none_iff.
  destruct (in_dec string_dec k (dict_keys d)); tauto.
Qed.

(** The pass writes under keys that the record holds: its keys stay. *)
Lemma convert_pass_keys (raw : raw_record)
  (radio_buttons checkboxes : list string) (ks : list string)
  (r s : record) :
  dict_keys r = dict_keys raw ->
  dict_keys
    (fst (fold_left (convert_variable raw radio_buttons checkboxes) ks
            (r, s)))
  = dict_keys raw.
Proof.
  revert r s; induction ks as [|x ks IH]; intros r s H; cbn [fold_left].
  - exact H.
  - destruct (convert_variable raw radio_buttons checkboxes (r, s) x)
      as [r1 s1] eqn:E.
    apply IH. unfold convert_variable in E.
    destruct (dict_get x raw) as [v|] eqn:G;
      [|injection E as <- _; exact H].
    assert (P : dict_get x r <> None).
    { apply dict_get_some_iff. rewrite H. apply dict_get_some_iff.
      congruence. }
    destruct (is_checkbox_variable checkboxes x).
    + injection E as <- _. now rewrite dict_keys_set_present.
    + destruct (py_in x radio_buttons); injection E as <- _;
        [now rewrite dict_keys_set_present | exact H].
Qed.

(** [update] keeps the keys of the dictionary where they are and puts the
    keys that are new to it behind them. *)
Lemma dict_keys_update {V : Type} (other d : dict V) :
  exists added,
    dict_keys (dict_update d other) = dict_keys d ++ added
    /\ forall k, In k added ->
                 In k (dict_keys other) /\ ~ In k (dict_keys d).
Proof.
  unfold dict_update. revert d.
  induction other as [|[k0 v0] other IH]; intros d; simpl.
  - exists []. split; [now rewrite app_nil_r | intros k []].
  - destruct (IH (dict_set k0 v0 d)) as [added [E A]].
    destruct (dict_get k0 d) as [x|] eqn:G.
    + exists added. rewrite E, dict_keys_set_present by congruence.
      split; [reflexivity|]. intros k I. destruct (A k I) as [Io nI].
      split; [now right|]. intros Id. apply nI.
      apply dict_keys_set. now right.
    + exists (k0 :: added). rewrite E, (dict_keys_set_absent _ _ _ G).
      rewrite <- app_assoc. split; [reflexivity|].
      intros k [<-|I].
      * split; [now left | now apply dict_get_none_iff].
      * destruct (A k I) as [Io nI]. split; [now right|].
        intros Id. apply nI. apply dict_keys_set. now right.
Qed.

(** X3.  The conversion of checkboxes and radio buttons keeps the keys of
    the raw record in their order and puts behind them the keys it adds,
    each of which is the text companion of a radio button with a value and
    was not a key of the raw record. *)
Theorem X3_conversion_keys (raw : raw_record) (md : list field) :
  exists added,
    dict_keys (convert_checkboxes_and_radio_buttons raw md)
    = dict_keys raw ++ added
    /\ forall k, In k added ->
                 staged_key raw md k /\ dict_get k raw = None.
Proof.
  set (st := fold_left
               (convert_variable raw (_extract_field md "radio")
                  (_extract_field md "checkbox"))
               (dict_keys raw) (of_raw raw, [])).
  assert (K : dict_keys (fst st) = dict_keys raw)
    by apply convert_pass_keys, dict_keys_of_raw.
  assert (S : forall k t, dict_get k (snd st) = Some t ->
                          staged_key raw md k).
  { intros k t G.
    apply convert_pass_snd_sound in G as [N | [g [_ St]]]; [discriminate|].
    exact (staged_entry_staged_key _ _ _ _ _ St). }
  change (exists added,
            dict_keys (let '(r, s) := st in dict_update r s)
            = dict_keys raw ++ added
            /\ forall k, In k added ->
                         staged_key raw md k /\ dict_get k raw = None).
  clearbody st. destruct st as [r s]. cbn [fst snd] in *.
  destruct (dict_keys_update s r) as [added [E A]].
  exists added. rewrite E, K. split; [reflexivity|].
  intros k I. destruct (A k I) as [Is nI]. split.
  - apply dict_get_some_iff in Is.
    destruct (dict_get k s) as [t|] eqn:G; [|congruence].
    exact (S k t G).
  - apply dict_get_none_iff. now rewrite <- K.
Qed.

(** A loop over groups that are all collapsed returns the record as it
    is. *)
Lemma collapse_loop_chosen (groups : list string) (r : record) :
  (forall g, In g groups ->
     exists x, dict_get g r = Some x /\ chosen x) ->
  for_each collapse_radio_group groups r = Ok r.
Proof.
  induction groups as [|g groups IH]; intros H; simpl; [reflexivity|].
  destruct (H g (or_introl eq_refl)) as [x [E [k ->]]].
  rewrite (collapse_radio_group_mapping r g _ E). simpl.
  apply IH. intros g' I. apply H. now right.
Qed.

(** X4.  The collapse is idempotent: on a record that it has returned, it
    returns the same record. *)
Theorem X4_collapse_idempotent (r r' : record) (md : list field) :
  well_formed r ->
  collapse_radio_groups r md = Ok r' ->
  collapse_radio_groups r' md = Ok r'.
Proof.
  unfold collapse_radio_groups. intros W H.
  apply collapse_loop_chosen. intros g I.
  destruct (collapse_loop_post _ _ _ W H g I) as [k E].
  exists (VDict [(k, VBool true)]). split; [exact E | now exists k].
Qed.

Lemma X4_collapse_idempotent_witness :
  collapse_radio_groups
    [("rg", VDict [("2", VBool true)]); ("note", VStr "x")]
    [ {| field_name := "rg"; field_type := "radio";
         select_choices_or_calculations := None |} ]
  = Ok [("rg", VDict [("2", VBool true)]); ("note", VStr "x")].
Proof.
  apply (X4_collapse_idempotent
           [("rg", VDict [("1", VBool false); ("2", VBool true)]);
            ("note", VStr "x")]).
  - intros k x E. simpl in E.
    destruct (String.eqb k "rg").
    + injection E as <-. simpl.
      repeat constructor; simpl; intuition discriminate.
    + destruct (String.eqb k "note"); [|discriminate].
      injection E as <-. exact I.
  - reflexivity.
Defined.

(** What the conversion of checkboxes and radio buttons leaves in a record:
    text, a boolean, or the mapping from one key to true. *)
Lemma convert_checkboxes_and_radio_buttons_values (raw : raw_record)
  (md : list field) (k : string) (x : value) :
  dict_get k (convert_checkboxes_and_radio_buttons raw md) = Some x ->
  (exists s, x = VStr s) \/ (exists b, x = VBool b) \/ chosen x.
Proof.
  intros E. rewrite convert_checkboxes_and_radio_buttons_get in E.
  match type of E with
  | match ?s with _ => _ end = _ => destruct s as [t|] eqn:S
  end.
  - injection E as <-.
    apply convert_pass_snd_sound in S as [S | [g [_ S]]]; [discriminate|].
    unfold staged_entry in S.
    destruct (dict_get g raw) as [v|]; [|discriminate].
    destruct (is_checkbox_variable _ g); [discriminate|].
    destruct (py_in g _); [|discriminate].
    destruct (negb _); [|discriminate].
    injection S as _ <-. left. now exists v.
  - unfold visited_value in E. destruct (dict_get k raw) as [v|];
      [|discriminate].
    destruct (is_checkbox_variable _ k).
    + injection E as <-. right. left. eauto.
    + destruct (py_in k _); injection E as <-.
      * right. right. now exists v.
      * left. now exists v.
Qed.

Lemma small_mappings_set_text (r : record) (k t : string) :
  small_mappings r -> small_mappings (dict_set k (VStr t) r).
Proof.
  intros S k' d E. rewrite dict_get_set in E.
  destruct (String.eqb k' k); [discriminate | exact (S _ _ E)].
Qed.

Lemma convert_dropdown_small (texts : dict (dict string)) (r r' : record)
  (f : field) :
  small_mappings r -> convert_dropdown texts r f = Ok r' ->
  small_mappings r'.
Proof.
  unfold convert_dropdown. intros S H.
  destruct (String.eqb (field_type f) "dropdown"); [|now injection H as <-].
  destruct (dict_item (field_name f) r) as [v|e]; simpl in H;
    [|discriminate].
  destruct (not_empty_str v); [|now injection H as <-].
  destruct (choice_text texts (field_name f) v) as [t|e]; simpl in H;
    [|discriminate].
  injection H as <-. now apply small_mappings_set_text.
Qed.

(** On the mappings of one entry the collapse has nothing to replace. *)
Lemma collapse_radio_group_small (r r' : record) (g : string) :
  small_mappings r -> collapse_radio_group r g = Ok r' -> r' = r.
Proof.
  unfold collapse_radio_group, dict_item. intros S H.
  destruct (dict_get g r) as [x|] eqn:E; simpl in H; [|discriminate].
  destruct x as [s|b|d]; simpl in H; try discriminate.
  destruct (existsb _ (dict_values d)); [discriminate|].
  destruct (negb (_contains_only_one_true _)); [discriminate|].
  assert (L := S _ _ E). apply Nat.ltb_ge in L. rewrite L in H.
  now injection H as <-.
Qed.

(** X5.  In the pipeline the collapse replaces nothing: when the pipeline
    returns a record, it is the record that the dropdown conversion has
    returned, which the collapse has only checked. *)
Theorem X5_pipeline_collapse_checks_only (raw : raw_record)
  (md : list field) (r : record) :
  prepare_for_fill raw md = Ok r ->
  convert_dropdowns_to_strings
    (convert_checkboxes_and_radio_buttons raw md) md = Ok r.
Proof.
  unfold prepare_for_fill. intros H.
  destruct (convert_dropdowns_to_strings _ md) as [r1|e] eqn:D; simpl in H;
    [|discriminate].
  f_equal.
  assert (S : small_mappings r1).
  { revert D. unfold convert_dropdowns_to_strings.
    apply (for_each_preserves small_mappings).
    - intros s f s' Ss Hf. exact (convert_dropdown_small _ _ _ _ Ss Hf).
    - intros k d E.
      destruct (convert_checkboxes_and_radio_buttons_values _ _ _ _ E)
        as [[s X] | [[b X] | [v X]]]; try discriminate.
      injection X as ->. simpl. lia. }
  unfold collapse_radio_groups in H.
  assert (G : forall groups s s',
             small_mappings s ->
             for_each collapse_radio_group groups s = Ok s' -> s' = s).
  { induction groups as [|g groups IH]; intros s s' Ss L; simpl in L.
    - now injection L as <-.
    - destruct (collapse_radio_group s g) as [s1|e] eqn:B; simpl in L;
        [|discriminate].
      rewrite (collapse_radio_group_small s s1 g Ss B) in L.
      exact (IH s s' Ss L). }
  symmetry. exact (G _ _ _ S H).
Qed.

Lemma X5_pipeline_collapse_checks_only_witness :
  convert_dropdowns_to_strings
    (convert_checkboxes_and_radio_buttons [("rg1", "2"); ("dd1", "1")]
       [ {| field_name := "rg1"; field_type := "radio";
            select_choices_or_calculations := Some "1, One | 2, Two" |};
         {| field_name := "dd1"; field_type := "dropdown";
            select_choices_or_calculations := Some "1, Red | 2, Blue" |} ])
    [ {| field_name := "rg1"; field_type := "radio";
         select_choices_or_calculations := Some "1, One | 2, Two" |};
      {| field_name := "dd1"; field_type := "dropdown";
         select_choices_or_calculations := Some "1, Red | 2, Blue" |} ]
  = Ok [("rg1", VDict [("2", VBool true)]); ("dd1", VStr "Red");
        ("rg1__rchoice", VStr "2")].
Proof.
  apply (X5_pipeline_collapse_checks_only [("rg1", "2"); ("dd1", "1")]).
  reflexivity.
Defined.

Lemma X3_conversion_keys_witness :
  exists added,
    dict_keys
      (convert_checkboxes_and_radio_buttons [("r1", "3"); ("note", "x")]
         [ {| field_name := "r1"; field_type := "radio";
              select_choices_or_calculations := None |} ])
    = dict_keys [("r1", "3"); ("note", "x")] ++ added
    /\ forall k, In k added ->
         staged_key [("r1", "3"); ("note", "x")]
           [ {| field_name := "r1"; field_type := "radio";
                select_choices_or_calculations := None |} ] k
         /\ dict_get k [("r1", "3"); ("note", "x")] = None.
Proof.
  apply (X3_conversion_keys [("r1", "3"); ("note", "x")]).
Defined.

Lemma dropdown_names_declared (md : list field) (name : string) :
  In name (dropdown_names md) <-> declared md "dropdown" name.
Proof.
  rewrite <- _extract_field_declared, _extract_field_filter. reflexivity.
Qed.

(** Among fields with distinct names, a name belongs to one field. *)
Lemma field_name_inj (md : list field) (f g : field) :
  NoDup (map field_name md) -> In f md -> In g md ->
  field_name f = field_name g -> f = g.
Proof.
  induction md as [|h md IH]; simpl; intros N If Ig E; [destruct If|].
  inversion N as [|? ? Hn Hd]; subst.
  destruct If as [->|If], Ig as [->|Ig].
  - reflexivity.
  - exfalso. apply Hn. rewrite E. now apply in_map.
  - exfalso. apply Hn. rewrite <- E. now apply in_map.
  - now apply IH.
Qed.

Lemma declared_one_type (md : list field) (ty1 ty2 name : string) :
  NoDup (map field_name md) ->
  declared md ty1 name -> declared md ty2 name -> ty1 = ty2.
Proof.
  intros N [f [If [T1 N1]]] [g [Ig [T2 N2]]].
  assert (E : f = g) by (apply (field_name_inj md); congruence).
  congruence.
Qed.

Lemma NoDup_map_filter {A B : Type} (f : A -> B) (p : A -> bool)
  (xs : list A) :
  NoDup (map f xs) -> NoDup (map f (filter p xs)).
Proof.
  induction xs as [|x xs IH]; simpl; intros N; [constructor|].
  inversion N as [|? ? Hn Hd]; subst.
  destruct (p x); simpl; [|now apply IH].
  constructor; [|now apply IH].
  intros I. apply Hn. apply in_map_iff in I as [y [E I]].
  apply filter_In in I as [I _]. apply in_map_iff. eauto.
Qed.

(** The value that the first stage leaves under a key of the raw record
    that is no text companion. *)
Lemma convert_unstaged_key (raw : raw_record) (md : list field)
  (k v : string) :
  dict_get k raw = Some v -> ~ staged_key raw md k ->
  (checkbox_key md k ->
   dict_get k (convert_checkboxes_and_radio_buttons raw md)
   = Some (VBool (String.eqb v "1")))
  /\ (radio_key md k ->
      dict_get k (convert_checkboxes_and_radio_buttons raw md)
      = Some (VDict [(v, VBool true)]))
  /\ (~ checkbox_key md k -> ~ declared md "radio" k ->
      dict_get k (convert_checkboxes_and_radio_buttons raw md)
      = Some (VStr v)).
Proof.
  intros E nS.
  assert (G : dict_get k (convert_checkboxes_and_radio_buttons raw md)
              = visited_value raw (_extract_field md "radio")
                  (_extract_field md "checkbox") k (Some (VStr v))).
  { rewrite convert_checkboxes_and_radio_buttons_get, E.
    match goal with
    | |- match ?s with _ => _ end = _ => destruct s as [t|] eqn:S
    end; [|reflexivity].
    apply convert_pass_snd_sound in S as [S | [g [_ S]]]; [discriminate|].
    apply staged_entry_staged_key in S. contradiction. }
  rewrite G. unfold visited_value. rewrite E. split; [|split].
  - intros C. apply is_checkbox_variable_iff in C. now rewrite C.
  - intros [C R]. apply is_checkbox_variable_false_iff in C. rewrite C.
    apply _extract_field_declared, py_in_iff in R. now rewrite R.
  - intros C R. apply is_checkbox_variable_false_iff in C. rewrite C.
    rewrite <- _extract_field_declared, <- py_in_false_iff in R.
    now rewrite R.
Qed.

(** X6.  When the names of the metadata are distinct, the raw record holds
    every radio and dropdown field, none of these names is taken for a
    checkbox or is the text companion of a radio button, and every dropdown
    value that is not empty is known to the choice-text map, the pipeline
    returns: radio fields hold the mapping from their raw value to true,
    dropdowns with a value hold its display text, and every key that is no
    dropdown is as the first stage has left it. *)
Theorem X6_pipeline_returns (raw : raw_record) (md : list field) :
  let texts := get_multiple_choice_text md in
  NoDup (map field_name md) ->
  (forall f, In f md ->
     field_type f = "radio" \/ field_type f = "dropdown" ->
     (exists v, dict_get (field_name f) raw = Some v)
     /\ ~ checkbox_key md (field_name f)
     /\ ~ staged_key raw md (field_name f)) ->
  (forall f v, In f md -> field_type f = "dropdown" ->
     dict_get (field_name f) raw = Some v -> v <> EmptyString ->
     display_text texts (field_name f) v <> None) ->
  exists r,
    prepare_for_fill raw md = Ok r
    /\ (forall f v, In f md -> field_type f = "radio" ->
          dict_get (field_name f) raw = Some v ->
          dict_get (field_name f) r = Some (VDict [(v, VBool true)]))
    /\ (forall f v t, In f md -> field_type f = "dropdown" ->
          dict_get (field_name f) raw = Some v -> v <> EmptyString ->
          display_text texts (field_name f) v = Some t ->
          dict_get (field_name f) r = Some (VStr t))
    /\ (forall k, ~ declared md "dropdown" k ->
          dict_get k r
          = dict_get k (convert_checkboxes_and_radio_buttons raw md)).
Proof.
  intros texts N H K.
  set (r0 := convert_checkboxes_and_radio_buttons raw md) in *.
  assert (DD : forall f v, In f md -> field_type f = "dropdown" ->
            dict_get (field_name f) raw = Some v ->
            dict_get (field_name f) r0 = Some (VStr v)).
  { intros f v I Ty E.
    destruct (H f I (or_intror Ty)) as [_ [nC nS]].
    apply (convert_unstaged_key raw md _ v E nS); [exact nC|].
    intros D.
    assert (X : "radio" = "dropdown").
    { apply (declared_one_type md _ _ (field_name f) N D).
      exists f. tauto. }
    discriminate X. }
  assert (RR : forall f v, In f md -> field_type f = "radio" ->
            dict_get (field_name f) raw = Some v ->
            dict_get (field_name f) r0 = Some (VDict [(v, VBool true)])).
  { intros f v I Ty E.
    destruct (H f I (or_introl Ty)) as [_ [nC nS]].
    apply (convert_unstaged_key raw md _ v E nS).
    split; [exact nC|]. exists f. tauto. }
  destruct (convert_dropdown_loop_ok texts md r0) as [r1 [L R]].
  { unfold dropdown_names. now apply NoDup_map_filter. }
  { intros n I. apply dropdown_names_declared in I as [f [I [Ty <-]]].
    destruct (H f I (or_intror Ty)) as [[v E] _].
    exists v. split; [exact (DD f v I Ty E)|].
    intros ne. exact (K f v I Ty E ne). }
  assert (ND : forall f, In f md -> field_type f = "radio" ->
            py_in (field_name f) (dropdown_names md) = false).
  { intros f I Ty. apply py_in_false_iff. intros D.
    apply dropdown_names_declared in D.
    assert (X : "radio" = "dropdown").
    { apply (declared_one_type md _ _ (field_name f) N); [|exact D].
      exists f. tauto. }
    discriminate X. }
  exists r1. split; [|split; [|split]].
  - unfold prepare_for_fill, convert_dropdowns_to_strings.
    fold texts r0. rewrite L. cbn [bind].
    apply collapse_loop_chosen. intros g I.
    apply radio_groups_declared in I as [f [I [Ty <-]]].
    destruct (H f I (or_introl Ty)) as [[v E] _].
    exists (VDict [(v, VBool true)]). split; [|now exists v].
    rewrite R. unfold dropdown_result.
    rewrite (ND f I Ty). exact (RR f v I Ty E).
  - intros f v I Ty E. rewrite R. unfold dropdown_result.
    rewrite (ND f I Ty). exact (RR f v I Ty E).
  - intros f v t I Ty E ne T. rewrite R. unfold dropdown_result.
    assert (D : py_in (field_name f) (dropdown_names md) = true).
    { apply py_in_iff, dropdown_names_declared. exists f. tauto. }
    rewrite D, (DD f v I Ty E), T.
    now destruct (String.eqb_spec v EmptyString).
  - intros k nD. rewrite R. unfold dropdown_result.
    rewrite <- dropdown_names_declared, <- py_in_false_iff in nD.
    now rewrite nD.
Qed.

Lemma demo_staged_key (k : string) :
  staged_key demo_raw demo_md k -> k = "rg1__rchoice".
Proof.
  intros [g [v [E [[_ [f [I [Ty Nm]]]] [_ K]]]]].
  simpl in I. destruct I as [<-|[<-|[<-|[]]]]; simpl in Ty, Nm;
    try discriminate.
  now subst.
Qed.

Lemma X6_pipeline_returns_witness :
  exists r,
    prepare_for_fill demo_raw demo_md = Ok r
    /\ (forall f v, In f demo_md -> field_type f = "radio" ->
          dict_get (field_name f) demo_raw = Some v ->
          dict_get (field_name f) r = Some (VDict [(v, VBool true)]))
    /\ (forall f v t, In f demo_md -> field_type f = "dropdown" ->
          dict_get (field_name f) demo_raw = Some v -> v <> EmptyString ->
          display_text (get_multiple_choice_text demo_md) (field_name f) v
          = Some t ->
          dict_get (field_name f) r = Some (VStr t))
    /\ (forall k, ~ declared demo_md "dropdown" k ->
          dict_get k r
          = dict_get k
              (convert_checkboxes_and_radio_buttons demo_raw demo_md)).
Proof.
  apply (X6_pipeline_returns demo_raw demo_md).
  - repeat constructor; simpl; intuition discriminate.
  - intros f I Ty. simpl in I.
    destruct I as [<-|[<-|[<-|[]]]]; simpl in Ty |- *.
    + split; [now exists "2"|]. split.
      * apply is_checkbox_variable_false_iff. reflexivity.
      * intros S. apply demo_staged_key in S. discriminate.
    + split; [now exists "1"|]. split.
      * apply is_checkbox_variable_false_iff. reflexivity.
      * intros S. apply demo_staged_key in S. discriminate.
    + destruct Ty; discriminate.
  - intros f v I Ty E ne. simpl in I.
    destruct I as [<-|[<-|[<-|[]]]]; simpl in Ty, E; try discriminate.
    injection E as <-. discriminate.
Defined.

(** A key that the metadata declares neither as dropdown nor as radio
    comes out of the pipeline as the first stage has left it. *)
Lemma prepare_for_fill_frame (raw : raw_record) (md : list field)
  (r : record) (k : string) :
  prepare_for_fill raw md = Ok r ->
  ~ declared md "dropdown" k -> ~ declared md "radio" k ->
  dict_get k r = dict_get k (convert_checkboxes_and_radio_buttons raw md).
Proof.
  unfold prepare_for_fill. intros H nD nR.
  destruct (convert_dropdowns_to_strings _ md) as [r1|e] eqn:D; simpl in H;
    [|discriminate].
  unfold collapse_radio_groups in H.
  rewrite (collapse_loop_frame _ _ _ k H)
    by now rewrite radio_groups_declared.
  unfold convert_dropdowns_to_strings in D.
  apply (convert_dropdown_loop_frame _ _ _ _ k D).
  now rewrite dropdown_names_declared.
Qed.

(** X7.  The checkbox from the record to the widget.  When the pipeline
    returns, a key of the raw record that is taken for a checkbox (and is
    no field of another kind nor a text companion) fills the widget that
    carries it as its own field name, and the widget whose parent carries
    it, with the state and value [/Yes] when the raw text is 1 and [/Off]
    for any other text; the objects are not written to. *)
Theorem X7_checkbox_from_record_to_widget (raw : raw_record)
  (md : list field) (r : record) (k v : string) (objs : list PdfDict)
  (annotation : PdfDict) :
  prepare_for_fill raw md = Ok r ->
  dict_get k raw = Some v ->
  checkbox_key md k ->
  ~ staged_key raw md k ->
  ~ declared md "dropdown" k -> ~ declared md "radio" k ->
  is_widget annotation = true ->
  let state := PName (if String.eqb v "1" then "/Yes" else "/Off") in
  (carried_name annotation = Some k ->
   fill_annotation r objs annotation
   = Ok (objs, update_AS_V annotation state))
  /\ (forall p parent,
        field_key annotation = None -> Parent annotation = Some p ->
        nth_error objs p = Some parent -> carried_name parent = Some k ->
        fill_annotation r objs annotation
        = Ok (objs, update_AS_V annotation state)).
Proof.
  intros H E C nS nD nR W state.
  assert (G : dict_get k r = Some (VBool (String.eqb v "1"))).
  { rewrite (prepare_for_fill_frame raw md r k H nD nR).
    now apply (convert_unstaged_key raw md k v E nS). }
  assert (S : on_off (String.eqb v "1") = state).
  { unfold on_off, state, PdfName. now destruct (String.eqb v "1"). }
  unfold fill_annotation, carried_name, parent_of. rewrite W. split.
  - destruct (field_key annotation) as [t|]; simpl; [|discriminate].
    intros [= <-]. now rewrite G, S.
  - intros p parent K P N KP. rewrite K, P, N. cbn [bind].
    destruct (field_key parent) as [t|]; simpl in KP; [|discriminate].
    injection KP as <-. now rewrite G, S.
Qed.

Lemma X7_checkbox_from_record_to_widget_witness :
  fill_annotation
    [("rg1", VDict [("2", VBool true)]); ("dd1", VStr "Red");
     ("cb___1", VBool true); ("cb___2", VBool false); ("note", VStr "x");
     ("rg1__rchoice", VStr "2")]
    []
    {| Subtype := Some "/Widget"; T := Some "(cb___1)"; V := None;
       AS := None; AP := None; Parent := None |}
  = Ok ([],
        {| Subtype := Some "/Widget"; T := Some "(cb___1)";
           V := Some (PName "/Yes"); AS := Some (PName "/Yes");
           AP := None; Parent := None |}).
Proof.
  apply (X7_checkbox_from_record_to_widget demo_raw demo_md _ "cb___1" "1"
           []
           {| Subtype := Some "/Widget"; T := Some "(cb___1)"; V := None;
              AS := None; AP := None; Parent := None |}).
  - reflexivity.
  - reflexivity.
  - apply is_checkbox_variable_iff. reflexivity.
  - intros S. apply demo_staged_key in S. discriminate.
  - intros [f [I [Ty Nm]]]. simpl in I.
    destruct I as [<-|[<-|[<-|[]]]]; discriminate.
  - intros [f [I [Ty Nm]]]. simpl in I.
    destruct I as [<-|[<-|[<-|[]]]]; discriminate.
  - reflexivity.
  - reflexivity.
Defined.

(* ================================================================== *)
(** * Further properties of the metadata accessors *)
(* ================================================================== *)

Lemma last_match_snoc {A B : Type} (p : A -> bool) (g : A -> B)
  (xs : list A) (x : A) (start : option B) :
  last_match p g (xs ++ [x]) start
  = if p x then Some (g x) else last_match p g xs start.
Proof. unfold last_match. now rewrite fold_left_app. Qed.

Lemma last_match_none_iff {A B : Type} (p : A -> bool) (g : A -> B)
  (xs : list A) :
  last_match p g xs None = None <-> forall x, In x xs -> p x = false.
Proof.
  induction xs as [|x xs IH] using rev_ind.
  - split; [intros _ x [] | reflexivity].
  - rewrite last_match_snoc. split.
    + intros H y I. apply in_app_or in I as [I|[<-|[]]].
      * destruct (p x); [discriminate | now apply IH].
      * destruct (p x); [discriminate | reflexivity].
    + intros H. rewrite (H x) by (apply in_or_app; right; now left).
      apply IH. intros y I. apply H. apply in_or_app. now left.
Qed.

Lemma last_match_some {A B : Type} (p : A -> bool) (g : A -> B)
  (xs : list A) (b : B) :
  last_match p g xs None = Some b ->
  exists x, In x xs /\ p x = true /\ g x = b.
Proof.
  induction xs as [|x xs IH] using rev_ind; [discriminate|].
  rewrite last_match_snoc. destruct (p x) eqn:Px.
  - intros [= <-]. exists x. split; [|tauto].
    apply in_or_app. right. now left.
  - intros H. destruct (IH H) as [y [I Y]]. exists y.
    split; [apply in_or_app; now left | exact Y].
Qed.

Lemma get_fields_and_types_get (md : list field) (name : string) :
  dict_get name (get_fields_and_types md)
  = last_match (fun f => String.eqb name (field_name f)) field_type md None.
Proof.
  exact (dict_get_filled (fun _ => true) field_name field_type name md []).
Qed.

(** X8.  The type that [get_fields_and_types] gives for a name is the type
    of a field of that name; a name has no type exactly when no field
    carries it; and when the names of the metadata are distinct, a name has
    a type exactly when the list of the fields of that type holds it. *)
Theorem X8_fields_and_types (md : list field) :
  (forall name ty,
     dict_get name (get_fields_and_types md) = Some ty ->
     declared md ty name)
  /\ (forall name,
        dict_get name (get_fields_and_types md) = None
        <-> ~ In name (map field_name md))
  /\ (NoDup (map field_name md) ->
      forall name ty,
        dict_get name (get_fields_and_types md) = Some ty
        <-> In name (_extract_field md ty)).
Proof.
  assert (S : forall name ty,
            dict_get name (get_fields_and_types md) = Some ty ->
            declared md ty name).
  { intros name ty H. rewrite get_fields_and_types_get in H.
    apply last_match_some in H as [f [I [E T]]].
    apply String.eqb_eq in E. exists f. now subst. }
  assert (Z : forall name,
            dict_get name (get_fields_and_types md) = None
            <-> ~ In name (map field_name md)).
  { intros name. rewrite get_fields_and_types_get, last_match_none_iff.
    rewrite in_map_iff. split.
    - intros H [f [E I]]. specialize (H f I). subst name.
      rewrite String.eqb_refl in H. discriminate.
    - intros H f I. apply String.eqb_neq. intros ->. apply H. eauto. }
  split; [exact S|]. split; [exact Z|].
  intros N name ty. rewrite _extract_field_declared. split; [apply S|].
  intros D.
  destruct (dict_get name (get_fields_and_types md)) as [ty'|] eqn:G.
  - f_equal. exact (declared_one_type md _ _ name N (S _ _ G) D).
  - exfalso. apply Z in G. apply G. destruct D as [f [I [_ <-]]].
    now apply in_map.
Qed.

Lemma X8_fields_and_types_witness :
  dict_get "dd1" (get_fields_and_types demo_md) = Some "dropdown"
  <-> In "dd1" (_extract_field demo_md "dropdown").
Proof.
  apply (X8_fields_and_types demo_md).
  repeat constructor; simpl; intuition discriminate.
Defined.

(** X9.  When the names of the metadata are distinct, the list of the radio
    buttons and the list of the checkboxes have no repetition and no name
    in common. *)
Theorem X9_radio_and_checkbox_lists_apart (md : list field) :
  NoDup (map field_name md) ->
  NoDup (fst (get_radio_buttons_checkboxes md))
  /\ NoDup (snd (get_radio_buttons_checkboxes md))
  /\ forall name,
       In name (fst (get_radio_buttons_checkboxes md)) ->
       ~ In name (snd (get_radio_buttons_checkboxes md)).
Proof.
  intros N. unfold get_radio_buttons_checkboxes. cbn [fst snd].
  rewrite !_extract_field_filter.
  split; [now apply NoDup_map_filter|].
  split; [now apply NoDup_map_filter|].
  intros name R C. rewrite <- _extract_field_filter in R, C.
  apply _extract_field_declared in R, C.
  assert (X : "radio" = "checkbox")
    by exact (declared_one_type md _ _ name N R C).
  discriminate X.
Qed.

Lemma X9_radio_and_checkbox_lists_apart_witness :
  NoDup (fst (get_radio_buttons_checkboxes demo_md))
  /\ NoDup (snd (get_radio_buttons_checkboxes demo_md))
  /\ forall name,
       In name (fst (get_radio_buttons_checkboxes demo_md)) ->
       ~ In name (snd (get_radio_buttons_checkboxes demo_md)).
Proof.
  apply (X9_radio_and_checkbox_lists_apart demo_md).
  repeat constructor; simpl; intuition discriminate.
Defined.

(** X10.  The choice-text map leaves out exactly the names that no field
    carries together with a choice-encoding string that is not empty. *)
Theorem X10_fields_without_choices_omitted (md : list field)
  (name : string) :
  dict_get name (get_multiple_choice_text md) = None
  <-> forall f, In f md -> field_name f = name -> choices_of f = None.
Proof.
  rewrite get_multiple_choice_text_get, last_match_none_iff.
  split; intros H f I.
  - intros <-. specialize (H f I).
    destruct (choices_of f); [|reflexivity].
    rewrite String.eqb_refl in H. discriminate.
  - destruct (choices_of f) eqn:C; [|reflexivity].
    apply String.eqb_neq. intros ->. specialize (H f I eq_refl).
    congruence.
Qed.

Lemma X10_fields_without_choices_omitted_witness :
  dict_get "note"
    (get_multiple_choice_text
       [ {| field_name := "note"; field_type := "text";
            select_choices_or_calculations := Some EmptyString |};
         {| field_name := "dd1"; field_type := "dropdown";
            select_choices_or_calculations := Some "1, Red | 2, Blue" |} ])
  = None.
Proof.
  apply X10_fields_without_choices_omitted.
  intros f I E. simpl in I. destruct I as [<-|[<-|[]]];
    [reflexivity | discriminate].
Defined.

Lemma split_from_hd_prefix (sep s : string) :
  exists rest, s = (hd EmptyString (split_from sep 0 s) ++ rest)%string.
Proof.
  induction s as [|c s [rest IH]]; cbn [split_from].
  - now exists EmptyString.
  - destruct (prefix sep (String c s)).
    + now exists (String c s).
    + destruct (split_from sep 0 s) as [|h t]; simpl in IH |- *.
      * exists s. reflexivity.
      * exists rest. now rewrite <- IH.
Qed.

(** The first token of a split holds no separator. *)
Lemma split_from_hd_clean (sep s : string) :
  sep <> EmptyString ->
  py_contains sep (hd EmptyString (split_from sep 0 s)) = false.
Proof.
  intros ne. induction s as [|c s IH]; cbn [split_from].
  - simpl. destruct sep; [congruence | reflexivity].
  - destruct (prefix sep (String c s)) eqn:P.
    + simpl. destruct sep; [congruence | reflexivity].
    + destruct (split_from_hd_prefix sep s) as [rest R].
      destruct (split_from sep 0 s) as [|h t] eqn:E;
        [now destruct (split_from_not_nil sep 0 s)|].
      cbn [hd] in IH, R |- *. cbn [py_contains]. rewrite IH, orb_false_r.
      destruct (prefix sep (String c h)) eqn:Q; [|reflexivity].
      apply prefix_iff in Q as [q Q].
      assert (X : prefix sep (String c s) = true).
      { apply prefix_iff. exists (q ++ rest)%string.
        rewrite <- append_assoc, <- Q, R. reflexivity. }
      congruence.
Qed.

(** X11.  No raw value of the choice-text map holds the comma and space that
    part the tokens of an option: a raw value with them in it cannot be
    looked up. *)
Theorem X11_raw_values_hold_no_delimiter (md : list field)
  (name v t : string) :
  display_text (get_multiple_choice_text md) name v = Some t ->
  py_contains ", " v = false.
Proof.
  rewrite display_text_described. unfold described_display_text.
  destruct (last_match _ _ md None) as [s|]; [|discriminate].
  intros H. apply last_match_some in H as [option [_ [E _]]].
  apply String.eqb_eq in E. subst v.
  apply split_from_hd_clean. discriminate.
Qed.

Lemma X11_raw_values_hold_no_delimiter_witness :
  py_contains ", " "2" = false.
Proof.
  apply (X11_raw_values_hold_no_delimiter demo_md "dd1" "2" "Blue").
  reflexivity.
Defined.

(* ================================================================== *)
(** * Further properties of the walks over the template *)
(* ================================================================== *)

Lemma parent_fault_none (objs : list PdfDict) (a : PdfDict) :
  parent_fault objs a = None -> has_name_or_parent objs a.
Proof.
  unfold parent_fault, has_name_or_parent. intros H K. rewrite K in H.
  destruct (Parent a) as [p|]; [|discriminate].
  destruct (nth_error objs p) as [parent|] eqn:N; [|discriminate].
  now exists p, parent.
Qed.

Lemma parent_fault_some (objs : list PdfDict) (result : list string)
  (a : PdfDict) (e : exn) :
  is_widget a = true -> parent_fault objs a = Some e ->
  collect_annotation objs result a = Err e.
Proof.
  unfold parent_fault, collect_annotation, parent_of. intros -> H.
  destruct (field_key a); [discriminate|].
  destruct (Parent a) as [p|].
  - destruct (nth_error objs p); [discriminate|].
    injection H as <-. reflexivity.
  - injection H as <-. reflexivity.
Qed.

Lemma first_fault_app (objs : list PdfDict) (l1 l2 : list PdfDict) :
  first_fault objs (l1 ++ l2)
  = match first_fault objs l1 with
    | Some e => Some e
    | None => first_fault objs l2
    end.
Proof.
  induction l1 as [|a l1 IH]; [reflexivity|].
  cbn [app first_fault]. now destruct (parent_fault objs a).
Qed.

Lemma first_fault_class (objs : list PdfDict) (l : list PdfDict) :
  match first_fault objs l with
  | Some e => e = TypeError \/ e = NameError
  | None => True
  end.
Proof.
  induction l as [|a l IH]; [exact I|].
  cbn [first_fault]. unfold parent_fault.
  destruct (field_key a); [exact IH|].
  destruct (Parent a) as [p|]; [|now left].
  destruct (nth_error objs p); [exact IH | now right].
Qed.

Lemma collect_annotations_total (objs : list PdfDict)
  (annotations : list PdfDict) (result : list string) :
  for_each (collect_annotation objs) annotations result
  = match first_fault objs (filter is_widget annotations) with
    | Some e => Err e
    | None =>
        Ok (fold_left (fun result key => append_new key result)
              (flat_map
                 (fun a => match logical_name objs a with
                           | Some n => [n]
                           | None => []
                           end)
                 (filter is_widget annotations))
              result)
    end.
Proof.
  revert result; induction annotations as [|a l IH]; intros result.
  - reflexivity.
  - cbn [for_each filter]. destruct (is_widget a) eqn:W.
    + cbn [first_fault flat_map].
      destruct (parent_fault objs a) as [e|] eqn:O.
      * now rewrite (parent_fault_some objs result a e W O).
      * rewrite (collect_annotation_names objs result a W
                   (parent_fault_none objs a O)).
        cbn [bind]. rewrite IH, fold_left_app. reflexivity.
    + unfold collect_annotation at 1. rewrite W. cbn [bind]. apply IH.
Qed.

Lemma collect_pages_total (objs : list PdfDict)
  (pgs : list (option (list PdfDict))) (result : list string) :
  for_each (collect_page objs) pgs result
  = match first_fault objs
            (flat_map
               (fun page => match page with
                            | Some annotations => filter is_widget annotations
                            | None => []
                            end) pgs) with
    | Some e => Err e
    | None =>
        Ok (fold_left (fun result key => append_new key result)
              (flat_map
                 (fun a => match logical_name objs a with
                           | Some n => [n]
                           | None => []
                           end)
                 (flat_map
                    (fun page => match page with
                                 | Some annotations =>
                                     filter is_widget annotations
                                 | None => []
                                 end) pgs))
              result)
    end.
Proof.
  revert result; induction pgs as [|pg pgs IH]; intros result.
  - reflexivity.
  - cbn [for_each flat_map]. destruct pg as [annotations|];
      cbn [collect_page].
    + rewrite collect_annotations_total, first_fault_app.
      destruct (first_fault objs (filter is_widget annotations));
        [reflexivity|].
      cbn [bind]. rewrite IH, flat_map_app, fold_left_app. reflexivity.
    + cbn [bind app]. apply IH.
Qed.

(** X12.  Field discovery in full.  The walk stops at the first widget that
    has no field name of its own and whose parent cannot be asked: it raises
    TypeError when that widget has no parent entry, and NameError when its
    parent entry refers to no object of the document.  When there is no such
    widget it returns the logical names of the widgets where they are first
    seen.  It raises nothing else. *)
Theorem X12_get_pdf_fields_total (template_pdf : PdfReader) :
  get_pdf_fields template_pdf
  = match first_fault (objects template_pdf) (widgets template_pdf) with
    | Some e => Err e
    | None => Ok (first_seen (logical_names template_pdf))
    end
  /\ match first_fault (objects template_pdf) (widgets template_pdf) with
     | Some e => e = TypeError \/ e = NameError
     | None => True
     end.
Proof.
  split; [|apply first_fault_class].
  unfold get_pdf_fields. rewrite collect_pages_total.
  fold (widgets template_pdf).
  destruct (first_fault _ (widgets template_pdf)); [reflexivity|].
  rewrite append_new_first_seen. simpl.
  unfold logical_names. do 2 f_equal. apply filter_true.
Qed.

Lemma same_fields_refl (a : PdfDict) : same_fields a a.
Proof. repeat split. Qed.

Lemma same_fields_trans (a b c : PdfDict) :
  same_fields a b -> same_fields b c -> same_fields a c.
Proof. unfold same_fields. intuition congruence. Qed.

Lemma Forall2_same_fields_refl (l : list PdfDict) :
  Forall2 same_fields l l.
Proof. induction l; constructor; [apply same_fields_refl | assumption]. Qed.

Lemma Forall2_same_fields_trans (l1 l2 l3 : list PdfDict) :
  Forall2 same_fields l1 l2 -> Forall2 same_fields l2 l3 ->
  Forall2 same_fields l1 l3.
Proof.
  intros H. revert l3. induction H as [|a b l1 l2 Hab H IH]; intros l3 G.
  - inversion G. constructor.
  - inversion G as [|? c ? l3' Hbc G']; subst. constructor.
    + exact (same_fields_trans _ _ _ Hab Hbc).
    + now apply IH.
Qed.

Lemma store_set_same_fields (objs : list PdfDict) (p : nat)
  (parent x : PdfDict) :
  nth_error objs p = Some parent -> same_fields parent x ->
  Forall2 same_fields objs (store_set p x objs).
Proof.
  revert p; induction objs as [|y objs IH]; intros [|p] N S; simpl in *;
    try discriminate.
  - injection N as ->. constructor;
      [exact S | apply Forall2_same_fields_refl].
  - constructor; [apply same_fields_refl | now apply IH].
Qed.

Lemma Forall2_nth_error_same_fields (l l' : list PdfDict) (p : nat) :
  Forall2 same_fields l l' ->
  match nth_error l p, nth_error l' p with
  | Some x, Some y => same_fields x y
  | None, None => True
  | _, _ => False
  end.
Proof.
  intros H. revert p. induction H as [|a b l l' Hab H IH]; intros [|p];
    simpl; trivial. apply IH.
Qed.

Lemma same_fields_field_key (a b : PdfDict) :
  same_fields a b -> field_key a = field_key b.
Proof. unfold field_key. intros [_ [-> _]]. reflexivity. Qed.

Lemma same_fields_is_widget (a b : PdfDict) :
  same_fields a b -> is_widget a = is_widget b.
Proof. unfold is_widget. intros [-> _]. reflexivity. Qed.

(** The filling of an annotation writes values, states and appearances:
    the subtype, the field name and the parent of the annotation and of
    every object stay. *)
Lemma fill_annotation_same_fields (data_dict : record)
  (objs objs' : list PdfDict) (a a' : PdfDict) :
  fill_annotation data_dict objs a = Ok (objs', a') ->
  same_fields a a' /\ Forall2 same_fields objs objs'.
Proof.
  unfold fill_annotation, parent_of, down_states. intros H.
  assert (R : same_fields a a /\ Forall2 same_fields objs objs)
    by (split; [apply same_fields_refl | apply Forall2_same_fields_refl]).
  destruct (is_widget a); [|injection H as <- <-; exact R].
  destruct (field_key a) as [t|].
  - destruct (dict_get (slice_1_m1 t) data_dict) as [[s|b|d]|];
      injection H as <- <-;
      (split; [repeat split | apply Forall2_same_fields_refl]).
  - destruct (Parent a) as [p|]; [|discriminate].
    destruct (nth_error objs p) as [parent|] eqn:N; [|discriminate].
    cbn [bind] in H. destruct (field_key parent) as [t|];
      [|injection H as <- <-; exact R].
    destruct (dict_get (slice_1_m1 t) data_dict) as [[s|b|[|[k0 x] d]]|].
    + injection H as <- <-. split; [apply same_fields_refl|].
      apply (store_set_same_fields objs p parent); [exact N | repeat split].
    + injection H as <- <-.
      split; [repeat split | apply Forall2_same_fields_refl].
    + injection H as <- <-. split; [apply same_fields_refl|].
      apply (store_set_same_fields objs p parent); [exact N | repeat split].
    + destruct (AP a) as [[[states|]|s]|]; try discriminate.
      cbn [bind] in H.
      destruct (py_in (PdfName k0) states); injection H as <- <-;
        [|exact R].
      split; [repeat split|].
      apply (store_set_same_fields objs p parent); [exact N | repeat split].
    + injection H as <- <-. exact R.
Qed.

Lemma fill_annotations_same_fields (data_dict : record)
  (annotations annotations' : list PdfDict) (objs objs' : list PdfDict) :
  fill_annotations data_dict objs annotations = Ok (objs', annotations') ->
  Forall2 same_fields annotations annotations'
  /\ Forall2 same_fields objs objs'.
Proof.
  revert objs objs' annotations';
    induction annotations as [|a l IH]; intros objs objs' l' H; simpl in H.
  - injection H as <- <-.
    split; [constructor | apply Forall2_same_fields_refl].
  - destruct (fill_annotation data_dict objs a) as [[o1 a1]|e] eqn:F;
      cbn [bind fst snd] in H; [|discriminate].
    destruct (fill_annotations data_dict o1 l) as [[o2 l2]|e] eqn:G;
      cbn [bind fst snd] in H; [|discriminate].
    injection H as <- <-.
    destruct (fill_annotation_same_fields _ _ _ _ _ F) as [Sa So].
    destruct (IH _ _ _ G) as [Sl So'].
    split; [now constructor|].
    exact (Forall2_same_fields_trans _ _ _ So So').
Qed.

Lemma fill_pages_same_fields (data_dict : record)
  (pgs pgs' : list (option (list PdfDict))) (objs objs' : list PdfDict) :
  fill_pages data_dict objs pgs = Ok (objs', pgs') ->
  Forall2 same_page pgs pgs' /\ Forall2 same_fields objs objs'.
Proof.
  revert objs objs' pgs'; induction pgs as [|pg pgs IH];
    intros objs objs' pgs' H; simpl in H.
  - injection H as <- <-.
    split; [constructor | apply Forall2_same_fields_refl].
  - destruct pg as [annotations|].
    + destruct (fill_annotations data_dict objs annotations)
        as [[o1 l1]|e] eqn:F; cbn [bind fst snd] in H; [|discriminate].
      destruct (fill_pages data_dict o1 pgs) as [[o2 p2]|e] eqn:G;
        cbn [bind fst snd] in H; [|discriminate].
      injection H as <- <-.
      destruct (fill_annotations_same_fields _ _ _ _ _ F) as [Sl So].
      destruct (IH _ _ _ G) as [Sp So'].
      split; [constructor; [exact Sl | exact Sp]|].
      exact (Forall2_same_fields_trans _ _ _ So So').
    + destruct (fill_pages data_dict objs pgs) as [[o2 p2]|e] eqn:G;
        cbn [bind fst snd] in H; [|discriminate].
      injection H as <- <-.
      destruct (IH _ _ _ G) as [Sp So].
      split; [constructor; [exact I | exact Sp] | exact So].
Qed.

(** Field discovery reads the subtype, the field name and the parent, and
    nothing else. *)
Lemma collect_annotation_same_fields (objs objs' : list PdfDict)
  (result : list string) (a a' : PdfDict) :
  same_fields a a' -> Forall2 same_fields objs objs' ->
  collect_annotation objs result a = collect_annotation objs' result a'.
Proof.
  intros Sa So. unfold collect_annotation, parent_of.
  rewrite <- (same_fields_is_widget a a' Sa).
  rewrite <- (same_fields_field_key a a' Sa).
  destruct Sa as [_ [_ <-]].
  destruct (is_widget a); [|reflexivity].
  destruct (field_key a); [reflexivity|].
  destruct (Parent a) as [p|]; [|reflexivity].
  assert (N := Forall2_nth_error_same_fields objs objs' p So).
  destruct (nth_error objs p) as [x|], (nth_error objs' p) as [y|];
    try contradiction; [|reflexivity].
  cbn [bind snd]. now rewrite (same_fields_field_key x y N).
Qed.

Lemma collect_annotations_same_fields (objs objs' : list PdfDict)
  (l l' : list PdfDict) (result : list string) :
  Forall2 same_fields l l' -> Forall2 same_fields objs objs' ->
  for_each (collect_annotation objs) l result
  = for_each (collect_annotation objs') l' result.
Proof.
  intros Sl So. revert result.
  induction Sl as [|a a' l l' Sa Sl IH]; intros result; simpl.
  - reflexivity.
  - rewrite (collect_annotation_same_fields objs objs' result a a' Sa So).
    destruct (collect_annotation objs' result a'); simpl;
      [apply IH | reflexivity].
Qed.

(** X13.  Filling does not change what field discovery finds: on the
    document that [fill_pdf] returns, [get_pdf_fields] gives what it gives
    on the template. *)
Theorem X13_filling_keeps_the_fields (template_pdf filled : PdfReader)
  (data_dict : record) :
  fill_pdf template_pdf data_dict = Ok filled ->
  get_pdf_fields filled = get_pdf_fields template_pdf.
Proof.
  unfold fill_pdf. intros H.
  destruct (fill_pages data_dict (objects template_pdf)
              (pages template_pdf)) as [[objs' pgs']|e] eqn:F;
    cbn [bind fst snd] in H; [|discriminate].
  destruct (AcroForm template_pdf); [|discriminate].
  injection H as <-. unfold get_pdf_fields. cbn [objects pages].
  destruct (fill_pages_same_fields _ _ _ _ _ F) as [Sp So]. clear F.
  generalize (@nil string).
  induction Sp as [|pg pg' pgs pgs'' Spg Sp IH]; intros result; simpl.
  - reflexivity.
  - assert (E : collect_page objs' result pg'
                = collect_page (objects template_pdf) result pg).
    { destruct pg as [l|], pg' as [l'|]; simpl in Spg; try contradiction;
        [|reflexivity].
      simpl. symmetry. now apply collect_annotations_same_fields. }
    rewrite E.
    destruct (collect_page (objects template_pdf) result pg); simpl;
      [apply IH | reflexivity].
Qed.

Lemma X13_filling_keeps_the_fields_witness :
  get_pdf_fields
    {| objects := [update_V demo_parent (PName "/2")];
       pages := [ Some [demo_checkbox; demo_radio ["/1"; "/Off"]];
                  None;
                  Some [update_AS (demo_radio ["/2"; "/Off"])
                          (PName "/2")] ];
       AcroForm := Some true |}
  = get_pdf_fields demo_template.
Proof.
  apply (X13_filling_keeps_the_fields demo_template _ demo_record).
  reflexivity.
Defined.

(** An annotation that the record does not name is returned as it is, and
    so are the objects. *)
Lemma fill_annotation_not_named (data_dict : record) (objs : list PdfDict)
  (a : PdfDict) :
  (is_widget a = true ->
   is_orphan objs a = false
   /\ forall k, fill_key objs a = Some k -> dict_get k data_dict = None) ->
  fill_annotation data_dict objs a = Ok (objs, a).
Proof.
  unfold fill_annotation, is_orphan, fill_key, carried_name, parent_of.
  intros H. destruct (is_widget a); [|reflexivity].
  destruct (H eq_refl) as [O K]. clear H.
  destruct (field_key a) as [t|]; simpl in K.
  - now rewrite (K _ eq_refl).
  - destruct (Parent a) as [p|]; [|discriminate].
    destruct (nth_error objs p) as [parent|]; [|discriminate].
    cbn [bind]. destruct (field_key parent) as [t|]; [|reflexivity].
    simpl in K. now rewrite (K _ eq_refl).
Qed.

Lemma fill_annotations_not_named (data_dict : record) (objs : list PdfDict)
  (annotations : list PdfDict) :
  (forall a, In a (filter is_widget annotations) ->
     is_orphan objs a = false
     /\ forall k, fill_key objs a = Some k -> dict_get k data_dict = None) ->
  fill_annotations data_dict objs annotations = Ok (objs, annotations).
Proof.
  induction annotations as [|a l IH]; intros H; simpl; [reflexivity|].
  rewrite fill_annotation_not_named.
  - cbn [bind fst snd]. rewrite IH; [reflexivity|].
    intros b I. apply H. simpl. destruct (is_widget a); [now right | exact I].
  - intros W. apply H. simpl. rewrite W. now left.
Qed.

Lemma fill_pages_not_named (data_dict : record) (objs : list PdfDict)
  (pgs : list (option (list PdfDict))) :
  (forall a,
     In a (flat_map
             (fun page => match page with
                          | Some annotations => filter is_widget annotations
                          | None => []
                          end) pgs) ->
     is_orphan objs a = false
     /\ forall k, fill_key objs a = Some k -> dict_get k data_dict = None) ->
  fill_pages data_dict objs pgs = Ok (objs, pgs).
Proof.
  induction pgs as [|pg pgs IH]; intros H; simpl; [reflexivity|].
  destruct pg as [annotations|].
  - rewrite fill_annotations_not_named.
    + cbn [bind fst snd]. rewrite IH; [reflexivity|].
      intros a I. apply H. simpl. apply in_or_app. now right.
    + intros a I. apply H. simpl. apply in_or_app. now left.
  - rewrite IH; [reflexivity|]. intros a I. apply H. exact I.
Qed.

(** X14.  On a template with a form whose widgets all have a field name or
    a parent, a record that holds none of the names under which the widgets
    are looked up leaves the document as it is, but for the flag of the
    form, which is set. *)
Theorem X14_record_without_the_names (template_pdf : PdfReader)
  (data_dict : record) (b : bool) :
  AcroForm template_pdf = Some b ->
  (forall a, In a (widgets template_pdf) ->
     is_orphan (objects template_pdf) a = false
     /\ forall k, fill_key (objects template_pdf) a = Some k ->
                  dict_get k data_dict = None) ->
  fill_pdf template_pdf data_dict
  = Ok {| objects := objects template_pdf; pages := pages template_pdf;
          AcroForm := Some true |}.
Proof.
  intros A H. unfold fill_pdf.
  rewrite (fill_pages_not_named data_dict _ _ H). cbn [bind fst snd].
  now rewrite A.
Qed.

Lemma X14_record_without_the_names_witness :
  fill_pdf demo_template [("note", VStr "x")]
  = Ok {| objects := objects demo_template; pages := pages demo_template;
          AcroForm := Some true |}.
Proof.
  apply (X14_record_without_the_names demo_template _ false).
  - reflexivity.
  - intros a I. simpl in I.
    destruct I as [<-|[<-|[<-|[]]]]; (split; [reflexivity|]);
      intros k E; injection E as <-; reflexivity.
Defined.

Lemma store_set_same (objs : list PdfDict) (p : nat) (x : PdfDict) :
  nth_error objs p = Some x -> store_set p x objs = objs.
Proof.
  revert p; induction objs as [|y objs IH]; intros [|p] N; simpl in *;
    try discriminate.
  - now injection N as ->.
  - now rewrite IH.
Qed.

Lemma store_set_twice (objs : list PdfDict) (p : nat) (x y : PdfDict) :
  store_set p x (store_set p y objs) = store_set p x objs.
Proof.
  revert p; induction objs as [|z objs IH]; intros [|p]; simpl;
    try reflexivity.
  now rewrite IH.
Qed.

Lemma parent_write_field_key (data_dict : record) (parent : PdfDict) :
  field_key (parent_write data_dict parent) = field_key parent.
Proof.
  unfold parent_write.
  destruct (field_key parent) as [t|] eqn:K; [|exact K].
  destruct (dict_get (slice_1_m1 t) data_dict) as [[s|b|[|[k0 x] d]]|];
    exact K.
Qed.

Lemma parent_write_twice (data_dict : record) (parent : PdfDict) :
  parent_write data_dict (parent_write data_dict parent)
  = parent_write data_dict parent.
Proof.
  unfold parent_write at 1. rewrite parent_write_field_key.
  unfold parent_write.
  destruct (field_key parent) as [t|]; [|reflexivity].
  destruct (dict_get (slice_1_m1 t) data_dict) as [[s|b|[|[k0 x] d]]|];
    reflexivity.
Qed.

(** What the filling of an annotation does to the objects: nothing, or the
    write to the parent of the annotation. *)
Lemma fill_annotation_store (data_dict : record)
  (objs objs' : list PdfDict) (a a' : PdfDict) :
  fill_annotation data_dict objs a = Ok (objs', a') ->
  objs' = objs
  \/ exists p parent,
       nth_error objs p = Some parent
       /\ objs' = store_set p (parent_write data_dict parent) objs.
Proof.
  unfold fill_annotation, parent_of, down_states. intros H.
  destruct (is_widget a); [|injection H as <- _; now left].
  destruct (field_key a) as [t|].
  - destruct (dict_get (slice_1_m1 t) data_dict) as [[s|b|d]|];
      injection H as <- _; now left.
  - destruct (Parent a) as [p|]; [|discriminate].
    destruct (nth_error objs p) as [parent|] eqn:N; [|discriminate].
    cbn [bind] in H. destruct (field_key parent) as [t|] eqn:K;
      [|injection H as <- _; now left].
    destruct (dict_get (slice_1_m1 t) data_dict)
      as [[s|b|[|[k0 x] d]]|] eqn:D.
    + injection H as <- _. right. exists p, parent. split; [exact N|].
      unfold parent_write. now rewrite K, D.
    + injection H as <- _. now left.
    + injection H as <- _. right. exists p, parent. split; [exact N|].
      unfold parent_write. now rewrite K, D.
    + destruct (AP a) as [[[states|]|s]|]; try discriminate.
      cbn [bind] in H.
      destruct (py_in (PdfName k0) states); injection H as <- _;
        [|now left].
      right. exists p, parent. split; [exact N|].
      unfold parent_write. now rewrite K, D.
    + injection H as <- _. now left.
Qed.

Lemma field_key_updates (d : PdfDict) (a : appearance) (x : PdfObject) :
  field_key (update_V d x) = field_key d
  /\ field_key (update_AS d x) = field_key d
  /\ field_key (update_AS_V d x) = field_key d
  /\ field_key (update_AP_V d a x) = field_key d.
Proof. repeat split. Qed.

Lemma is_widget_updates (d : PdfDict) (a : appearance) (x : PdfObject) :
  is_widget (update_V d x) = is_widget d
  /\ is_widget (update_AS d x) = is_widget d
  /\ is_widget (update_AS_V d x) = is_widget d
  /\ is_widget (update_AP_V d a x) = is_widget d.
Proof. repeat split. Qed.

(** Once filled, an annotation is settled. *)
Lemma fill_annotation_settled (data_dict : record)
  (objs objs' : list PdfDict) (a a' : PdfDict) :
  fill_annotation data_dict objs a = Ok (objs', a') ->
  settled data_dict objs' a'.
Proof.
  unfold settled. intros H. pose proof H as H0.
  unfold fill_annotation, parent_of, down_states in H.
  destruct (is_widget a) eqn:W.
  2:{ injection H as <- <-. exact H0. }
  destruct (field_key a) as [t|] eqn:K.
  - destruct (dict_get (slice_1_m1 t) data_dict) as [[s|b|d]|] eqn:D;
      injection H as <- <-; unfold fill_annotation;
      change (is_widget a = true) in W; change (field_key a = Some t) in K;
      try (change (is_widget (update_AP_V a ?x ?y)) with (is_widget a);
           change (field_key (update_AP_V a ?x ?y)) with (field_key a));
      try (change (is_widget (update_AS_V a ?y)) with (is_widget a);
           change (field_key (update_AS_V a ?y)) with (field_key a));
      rewrite W, K, D; reflexivity.
  - destruct (Parent a) as [p|] eqn:P; [|discriminate].
    destruct (nth_error objs p) as [parent|] eqn:N; [|discriminate].
    cbn [bind] in H. destruct (field_key parent) as [t|] eqn:KP.
    2:{ injection H as <- <-. exact H0. }
    destruct (dict_get (slice_1_m1 t) data_dict)
      as [[s|b|[|[k0 x] d]]|] eqn:D.
    + injection H as <- <-. unfold fill_annotation, parent_of.
      rewrite W, K, P, (store_set_nth p _ parent objs N). cbn [bind].
      change (field_key (update_AP_V parent ?u ?v))
        with (field_key parent).
      rewrite KP, D, store_set_twice. reflexivity.
    + injection H as <- <-. unfold fill_annotation, parent_of.
      change (is_widget (update_AS_V a ?y)) with (is_widget a).
      change (field_key (update_AS_V a ?y)) with (field_key a).
      change (Parent (update_AS_V a ?y)) with (Parent a).
      rewrite W, K, P, N. cbn [bind]. now rewrite KP, D.
    + injection H as <- <-. unfold fill_annotation, parent_of.
      rewrite W, K, P, (store_set_nth p _ parent objs N). cbn [bind].
      change (field_key (update_AP_V parent ?u ?v))
        with (field_key parent).
      rewrite KP, D, store_set_twice. reflexivity.
    + destruct (AP a) as [[[states|]|s]|] eqn:A; try discriminate.
      cbn [bind] in H.
      destruct (py_in (PdfName k0) states) eqn:I; injection H as <- <-.
      * unfold fill_annotation, parent_of, down_states.
        change (is_widget (update_AS a ?y)) with (is_widget a).
        change (field_key (update_AS a ?y)) with (field_key a).
        change (Parent (update_AS a ?y)) with (Parent a).
        change (AP (update_AS a ?y)) with (AP a).
        rewrite W, K, P, (store_set_nth p _ parent objs N). cbn [bind].
        change (field_key (update_V parent ?v)) with (field_key parent).
        rewrite KP, D, A. cbn [bind]. rewrite I, store_set_twice.
        reflexivity.
      * exact H0.
    + injection H as <- <-. exact H0.
Qed.

Lemma store_set_fixed (objs : list PdfDict) (p : nat) (parent x : PdfDict) :
  nth_error objs p = Some parent -> store_set p x objs = objs -> x = parent.
Proof.
  intros N E. assert (G := store_set_nth p x parent objs N).
  rewrite E, N in G. now injection G.
Qed.

(** A write to a parent by another annotation leaves a settled annotation
    settled. *)
Lemma settled_after_write (data_dict : record) (objs : list PdfDict)
  (a pq : PdfDict) (q : nat) :
  settled data_dict objs a ->
  nth_error objs q = Some pq ->
  settled data_dict (store_set q (parent_write data_dict pq) objs) a.
Proof.
  unfold settled. intros S Nq.
  unfold fill_annotation, parent_of, down_states in *.
  destruct (is_widget a); [|reflexivity].
  destruct (field_key a) as [t|].
  - destruct (dict_get (slice_1_m1 t) data_dict) as [[s|b|d]|];
      congruence.
  - destruct (Parent a) as [p|]; [|discriminate].
    destruct (nth_error objs p) as [parent|] eqn:Np; [|discriminate].
    cbn [bind] in S.
    destruct (Nat.eq_dec q p) as [->|ne].
    + assert (pq = parent) by congruence. subst pq.
      rewrite (store_set_nth p _ parent objs Np). cbn [bind].
      rewrite parent_write_field_key.
      destruct (field_key parent) as [t|] eqn:KP; [|reflexivity].
      assert (PW := eq_refl (parent_write data_dict parent)).
      unfold parent_write at 2 in PW. rewrite KP in PW.
      destruct (dict_get (slice_1_m1 t) data_dict)
        as [[s|b|[|[k0 x] d]]|].
      * rewrite PW, store_set_twice. reflexivity.
      * rewrite PW, (store_set_same objs p parent Np). exact S.
      * rewrite PW, store_set_twice. reflexivity.
      * destruct (AP a) as [[[states|]|s]|]; try discriminate.
        cbn [bind] in *.
        destruct (py_in (PdfName k0) states); [|reflexivity].
        rewrite PW, store_set_twice.
        change (update_V (update_V parent ?v) ?v) with (update_V parent v).
        congruence.
      * reflexivity.
    + rewrite (store_set_nth_other q p _ objs ne), Np. cbn [bind].
      assert (Np' : nth_error (store_set q (parent_write data_dict pq) objs)
                      p = Some parent)
        by now rewrite store_set_nth_other.
      destruct (field_key parent) as [t|]; [|reflexivity].
      destruct (dict_get (slice_1_m1 t) data_dict)
        as [[s|b|[|[k0 x] d]]|].
      * injection S as S.
        rewrite (store_set_fixed objs p parent _ Np S).
        now rewrite (store_set_same _ p parent Np').
      * congruence.
      * injection S as S.
        rewrite (store_set_fixed objs p parent _ Np S).
        now rewrite (store_set_same _ p parent Np').
      * destruct (AP a) as [[[states|]|s]|]; try discriminate.
        cbn [bind] in *.
        destruct (py_in (PdfName k0) states); [|reflexivity].
        injection S as S A.
        rewrite (store_set_fixed objs p parent _ Np S).
        rewrite (store_set_same _ p parent Np'). now rewrite A.
      * reflexivity.
Qed.

Lemma settled_after_fill (data_dict : record) (objs objs' : list PdfDict)
  (a b b' : PdfDict) :
  settled data_dict objs a ->
  fill_annotation data_dict objs b = Ok (objs', b') ->
  settled data_dict objs' a.
Proof.
  intros S F.
  destruct (fill_annotation_store _ _ _ _ _ F) as [->|[q [pq [N ->]]]].
  - exact S.
  - now apply settled_after_write.
Qed.

Lemma fill_annotations_settled (data_dict : record)
  (annotations annotations' : list PdfDict) (objs objs' : list PdfDict) :
  fill_annotations data_dict objs annotations = Ok (objs', annotations') ->
  Forall (settled data_dict objs') annotations'
  /\ forall x, settled data_dict objs x -> settled data_dict objs' x.
Proof.
  revert objs objs' annotations';
    induction annotations as [|a l IH]; intros objs objs' l' H; simpl in H.
  - injection H as <- <-. split; [constructor | tauto].
  - destruct (fill_annotation data_dict objs a) as [[o1 a1]|e] eqn:F;
      cbn [bind fst snd] in H; [|discriminate].
    destruct (fill_annotations data_dict o1 l) as [[o2 l2]|e] eqn:G;
      cbn [bind fst snd] in H; [|discriminate].
    injection H as <- <-.
    destruct (IH _ _ _ G) as [Sl K].
    split.
    + constructor; [|exact Sl].
      apply K. exact (fill_annotation_settled _ _ _ _ _ F).
    + intros x Sx. apply K. exact (settled_after_fill _ _ _ _ _ _ Sx F).
Qed.

Lemma fill_pages_settled (data_dict : record)
  (pgs pgs' : list (option (list PdfDict))) (objs objs' : list PdfDict) :
  fill_pages data_dict objs pgs = Ok (objs', pgs') ->
  Forall (fun page => match page with
                      | Some l => Forall (settled data_dict objs') l
                      | None => True
                      end) pgs'
  /\ forall x, settled data_dict objs x -> settled data_dict objs' x.
Proof.
  revert objs objs' pgs'; induction pgs as [|pg pgs IH];
    intros objs objs' pgs' H; simpl in H.
  - injection H as <- <-. split; [constructor | tauto].
  - destruct pg as [annotations|].
    + destruct (fill_annotations data_dict objs annotations)
        as [[o1 l1]|e] eqn:F; cbn [bind fst snd] in H; [|discriminate].
      destruct (fill_pages data_dict o1 pgs) as [[o2 p2]|e] eqn:G;
        cbn [bind fst snd] in H; [|discriminate].
      injection H as <- <-.
      destruct (fill_annotations_settled _ _ _ _ _ F) as [Sl K1].
      destruct (IH _ _ _ G) as [Sp K2].
      split.
      * constructor; [|exact Sp].
        apply Forall_forall. intros x I. apply K2.
        rewrite Forall_forall in Sl. now apply Sl.
      * intros x Sx. apply K2, K1, Sx.
    + destruct (fill_pages data_dict objs pgs) as [[o2 p2]|e] eqn:G;
        cbn [bind fst snd] in H; [|discriminate].
      injection H as <- <-.
      destruct (IH _ _ _ G) as [Sp K].
      split; [constructor; [exact I | exact Sp] | exact K].
Qed.

Lemma fill_annotations_all_settled (data_dict : record)
  (objs : list PdfDict) (l : list PdfDict) :
  Forall (settled data_dict objs) l ->
  fill_annotations data_dict objs l = Ok (objs, l).
Proof.
  induction 1 as [|a l Sa Sl IH]; simpl; [reflexivity|].
  rewrite Sa. cbn [bind fst snd]. now rewrite IH.
Qed.

Lemma fill_pages_all_settled (data_dict : record) (objs : list PdfDict)
  (pgs : list (option (list PdfDict))) :
  Forall (fun page => match page with
                      | Some l => Forall (settled data_dict objs) l
                      | None => True
                      end) pgs ->
  fill_pages data_dict objs pgs = Ok (objs, pgs).
Proof.
  induction 1 as [|pg pgs Sp Sl IH]; simpl; [reflexivity|].
  destruct pg as [l|].
  - rewrite (fill_annotations_all_settled _ _ _ Sp). cbn [bind fst snd].
    now rewrite IH.
  - now rewrite IH.
Qed.

(** X15.  Filling is idempotent: on the document that [fill_pdf] has
    returned for a record, it returns the same document for that record. *)
Theorem X15_filling_idempotent (template_pdf filled : PdfReader)
  (data_dict : record) :
  fill_pdf template_pdf data_dict = Ok filled ->
  fill_pdf filled data_dict = Ok filled.
Proof.
  unfold fill_pdf. intros H.
  destruct (fill_pages data_dict (objects template_pdf)
              (pages template_pdf)) as [[objs' pgs']|e] eqn:F;
    cbn [bind fst snd] in H; [|discriminate].
  destruct (AcroForm template_pdf); [|discriminate].
  injection H as <-. cbn [objects pages AcroForm].
  destruct (fill_pages_settled _ _ _ _ _ F) as [S _].
  now rewrite (fill_pages_all_settled _ _ _ S).
Qed.

Lemma X15_filling_idempotent_witness :
  fill_pdf
    {| objects := [update_V demo_parent (PName "/2")];
       pages := [ Some [demo_checkbox; demo_radio ["/1"; "/Off"]];
                  None;
                  Some [update_AS (demo_radio ["/2"; "/Off"])
                          (PName "/2")] ];
       AcroForm := Some true |}
    demo_record
  = Ok {| objects := [update_V demo_parent (PName "/2")];
          pages := [ Some [demo_checkbox; demo_radio ["/1"; "/Off"]];
                     None;
                     Some [update_AS (demo_radio ["/2"; "/Off"])
                             (PName "/2")] ];
          AcroForm := Some true |}.
Proof.
  apply (X15_filling_idempotent demo_template _ demo_record).
  reflexivity.
Defined.

(* ================================================================== *)
(** * From the raw record to the widgets *)
(* ================================================================== *)

(** Whether the metadata declares a name with a type can be decided. *)
Lemma classic_declared (md : list field) (ty name : string) :
  declared md ty name \/ ~ declared md ty name.
Proof.
  rewrite <- _extract_field_declared.
  destruct (in_dec string_dec name (_extract_field md ty)); tauto.
Qed.

(** The dropdown conversion makes no mapping: a mapping that the record
    holds after it was there before. *)
Lemma convert_dropdown_loop_mapping (texts : dict (dict string))
  (fields : list field) (r r' : record) (g : string) (d : dict value) :
  for_each (convert_dropdown texts) fields r = Ok r' ->
  dict_get g r' = Some (VDict d) -> dict_get g r = Some (VDict d).
Proof.
  revert r; induction fields as [|f fields IH]; intros r H E; simpl in H.
  - now injection H as <-.
  - destruct (convert_dropdown texts r f) as [r1|e] eqn:B; simpl in H;
      [|discriminate].
    specialize (IH r1 H E). clear H E.
    unfold convert_dropdown in B.
    destruct (String.eqb (field_type f) "dropdown");
      [|now injection B as <-].
    destruct (dict_item (field_name f) r) as [x|e]; simpl in B;
      [|discriminate].
    destruct (not_empty_str x); [|now injection B as <-].
    destruct (choice_text texts (field_name f) x) as [t|e]; simpl in B;
      [|discriminate].
    injection B as <-. rewrite dict_get_set in IH.
    destruct (String.eqb g (field_name f)); [discriminate | exact IH].
Qed.

(** A mapping that the first stage has left under a key comes from the
    radio branch on the raw value of that key. *)
Lemma convert_mapping_origin (raw : raw_record) (md : list field)
  (g : string) (d : dict value) :
  dict_get g (convert_checkboxes_and_radio_buttons raw md) = Some (VDict d) ->
  exists v,
    dict_get g raw = Some v /\ radio_key md g /\ d = [(v, VBool true)].
Proof.
  intros E. rewrite convert_checkboxes_and_radio_buttons_get in E.
  match type of E with
  | match ?s with _ => _ end = _ => destruct s as [t|] eqn:S
  end.
  - injection E as ->.
    apply convert_pass_snd_sound in S as [S | [g' [_ S]]]; [discriminate|].
    unfold staged_entry in S.
    destruct (dict_get g' raw); [|discriminate].
    destruct (is_checkbox_variable _ g'); [discriminate|].
    destruct (py_in g' _); [|discriminate].
    destruct (negb _); discriminate.
  - unfold visited_value in E. destruct (dict_get g raw) as [v|];
      [|discriminate].
    destruct (is_checkbox_variable _ g) eqn:C; [discriminate|].
    destruct (py_in g _) eqn:R; [|discriminate].
    injection E as <-. exists v. split; [reflexivity|]. split; [|reflexivity].
    split.
    + now apply is_checkbox_variable_false_iff.
    + now apply _extract_field_declared, py_in_iff.
Qed.

Lemma collapse_loop_small (groups : list string) (s s' : record) :
  small_mappings s ->
  for_each collapse_radio_group groups s = Ok s' -> s' = s.
Proof.
  induction groups as [|g groups IH]; intros Ss L; simpl in L.
  - now injection L as <-.
  - destruct (collapse_radio_group s g) as [s1|e] eqn:B; simpl in L;
      [|discriminate].
    rewrite (collapse_radio_group_small s s1 g Ss B) in L.
    exact (IH Ss L).
Qed.

Lemma convert_dropdowns_small (raw : raw_record) (md : list field)
  (r1 : record) :
  convert_dropdowns_to_strings
    (convert_checkboxes_and_radio_buttons raw md) md = Ok r1 ->
  small_mappings r1.
Proof.
  unfold convert_dropdowns_to_strings.
  apply (for_each_preserves small_mappings).
  - intros s f s' Ss Hf. exact (convert_dropdown_small _ _ _ _ Ss Hf).
  - intros k d E.
    destruct (convert_checkboxes_and_radio_buttons_values _ _ _ _ E)
      as [[s X] | [[b X] | [v X]]]; try discriminate.
    injection X as ->. simpl. lia.
Qed.

(** The entry of a radio field in the record that the pipeline returns. *)
Lemma prepare_for_fill_radio_entry (raw : raw_record) (md : list field)
  (r : record) (g : string) :
  prepare_for_fill raw md = Ok r ->
  declared md "radio" g ->
  exists v,
    dict_get g raw = Some v
    /\ radio_key md g
    /\ dict_get g r = Some (VDict [(v, VBool true)]).
Proof.
  unfold prepare_for_fill. intros H D.
  destruct (convert_dropdowns_to_strings _ md) as [r1|e] eqn:S2;
    simpl in H; [|discriminate].
  assert (W : well_formed r1).
  { apply (convert_dropdowns_to_strings_well_formed _ _ _
             (convert_checkboxes_and_radio_buttons_well_formed raw md) S2). }
  unfold collapse_radio_groups in H.
  destruct (collapse_loop_post (radio_groups md) r1 r W H g) as [k E];
    [now apply radio_groups_declared|].
  assert (R : r = r1)
    by exact (collapse_loop_small _ _ _ (convert_dropdowns_small _ _ _ S2) H).
  subst r. unfold convert_dropdowns_to_strings in S2.
  apply (convert_dropdown_loop_mapping _ _ _ _ g _ S2) in E as E0.
  destruct (convert_mapping_origin raw md g _ E0) as [v [Er [Rk Ed]]].
  injection Ed as ->. exists v. tauto.
Qed.

(** X16.  When the pipeline returns, every field that the metadata declares
    as radio is a key of the raw record, it was treated as a radio button,
    and the normalized record holds under it the mapping from its raw value
    to true. *)
Theorem X16_radio_entry_is_the_raw_value (raw : raw_record)
  (md : list field) (r : record) (g : string) :
  prepare_for_fill raw md = Ok r ->
  declared md "radio" g ->
  exists v,
    dict_get g raw = Some v
    /\ radio_key md g
    /\ dict_get g r = Some (VDict [(v, VBool true)]).
Proof. exact (prepare_for_fill_radio_entry raw md r g). Qed.

Lemma X16_radio_entry_is_the_raw_value_witness :
  exists v,
    dict_get "rg1" demo_raw = Some v
    /\ radio_key demo_md "rg1"
    /\ dict_get "rg1"
         [("rg1", VDict [("2", VBool true)]); ("dd1", VStr "Red");
          ("cb___1", VBool true); ("cb___2", VBool false);
          ("note", VStr "x"); ("rg1__rchoice", VStr "2")]
       = Some (VDict [(v, VBool true)]).
Proof.
  apply (X16_radio_entry_is_the_raw_value demo_raw demo_md).
  - reflexivity.
  - exists {| field_name := "rg1"; field_type := "radio";
              select_choices_or_calculations := Some "1, One | 2, Two" |}.
    simpl. tauto.
Defined.

(** The text companion of a radio button in the record that the pipeline
    returns. *)
Lemma prepare_for_fill_companion (raw : raw_record) (md : list field)
  (r : record) (g v : string) :
  prepare_for_fill raw md = Ok r ->
  dict_get g raw = Some v -> radio_key md g -> v <> EmptyString ->
  ~ declared md "dropdown" (g ++ RADIO_BUTTON_CHOICE_SUFFIX)%string ->
  dict_get (g ++ RADIO_BUTTON_CHOICE_SUFFIX)%string r = Some (VStr v).
Proof.
  intros H E Rk ne nD.
  assert (E0 : dict_get (g ++ RADIO_BUTTON_CHOICE_SUFFIX)%string
                 (convert_checkboxes_and_radio_buttons raw md)
               = Some (VStr v)).
  { rewrite convert_checkboxes_and_radio_buttons_get.
    rewrite (convert_pass_snd_complete raw _ _ g _ (VStr v));
      [reflexivity | | now apply radio_key_staged_entry].
    apply dict_get_in in E. apply (in_map fst) in E. exact E. }
  destruct (classic_declared md "radio"
              (g ++ RADIO_BUTTON_CHOICE_SUFFIX)%string) as [D|nR].
  - destruct (prepare_for_fill_radio_entry raw md r _ H D)
      as [v' [_ [_ Er]]].
    unfold prepare_for_fill in H.
    destruct (convert_dropdowns_to_strings _ md) as [r1|e] eqn:S2;
      simpl in H; [|discriminate].
    assert (R : r = r1)
      by exact (collapse_loop_small _ _ _
                  (convert_dropdowns_small _ _ _ S2) H).
    subst r. unfold convert_dropdowns_to_strings in S2.
    apply (convert_dropdown_loop_mapping _ _ _ _ _ _ S2) in Er.
    congruence.
  - now rewrite (prepare_for_fill_frame raw md r _ H nD nR).
Qed.

(** X17.  The radio button from the record to the widgets.  When the
    pipeline returns, a field declared as radio has a raw value in the
    record; a widget of the group of that name that declares appearance
    states gets the name of the raw value as its state, and its parent gets
    it as its value, when the widget offers it, and is left as it is when it
    does not; and when the raw value is not empty, the text widget that
    carries the name with the suffix gets the raw value as its text, with
    an empty appearance. *)
Theorem X17_radio_from_record_to_widgets (raw : raw_record)
  (md : list field) (r : record) (g : string) :
  prepare_for_fill raw md = Ok r ->
  declared md "radio" g ->
  exists v,
    dict_get g raw = Some v
    /\ (forall objs a p parent states,
          is_widget a = true -> field_key a = None ->
          Parent a = Some p -> nth_error objs p = Some parent ->
          carried_name parent = Some g ->
          AP a = Some (APDict (Some states)) ->
          fill_annotation r objs a
          = if py_in (PdfName v) states
            then Ok (store_set p (update_V parent (PName (PdfName v))) objs,
                     update_AS a (PName (PdfName v)))
            else Ok (objs, a))
    /\ (v <> EmptyString ->
        ~ declared md "dropdown" (g ++ RADIO_BUTTON_CHOICE_SUFFIX)%string ->
        forall objs a,
          is_widget a = true ->
          carried_name a = Some (g ++ RADIO_BUTTON_CHOICE_SUFFIX)%string ->
          fill_annotation r objs a
          = Ok (objs,
                update_AP_V a (APText EmptyString) (PValue (VStr v)))).
Proof.
  intros H D.
  destruct (prepare_for_fill_radio_entry raw md r g H D) as [v [E [Rk Er]]].
  exists v. split; [exact E|]. split.
  - intros objs a p parent states W K P N KP A.
    unfold fill_annotation, parent_of, down_states, carried_name in *.
    rewrite W, K, P, N. cbn [bind].
    destruct (field_key parent) as [t|]; simpl in KP; [|discriminate].
    injection KP as ->. rewrite Er, A. reflexivity.
  - intros ne nD objs a W K.
    assert (Ec := prepare_for_fill_companion raw md r g v H E Rk ne nD).
    unfold fill_annotation, carried_name in *. rewrite W.
    destruct (field_key a) as [t|]; simpl in K; [|discriminate].
    injection K as ->. now rewrite Ec.
Qed.

Lemma X17_radio_from_record_to_widgets_witness :
  exists v,
    dict_get "rg1" demo_raw = Some v
    /\ (forall objs a p parent states,
          is_widget a = true -> field_key a = None ->
          Parent a = Some p -> nth_error objs p = Some parent ->
          carried_name parent = Some "rg1" ->
          AP a = Some (APDict (Some states)) ->
          fill_annotation
            [("rg1", VDict [("2", VBool true)]); ("dd1", VStr "Red");
             ("cb___1", VBool true); ("cb___2", VBool false);
             ("note", VStr "x"); ("rg1__rchoice", VStr "2")]
            objs a
          = if py_in (PdfName v) states
            then Ok (store_set p (update_V parent (PName (PdfName v))) objs,
                     update_AS a (PName (PdfName v)))
            else Ok (objs, a))
    /\ (v <> EmptyString ->
        ~ declared demo_md "dropdown"
            ("rg1" ++ RADIO_BUTTON_CHOICE_SUFFIX)%string ->
        forall objs a,
          is_widget a = true ->
          carried_name a = Some ("rg1" ++ RADIO_BUTTON_CHOICE_SUFFIX)%string ->
          fill_annotation
            [("rg1", VDict [("2", VBool true)]); ("dd1", VStr "Red");
             ("cb___1", VBool true); ("cb___2", VBool false);
             ("note", VStr "x"); ("rg1__rchoice", VStr "2")]
            objs a
          = Ok (objs,
                update_AP_V a (APText EmptyString) (PValue (VStr v)))).
Proof.
  apply (X17_radio_from_record_to_widgets demo_raw demo_md).
  - reflexivity.
  - exists {| field_name := "rg1"; field_type := "radio";
              select_choices_or_calculations := Some "1, One | 2, Two" |}.
    simpl. tauto.
Defined.

(* ================================================================== *)
(** * The secrets and the command line *)
(* ================================================================== *)

(** X18.  [load_secrets] returns exactly when the object holds both keys
    with values that are not empty, and then returns the object as it is.
    A missing [api_key] raises KeyError; with an empty [api_key] the [url]
    is not looked at and the exception is ValueError even when the [url] is
    missing. *)
Theorem X18_load_secrets (result : dict string) :
  (forall secrets,
     load_secrets result = Ok secrets
     <-> secrets = result
         /\ exists api_key url,
              dict_get "api_key" result = Some api_key
              /\ dict_get "url" result = Some url
              /\ api_key <> EmptyString /\ url <> EmptyString)
  /\ (dict_get "api_key" result = None -> load_secrets result = Err KeyError)
  /\ (dict_get "api_key" result = Some EmptyString ->
      load_secrets result = Err ValueError).
Proof.
  unfold load_secrets, dict_item. split; [|split].
  - intros secrets. split.
    + destruct (dict_get "api_key" result) as [k|]; simpl; [|discriminate].
      destruct (String.eqb_spec k EmptyString) as [->|nk]; simpl;
        [discriminate|].
      destruct (dict_get "url" result) as [u|]; simpl; [|discriminate].
      destruct (String.eqb_spec u EmptyString) as [->|nu]; simpl;
        [discriminate|].
      intros [= <-]. split; [reflexivity|]. now exists k, u.
    + intros [-> [k [u [-> [-> [nk nu]]]]]]. simpl.
      destruct (String.eqb_spec k EmptyString); [contradiction|]. simpl.
      destruct (String.eqb_spec u EmptyString); [contradiction|].
      reflexivity.
  - now intros ->.
  - now intros ->.
Qed.

Lemma X18_load_secrets_witness :
  load_secrets [("api_key", EmptyString)] = Err ValueError
  /\ load_secrets [("url", "https://redcap.example/api/")] = Err KeyError.
Proof.
  split.
  - apply (X18_load_secrets [("api_key", EmptyString)]). reflexivity.
  - apply (X18_load_secrets [("url", "https://redcap.example/api/")]).
    reflexivity.
Defined.

Section CommandLineReturns.

Variable path : Type.
Variable Path : string -> path.
Variable path_eqb : path -> path -> bool.
Variable path_str : path -> string.
Variable path_stem : path -> string.
Variable path_exists : path -> bool.
Variable now : string.

(** X19.  When the validation of the command line returns, it has asked
    once whether the template exists and has not asked for anything else:
    the template path ends in [.pdf] and exists, the output path is another
    path than the template, the identifier and the record variable are
    those of the arguments, and the output path is the one made from the
    argument, or from the time stamp, the stem of the template and the
    identifier when the argument is missing or empty. *)
Theorem X19_validated_arguments (inp : Namespace) (log : list (event path))
  (id var : string) (i o : path) :
  get_cmd_line_input path Path path_eqb path_str path_stem path_exists now
    inp = (log, Ok (id, var, i, o)) ->
  py_endswith ".pdf" (input_pdf inp) = true
  /\ path_exists i = true
  /\ path_eqb i o = false
  /\ i = Path (input_pdf inp)
  /\ id = identifier inp /\ var = record_variable inp
  /\ o = match output_pdf inp with
         | Some out =>
             if String.eqb out EmptyString
             then Path (default_output_pdf path Path path_stem now inp)
             else Path out
         | None => Path (default_output_pdf path Path path_stem now inp)
         end
  /\ exists printed,
       log = Stat i :: map Print printed.
Proof.
  unfold get_cmd_line_input. intros H.
  destruct (py_endswith ".pdf" (input_pdf inp)); [|discriminate].
  cbn [negb] in H.
  destruct (path_exists (Path (input_pdf inp))) eqn:X; [|discriminate].
  cbn [negb] in H.
  assert (C : snd (choose_output_pdf path Path path_stem now inp)
              = match output_pdf inp with
                | Some out =>
                    if String.eqb out EmptyString
                    then Path (default_output_pdf path Path path_stem now inp)
                    else Path out
                | None => Path (default_output_pdf path Path path_stem now inp)
                end
              /\ exists printed,
                   fst (choose_output_pdf path Path path_stem now inp)
                   = map Print printed).
  { unfold choose_output_pdf. destruct (output_pdf inp) as [out|].
    - destruct (String.eqb out EmptyString).
      + split; [reflexivity|]. eexists [_]. reflexivity.
      + destruct (negb (py_endswith ".pdf" out)).
        * split; [reflexivity|]. eexists [_; _]. reflexivity.
        * split; [reflexivity|]. now exists [].
    - split; [reflexivity|]. eexists [_]. reflexivity. }
  destruct (choose_output_pdf path Path path_stem now inp) as [printed o'].
  cbn [fst snd] in C. destruct C as [Co [pr Cp]].
  destruct (path_eqb (Path (input_pdf inp)) o') eqn:Q; [discriminate|].
  injection H as <- <- <- <- <-.
  repeat split; try assumption; try reflexivity.
  exists (pr ++ [inputs_line path path_str inp (Path (input_pdf inp)) o']).
  rewrite map_app, Cp. reflexivity.
Qed.

End CommandLineReturns.

Lemma X19_validated_arguments_witness :
  py_endswith ".pdf" "form.pdf" = true
  /\ (fun p : string => negb (String.eqb p "missing.pdf")) "form.pdf" = true
  /\ String.eqb "form.pdf" "./output/20260101_000000_form_7.pdf" = false
  /\ "form.pdf" = "form.pdf"
  /\ "7" = "7" /\ "record_id" = "record_id"
  /\ "./output/20260101_000000_form_7.pdf"
     = "./output/20260101_000000_form_7.pdf"
  /\ exists printed,
       [Stat "form.pdf";
        Print "No output PDF file specified; writing filled PDF to: ./output/20260101_000000_form_7.pdf";
        Print (inputs_line string (fun p => p)
                 {| identifier := "7"; record_variable := "record_id";
                    input_pdf := "form.pdf"; output_pdf := None |}
                 "form.pdf" "./output/20260101_000000_form_7.pdf")]
       = Stat "form.pdf" :: map Print printed.
Proof.
  apply (X19_validated_arguments string (fun s => s) String.eqb
           (fun p => p) (fun _ => "form")
           (fun p => negb (String.eqb p "missing.pdf")) "20260101_000000"
           {| identifier := "7"; record_variable := "record_id";
              input_pdf := "form.pdf"; output_pdf := None |}).
  reflexivity.
Defined.
